(** * CSV_Data_Cleaner: a shallow embedding of [data_cleaner.py]

    The class [CleanerCSV] of [src/data_cleaner.py] is embedded as a record
    of its attributes and a small state-and-exception monad over it.  The
    pandas containers ([DataFrame], [Series]) are modelled concretely; the
    value-level pandas calls ([to_numeric], [to_datetime], [astype],
    [quantile], the arithmetic on what [quantile] answers and the comparison
    of a column with it) are an interface ([Pandas]), and the report engine
    is another ([Profiling]); every general theorem is stated over both, with
    one reference instance of each used to evaluate examples. *)

From Stdlib Require Import ZArith Ascii String List Bool.
From Stdlib Require Import Floats.SpecFloat.
From stdpp Require Import gmap strings list sorting.

Open Scope string_scope.
Open Scope list_scope.

(** ** Python values and exceptions *)

(** Exceptions that the modelled code can raise or let through. *)
Inductive exn :=
| KeyError | TypeError | ValueError | IOError | ParserError
| FileNotFoundError | JSONDecodeError | NotImplementedError
| UnicodeDecodeError | PermissionError | IsADirectoryError.

(** What a [json.load] of a specification can hold under a key: the value
    types of the recognised options, and [None] (JSON null; also what
    [dict.get] answers for an absent key). *)
Inductive pyval :=
| PyNone
| PyBool (b : bool)
| PyStr (s : string)
| PyList (l : list string).

(** Python truthiness, as used by [if x:] and [not x]. *)
Definition truthy (v : pyval) : bool :=
  match v with
  | PyNone => false
  | PyBool b => b
  | PyStr s => negb (String.eqb s "")
  | PyList l => negb (Nat.eqb (length l) 0)
  end.

(** [len(v)]. *)
Definition py_len (v : pyval) : exn + nat :=
  match v with
  | PyList l => inr (length l)
  | PyStr s => inr (String.length s)
  | PyNone | PyBool _ => inl TypeError
  end.

Fixpoint chars (s : string) : list string :=
  match s with
  | EmptyString => []
  | String a s' => String a EmptyString :: chars s'
  end.

(** [iter(v)], the sequence a [for] loop or [zip] walks through. *)
Definition py_iter (v : pyval) : exn + list string :=
  match v with
  | PyList l => inr l
  | PyStr s => inr (chars s)
  | PyNone | PyBool _ => inl TypeError
  end.

(** The specification: a [dict] from option name to value. *)
Abbreviation config := (gmap string pyval).

(** [cfg.get(key)]: [None] when the key is absent. *)
Definition cfg_get (cfg : config) (key : string) : pyval :=
  default PyNone (cfg !! key).

(** [DEFAULT_CFG]. *)
Definition DEFAULT_CFG : config :=
  list_to_map
    [ ("input_file", PyStr "data/my_data.csv");
      ("output_file", PyStr "data/my_data_clean1.csv");
      ("delimiter_in", PyStr ",");
      ("delimiter_out", PyStr ",");
      ("input_file_profile", PyStr "profiles/input_file.html");
      ("output_file_profile", PyStr "profiles/output_file.html");
      ("summary_file", PyStr "");
      ("drop_repeat_headers", PyBool true);
      ("drop_duplicates", PyBool true);
      ("drop_na", PyBool true);
      ("clean_types", PyBool true);
      ("export_output_file", PyBool true);
      ("str_col", PyList ["Product"; "Purchase Address"]);
      ("float_col", PyList []);
      ("int_col", PyList []);
      ("numeric_col", PyList ["Order ID"; "Quantity Ordered"; "Price Each"]);
      ("datetime_col", PyList ["Order Date"]);
      ("datetime_format", PyList ["%m/%d/%y %H:%M"]);
      ("drop_col", PyList []);
      ("quantile_ouliers_col", PyList []) ].

(** ** Paths ([pathlib], POSIX flavour) *)

(** A path is its anchor and its components; equality is component-wise,
    as [pathlib] compares pure paths. *)
Record Path := mkPath { anchored : bool; parts : list string }.

#[global] Instance Path_eq_dec : EqDecision Path.
Proof. solve_decision. Defined.

#[global] Instance Path_countable : Countable Path.
Proof.
  refine (inj_countable' (fun p => (anchored p, parts p))
                         (fun ap => mkPath ap.1 ap.2) _).
  by intros [].
Defined.

(** Splitting at ['/']. *)
Fixpoint split_slash (acc : string) (s : string) : list string :=
  match s with
  | EmptyString => [acc]
  | String a s' =>
      if Ascii.eqb a "/"%char then acc :: split_slash "" s'
      else split_slash (acc ++ String a EmptyString)%string s'
  end.

(** [Path(s)]: empty and ["."] components vanish. *)
Definition Path_of (s : string) : Path :=
  mkPath (match s with String a _ => Ascii.eqb a "/"%char | _ => false end)
         (filter (fun c => c <> "" /\ c <> ".") (split_slash "" s)).

(** [p / q]: an anchored right operand replaces the left one. *)
Definition path_join (p q : Path) : Path :=
  if anchored q then q else mkPath (anchored p) (parts p ++ parts q).

(** [p.parent]. *)
Definition parent (p : Path) : Path :=
  mkPath (anchored p) (removelast (parts p)).

(** [pyval / str] operands of [pathlib]'s [/]: only a string is accepted. *)
Definition path_div (p : Path) (v : pyval) : exn + Path :=
  match v with
  | PyStr s => inr (path_join p (Path_of s))
  | _ => inl TypeError
  end.

(** [BASE_DIR = Path(__name__).parent], the parent of a one-component
    relative path. *)
Definition BASE_DIR : Path := parent (Path_of "data_cleaner").

(** ** Cells, series and data frames *)

(** Python floats and numpy [float64] are IEEE 754 binary64. *)
Abbreviation float := spec_float.
Definition prec : Z := 53.
Definition emax : Z := 1024.
Definition fadd : float -> float -> float := SFadd prec emax.
Definition fsub : float -> float -> float := SFsub prec emax.
Definition fmul : float -> float -> float := SFmul prec emax.
Definition fdiv : float -> float -> float := SFdiv prec emax.
Definition fle : float -> float -> bool := SFleb.
Definition float_of_Z (z : Z) : float := binary_normalize prec emax z 0 false.
(** [m * 2^e] for a positive mantissa, rounded to binary64. *)
Definition float_lit (m : Z) (e : Z) : float := binary_normalize prec emax m e false.

Definition is_nan (f : float) : bool :=
  match f with S754_nan => true | _ => false end.

(** A cell of the table.  [Float S754_nan] is [NaN], the missing value of
    numeric and object columns; [NaT] is the missing datetime. *)
Inductive cell :=
| Int (z : Z)
| Float (f : float)
| Str (s : string)
| Timestamp (ns : Z)
| NaT.

Definition NaN : cell := Float S754_nan.

#[global] Instance spec_float_eq_dec : EqDecision spec_float.
Proof. solve_decision. Defined.
#[global] Instance cell_eq_dec : EqDecision cell.
Proof. solve_decision. Defined.

(** [pd.isna] on a cell. *)
Definition isna (c : cell) : bool :=
  match c with
  | Float f => is_nan f
  | NaT => true
  | _ => false
  end.

Abbreviation Series := (list cell).
Abbreviation row := (list cell).

(** A table: the column labels and the rows, each row holding one cell per
    column.  The index is the default one of [read_csv] (unique labels), so
    rows are identified by position. *)
Record DataFrame := mkDF { columns : list string; rows : list row }.

Definition col_index (d : DataFrame) (col : string) : option nat :=
  fst <$> list_find (fun c => c = col) (columns d).

(** The cell of a row under column position [i]. *)
Definition cell_at (i : nat) (r : row) : cell := default NaN (r !! i).

(** [df[col]] *)
Definition getitem (d : DataFrame) (col : string) : exn + Series :=
  match col_index d col with
  | None => inl KeyError
  | Some i => inr (map (cell_at i) (rows d))
  end.

(** [df[col] = s] *)
Definition setitem (d : DataFrame) (col : string) (s : Series) : DataFrame :=
  match col_index d col with
  | Some i =>
      mkDF (columns d) (imap (fun j r => <[i := default NaN (s !! j)]> r) (rows d))
  | None =>
      mkDF (columns d ++ [col]) (imap (fun j r => r ++ [default NaN (s !! j)]) (rows d))
  end.

(** [df.drop(labels=col, axis="columns")] *)
Definition drop_label (d : DataFrame) (col : string) : exn + DataFrame :=
  match col_index d col with
  | None => inl KeyError
  | Some i => inr (mkDF (delete i (columns d)) (map (delete i) (rows d)))
  end.

(** Boolean-mask selection on a list of rows. *)
Fixpoint select (mask : list bool) (rs : list row) : list row :=
  match mask, rs with
  | b :: mask', r :: rs' => if b then r :: select mask' rs' else select mask' rs'
  | _, _ => []
  end.

(** [df[mask]] *)
Definition df_mask (d : DataFrame) (mask : list bool) : DataFrame :=
  mkDF (columns d) (select mask (rows d)).

(** A cell compared with a column label by [DataFrame.eq]. *)
Definition cell_eq_label (c : cell) (name : string) : bool :=
  match c with
  | Str s => String.eqb s name
  | _ => false
  end.

(** [df.eq(df.columns).any(axis=1)] *)
Definition eq_columns_any (d : DataFrame) : list bool :=
  map (fun r => existsb id (zip_with cell_eq_label r (columns d))) (rows d).

(** [df.drop(df.loc[mask].index)] *)
Definition drop_where (d : DataFrame) (mask : list bool) : DataFrame :=
  df_mask d (map negb mask).

(** Two floats that [duplicated] takes for one value: the same float, the
    two zeros, or two [NaN]. *)
Definition float_same (f g : float) : bool :=
  match f, g with
  | S754_zero _, S754_zero _ => true
  | _, _ => bool_decide (f = g)
  end.

(** Two cells that [duplicated] takes for equal: two missing values, or
    the same value.  (A column read by [read_csv] or left by a conversion
    never holds an integer and a float at once.) *)
Definition cell_same (c d : cell) : bool :=
  match c, d with
  | Float f, Float g => float_same f g
  | _, _ => isna c && isna d || bool_decide (c = d)
  end.

(** One representative for the cells that are taken for equal. *)
Definition cell_key (c : cell) : cell :=
  match c with
  | Float (S754_zero _) => Float (S754_zero false)
  | Float S754_nan | NaT => NaT
  | _ => c
  end.

(** Two rows that are equal cell by cell. *)
Fixpoint row_same (r q : row) : bool :=
  match r, q with
  | [], [] => true
  | c :: r', d :: q' => cell_same c d && row_same r' q'
  | _, _ => false
  end.

(** [drop_duplicates(keep="last")] on the rows: a row goes when a later
    row is equal to it. *)
Fixpoint drop_duplicates_last (rs : list row) : list row :=
  match rs with
  | [] => []
  | r :: rest =>
      if existsb (row_same r) rest then drop_duplicates_last rest
      else r :: drop_duplicates_last rest
  end.

Definition drop_duplicates (d : DataFrame) : DataFrame :=
  mkDF (columns d) (drop_duplicates_last (rows d)).

(** [dropna(axis="index", how="all")] *)
Definition dropna_all (d : DataFrame) : DataFrame :=
  mkDF (columns d) (filter (fun r => forallb isna r = false) (rows d)).

(** ** The exception monad of expressions *)

#[global] Instance result_ret : MRet (sum exn) := fun _ x => inr x.
#[global] Instance result_bind : MBind (sum exn) :=
  fun _ _ f m => match m with inl e => inl e | inr x => f x end.
#[global] Instance result_fmap : FMap (sum exn) :=
  fun _ _ f m => match m with inl e => inl e | inr x => inr (f x) end.

(** The [float64] value of a cell of a numeric column. *)
Definition float64 (c : cell) : float :=
  match c with
  | Int z => float_of_Z z
  | Float f => f
  | Str _ | Timestamp _ | NaT => S754_nan
  end.

(** [a & b] on boolean series. *)
Definition series_and (a b : list bool) : list bool := zip_with andb a b.

(** ** The pandas conversions used by the cleaner *)

(** The targets of [type_map]. *)
Inductive pytype := py_int | py_float | py_str.

Definition is_Int (c : cell) : Prop := match c with Int _ => True | _ => False end.
Definition is_Float (c : cell) : Prop := match c with Float _ => True | _ => False end.

(** A series of dtype [int64] or [float64].  The cells carry the dtype:
    a series without cells counts as numeric, its quantiles being missing
    and its comparisons empty whatever its dtype. *)
Definition numeric_series (s : Series) : Prop :=
  Forall is_Int s \/ Forall is_Float s.

(** The value-level pandas calls of [data_cleaner.py].  They belong to the
    library, not to the repository: the cleaner is modelled over any
    implementation of them.  What [quantile] answers depends on the column
    (a [float64] for a numeric column, a [Timestamp] or [NaT] for a datetime
    column), and so does the arithmetic on it ([Timestamp - Timestamp] is a
    [Timedelta]); these scalars are a type of the interface.  The laws are
    those the properties below rest on: a comparison answers one boolean per
    cell, and [False] for a missing cell; on numeric columns the scalars are
    floats, the arithmetic is that of binary64 and no call raises. *)
Class Pandas := {
  (** [pd.to_numeric(s, errors="coerce")] *)
  to_numeric : Series -> exn + Series;
  (** [pd.to_datetime(s, format=form, errors="coerce")] *)
  to_datetime : Series -> string -> exn + Series;
  (** [s.astype(t)] *)
  astype : Series -> pytype -> exn + Series;
  (** the scalars: [float64], [Timestamp], [Timedelta], [NaT] *)
  scalar : Type;
  (** a [float64] as a scalar *)
  of_float : float -> scalar;
  (** [s.quantile(q)] *)
  quantile : Series -> float -> exn + scalar;
  (** [x - y] *)
  scalar_sub : scalar -> scalar -> exn + scalar;
  (** [x + y] *)
  scalar_add : scalar -> scalar -> exn + scalar;
  (** [a * x] for a Python float [a] *)
  scalar_rmul : float -> scalar -> exn + scalar;
  (** [s >= x] *)
  series_ge : Series -> scalar -> exn + list bool;
  (** [s <= x] *)
  series_le : Series -> scalar -> exn + list bool;

  series_ge_length :
    forall s x m, series_ge s x = inr m -> length m = length s;
  series_le_length :
    forall s x m, series_le s x = inr m -> length m = length s;
  (** no comparison holds of a missing value *)
  series_ge_missing :
    forall s x m i c, series_ge s x = inr m ->
      s !! i = Some c -> isna c = true -> m !! i = Some false;
  series_le_missing :
    forall s x m i c, series_le s x = inr m ->
      s !! i = Some c -> isna c = true -> m !! i = Some false;
  (** a quantile of a numeric series is a float ([NaN] when there is no
      value to rank) *)
  quantile_numeric :
    forall s q, numeric_series s -> exists x, quantile s q = inr (of_float x);
  scalar_sub_float :
    forall x y, scalar_sub (of_float x) (of_float y) = inr (of_float (fsub x y));
  scalar_add_float :
    forall x y, scalar_add (of_float x) (of_float y) = inr (of_float (fadd x y));
  scalar_rmul_float :
    forall a x, scalar_rmul a (of_float x) = inr (of_float (fmul a x));
  series_ge_float :
    forall s x, numeric_series s ->
      series_ge s (of_float x) = inr (map (fun c => fle x (float64 c)) s);
  series_le_float :
    forall s x, numeric_series s ->
      series_le s (of_float x) = inr (map (fun c => fle (float64 c) x) s)
}.

(** The report engine ([ydata_profiling]), a library as well. *)
Class Profiling := {
  (** [ProfileReport(d)] and the rendering done by [to_file]: the report
      of [d] gets built, or the engine raises, before anything is written *)
  to_file : DataFrame -> exn + unit;
  (** the engine refuses a table without rows *)
  to_file_empty : forall d, rows d = [] -> to_file d = inl ValueError
}.

(** ** Files and log records *)

(** Why something that exists at a path cannot be read as text. *)
Inductive unreadable := NotUtf8 | NoPermission | Directory.

(** The exception its reader gets: from [open] for a directory or a file
    without read permission, from the decoding of the first read for bytes
    that are not UTF-8. *)
Definition read_error (u : unreadable) : exn :=
  match u with
  | NotUtf8 => UnicodeDecodeError
  | NoPermission => PermissionError
  | Directory => IsADirectoryError
  end.

(** What is found at a path of the file system, by what its readers obtain
    from it. *)
Inductive file :=
| JsonText (c : config)                  (* text that [json.load] parses to [c] *)
| CsvText (parse : string -> DataFrame)  (* delimited text: the frame [read_csv] builds for a separator *)
| HtmlReport (d : DataFrame)             (* the profile report of a frame *)
| OtherText                              (* any other text *)
| Unreadable (why : unreadable).         (* nothing that can be read as text *)

Inductive level := DEBUG | INFO | WARNING | ERROR.

(** The messages of the [logger] calls, by call site and arguments. *)
Inductive message :=
| ConfigNotFound (config_file : Path)
| ConfigNotValidJSON (config_file : Path)
| LoadedConfig (cfg_file : Path)
| FailedToReadCSV
| LoadedData (source_path : Path)
| ProfilingSource (f : Path)
| ProfilingCleaned (f : Path)
| ProfilingFinished
| RemovingHeaders
| RemovingDuplicates
| RunningToNumeric (col : string)
| RunningAstype (type_str col : string)
| AstypeFailed (col type_str : string)
| DatetimeSkipped (l_cols l_forms : nat)
| RunningToDatetime (col form : string)
| DroppingNaN
| DroppingColumns (cols : pyval)
| ColumnNotInFrame (col : string).

(** ** The [CleanerCSV] object *)

(** The attributes of an instance, together with the two pieces of the
    outside world its methods act on: the file system ([files], keyed by
    absolute path, and the working directory [cwd]) and the records sent to
    the logger ([logger], oldest first). *)
Record CleanerCSV := mkCleaner {
  local_path : Path;
  logfile : Path;
  cfg : config;
  cfg_file : Path;
  input_profile : Path;
  output_profile : Path;
  df : DataFrame;
  df_changed : bool;
  na_safe : bool;
  logger : list (level * message);
  cwd : Path;
  files : gmap Path file
}.

Definition set_local_path (v : Path) (s : CleanerCSV) : CleanerCSV :=
  mkCleaner v (logfile s) (cfg s) (cfg_file s) (input_profile s) (output_profile s)
            (df s) (df_changed s) (na_safe s) (logger s) (cwd s) (files s).
Definition set_logfile (v : Path) (s : CleanerCSV) : CleanerCSV :=
  mkCleaner (local_path s) v (cfg s) (cfg_file s) (input_profile s) (output_profile s)
            (df s) (df_changed s) (na_safe s) (logger s) (cwd s) (files s).
Definition set_cfg (v : config) (s : CleanerCSV) : CleanerCSV :=
  mkCleaner (local_path s) (logfile s) v (cfg_file s) (input_profile s) (output_profile s)
            (df s) (df_changed s) (na_safe s) (logger s) (cwd s) (files s).
Definition set_cfg_file (v : Path) (s : CleanerCSV) : CleanerCSV :=
  mkCleaner (local_path s) (logfile s) (cfg s) v (input_profile s) (output_profile s)
            (df s) (df_changed s) (na_safe s) (logger s) (cwd s) (files s).
Definition set_input_profile (v : Path) (s : CleanerCSV) : CleanerCSV :=
  mkCleaner (local_path s) (logfile s) (cfg s) (cfg_file s) v (output_profile s)
            (df s) (df_changed s) (na_safe s) (logger s) (cwd s) (files s).
Definition set_output_profile (v : Path) (s : CleanerCSV) : CleanerCSV :=
  mkCleaner (local_path s) (logfile s) (cfg s) (cfg_file s) (input_profile s) v
            (df s) (df_changed s) (na_safe s) (logger s) (cwd s) (files s).
Definition set_df (v : DataFrame) (s : CleanerCSV) : CleanerCSV :=
  mkCleaner (local_path s) (logfile s) (cfg s) (cfg_file s) (input_profile s) (output_profile s)
            v (df_changed s) (na_safe s) (logger s) (cwd s) (files s).
Definition set_df_changed (v : bool) (s : CleanerCSV) : CleanerCSV :=
  mkCleaner (local_path s) (logfile s) (cfg s) (cfg_file s) (input_profile s) (output_profile s)
            (df s) v (na_safe s) (logger s) (cwd s) (files s).
Definition set_na_safe (v : bool) (s : CleanerCSV) : CleanerCSV :=
  mkCleaner (local_path s) (logfile s) (cfg s) (cfg_file s) (input_profile s) (output_profile s)
            (df s) (df_changed s) v (logger s) (cwd s) (files s).
Definition add_log (r : level * message) (s : CleanerCSV) : CleanerCSV :=
  mkCleaner (local_path s) (logfile s) (cfg s) (cfg_file s) (input_profile s) (output_profile s)
            (df s) (df_changed s) (na_safe s) (logger s ++ [r]) (cwd s) (files s).
Definition set_files (v : gmap Path file) (s : CleanerCSV) : CleanerCSV :=
  mkCleaner (local_path s) (logfile s) (cfg s) (cfg_file s) (input_profile s) (output_profile s)
            (df s) (df_changed s) (na_safe s) (logger s) (cwd s) v.

(** [p.absolute()] *)
Definition absolute (s : CleanerCSV) (p : Path) : Path := path_join (cwd s) p.

(** ** The monad of methods: state of the object, and exceptions *)

Definition M (A : Type) : Type := CleanerCSV -> (exn + A) * CleanerCSV.

#[global] Instance M_ret : MRet M := fun _ x s => (inr x, s).
#[global] Instance M_bind : MBind M :=
  fun _ _ f m s =>
    match m s with
    | (inl e, s') => (inl e, s')
    | (inr x, s') => f x s'
    end.

Definition raise {A} (e : exn) : M A := fun s => (inl e, s).
Definition lift {A} (r : exn + A) : M A := fun s => (r, s).
Definition get {A} (f : CleanerCSV -> A) : M A := fun s => (inr (f s), s).
Definition modify (f : CleanerCSV -> CleanerCSV) : M unit := fun s => (inr tt, f s).

(** [try: body except ...: handler]: [handler e] is [None] for an exception
    no clause matches.  What the body did to the object before raising
    stays done. *)
Definition try_except {A} (body : M A) (handler : exn -> option (M A)) : M A :=
  fun s =>
    match body s with
    | (inl e, s') =>
        match handler e with
        | Some h => h s'
        | None => (inl e, s')
        end
    | (inr x, s') => (inr x, s')
    end.

(** [for x in l: body] *)
Fixpoint for_each {A} (l : list A) (body : A -> M unit) : M unit :=
  match l with
  | [] => mret tt
  | x :: l' => body x;; for_each l' body
  end.

Definition log (lv : level) (m : message) : M unit := modify (add_log (lv, m)).

(** ** The methods of [CleanerCSV] *)

Section Methods.
Context {pd : Pandas} {pr : Profiling}.

(** [open(p, encoding="utf-8")] followed by [json.load]. *)
Definition open_json (p : Path) : M config :=
  fun s =>
    match files s !! absolute s p with
    | None => (inl FileNotFoundError, s)
    | Some (JsonText c) => (inr c, s)
    | Some (Unreadable u) => (inl (read_error u), s)
    | Some _ => (inl JSONDecodeError, s)
    end.

(** [p.exists()] *)
Definition exists_ (p : Path) : M bool :=
  get (fun s => bool_decide (is_Some (files s !! absolute s p))).

(** Writing a whole file. *)
Definition write_file (p : Path) (f : file) : M unit :=
  modify (fun s => set_files (<[absolute s p := f]> (files s)) s).

(** [pd.read_csv(p, sep=sep)] *)
Definition read_csv (p : Path) (sep : pyval) : M DataFrame :=
  fun s =>
    match sep with
    | PyStr sep =>
        match files s !! absolute s p with
        | None => (inl FileNotFoundError, s)
        | Some (CsvText parse) => (inr (parse sep), s)
        | Some (Unreadable u) => (inl (read_error u), s)
        | Some _ => (inl ParserError, s)
        end
    | _ => (inl TypeError, s)
    end.

(** [create_default_config] *)
Definition create_default_config : M config :=
  let default_cfg_file := path_join BASE_DIR (Path_of "default_specs.json") in
  ex ← exists_ default_cfg_file;
  if ex : bool then
    open_json default_cfg_file
  else
    let default := DEFAULT_CFG in
    write_file default_cfg_file (JsonText default);;
    mret default.

(** [csv_read] *)
Definition csv_read : M DataFrame :=
  lp ← get local_path;
  c ← get cfg;
  source_path ← lift (path_div lp (cfg_get c "input_file"));
  let sep := cfg_get c "delimiter_in" in
  let sep := if truthy sep then sep else PyStr "," in
  df_source ← try_except (read_csv source_path sep)
    (fun e => match e with
              | IOError | FileNotFoundError | PermissionError | IsADirectoryError =>
                  Some (log ERROR FailedToReadCSV;; raise e)
              | _ => None
              end);
  log INFO (LoadedData source_path);;
  mret df_source.

(** The first part of [__init__]: the [try] statement that reads the
    specification, and the record of what was loaded. *)
Definition load_config (config_file : Path) : M unit :=
  try_except
    (c ← open_json config_file;
     modify (set_cfg c);;
     modify (set_cfg_file config_file))
    (fun e => match e with
              | FileNotFoundError =>
                  Some (c ← create_default_config;
                        modify (set_cfg c);;
                        modify (fun s => set_cfg_file
                          (absolute s (path_join BASE_DIR (Path_of "default_specs.json"))) s);;
                        log WARNING (ConfigNotFound config_file))
              | JSONDecodeError =>
                  Some (c ← create_default_config;
                        modify (set_cfg c);;
                        modify (fun s => set_cfg_file
                          (absolute s (path_join BASE_DIR (Path_of "default_specs.json"))) s);;
                        log WARNING (ConfigNotValidJSON config_file))
              | _ => None
              end);;
  cf ← get cfg_file;
  log INFO (LoadedConfig cf).

(** [__init__], on a fresh object.  The set-up of the log handlers is left
    out; of the [summary_file] block only the path arithmetic remains. *)
Definition init (config_file : Path) : M unit :=
  modify (set_local_path (parent config_file));;
  modify (set_logfile (path_join BASE_DIR (Path_of "data_cleaner.log")));;
  load_config config_file;;
  c ← get cfg;
  let user_log := cfg_get c "summary_file" in
  (if truthy user_log then _ ← lift (path_div BASE_DIR user_log); mret tt
   else mret tt);;
  ip ← lift (path_div BASE_DIR (cfg_get c "input_file_profile"));
  modify (set_input_profile ip);;
  op ← lift (path_div BASE_DIR (cfg_get c "output_file_profile"));
  modify (set_output_profile op);;
  d ← csv_read;
  modify (set_df d);;
  modify (set_df_changed false);;
  modify (set_na_safe false).

(** [html_profile]: the report engine builds the report of the table,
    which is written to the chosen file, whose path is returned.  The
    directories made above that file are not part of the file system
    modelled here. *)
Definition html_profile : M Path :=
  changed ← get df_changed;
  lp ← get local_path;
  c ← get cfg;
  file ←
    (if negb changed then
       file ← lift (path_div lp (cfg_get c "input_file_profile"));
       log INFO (ProfilingSource file);;
       mret file
     else
       file ← lift (path_div lp (cfg_get c "output_file_profile"));
       log INFO (ProfilingCleaned file);;
       mret file);
  d ← get df;
  lift (to_file d);;
  write_file file (HtmlReport d);;
  log INFO ProfilingFinished;;
  mret file.

(** [clean_headers] *)
Definition clean_headers : M unit :=
  c ← get cfg;
  if truthy (cfg_get c "drop_repeat_headers") then
    log INFO RemovingHeaders;;
    modify (set_df_changed true);;
    modify (fun s => set_df (drop_where (df s) (eq_columns_any (df s))) s)
  else mret tt.

(** [clean_drop_dupplicates] *)
Definition clean_drop_dupplicates : M unit :=
  c ← get cfg;
  if truthy (cfg_get c "drop_duplicates") then
    log INFO RemovingDuplicates;;
    modify (set_df_changed true);;
    modify (fun s => set_df (drop_duplicates (df s)) s)
  else mret tt.

(** [self.df[col]] *)
Definition self_df (col : string) : M Series :=
  d ← get df;
  lift (getitem d col).

(** [self.df[col] = f(self.df[col])] *)
Definition update_column (col : string) (f : Series -> exn + Series) : M unit :=
  s ← self_df col;
  s' ← lift (f s);
  modify (fun st => set_df (setitem (df st) col s') st).

(** [clean_numeric_columns] *)
Definition clean_numeric_columns : M unit :=
  c ← get cfg;
  if negb (truthy (cfg_get c "clean_types")) then mret tt
  else
    modify (set_df_changed true);;
    cols ← lift (py_iter (cfg_get c "numeric_col"));
    for_each cols (fun col =>
      log INFO (RunningToNumeric col);;
      update_column col to_numeric).

(** [type_map.get(type_str, str)] *)
Definition type_map_get (type_str : string) : pytype :=
  if String.eqb type_str "int" then py_int
  else if String.eqb type_str "float" then py_float
  else py_str.

(** The [match type_str] of [run_astype_conversion]: the option that lists
    the columns of a category; [None] is the [case _]. *)
Definition category_key (type_str : string) : option string :=
  if String.eqb type_str "int" then Some "int_col"
  else if String.eqb type_str "float" then Some "float_col"
  else if String.eqb type_str "str" then Some "str_col"
  else None.

(** The body of the loop of [run_astype_conversion]. *)
Definition astype_body (type_str col : string) : M unit :=
  log INFO (RunningAstype type_str col);;
  try_except
    (update_column col (fun s => astype s (type_map_get type_str)))
    (fun e => match e with
              | ValueError => Some (log ERROR (AstypeFailed col type_str))
              | _ => None
              end).

(** [run_astype_conversion] *)
Definition run_astype_conversion (type_str : string) : M unit :=
  c ← get cfg;
  if negb (truthy (cfg_get c "clean_types")) then mret tt
  else
    match category_key type_str with
    | None => mret tt
    | Some key =>
        let cols_choice := cfg_get c key in
        if negb (truthy cols_choice) then mret tt
        else
          modify (set_df_changed true);;
          cols ← lift (py_iter cols_choice);
          for_each cols (astype_body type_str)
    end.

(** [clean_datetime_columns] (the frame returned on the skipped branch is
    ignored by every caller). *)
Definition clean_datetime_columns : M unit :=
  c ← get cfg;
  let cols := cfg_get c "datetime_col" in
  if negb (truthy (cfg_get c "clean_types")) || negb (truthy cols) then mret tt
  else
    let forms := cfg_get c "datetime_format" in
    l_cols ← lift (py_len cols);
    l_forms ← lift (py_len forms);
    if negb (Nat.eqb l_cols l_forms) then
      log WARNING (DatetimeSkipped l_cols l_forms)
    else
      modify (set_df_changed true);;
      cols ← lift (py_iter cols);
      forms ← lift (py_iter forms);
      for_each (zip cols forms) (fun cf =>
        log INFO (RunningToDatetime cf.1 cf.2);;
        update_column cf.1 (fun s => to_datetime s cf.2)).

(** [clean_drop_na] *)
Definition clean_drop_na : M unit :=
  c ← get cfg;
  if negb (truthy (cfg_get c "drop_na")) then mret tt
  else
    log INFO DroppingNaN;;
    modify (set_df_changed true);;
    modify (fun s => set_df (dropna_all (df s)) s).

(** [0.25], [0.75] and [1.5] as binary64 values. *)
Definition f0_25 : float := float_lit 1 (-2).
Definition f0_75 : float := float_lit 3 (-2).
Definition f1_5 : float := float_lit 3 (-1).

(** The body of the loop of [clean_quantile_outliers]. *)
Definition outliers_body (col : string) : M unit :=
  s ← self_df col;
  Q1 ← lift (quantile s f0_25);
  s ← self_df col;
  Q3 ← lift (quantile s f0_75);
  IQR ← lift (scalar_sub Q1 Q3);
  w ← lift (scalar_rmul f1_5 IQR);
  min_valid ← lift (scalar_sub Q1 w);
  w ← lift (scalar_rmul f1_5 IQR);
  max_valid ← lift (scalar_add Q3 w);
  s ← self_df col;
  ge ← lift (series_ge s min_valid);
  s ← self_df col;
  le ← lift (series_le s max_valid);
  let valid_rows := series_and ge le in
  modify (fun st => set_df (df_mask (df st) valid_rows) st).

(** [clean_quantile_outliers] *)
Definition clean_quantile_outliers : M unit :=
  c ← get cfg;
  let q_o_cols := cfg_get c "quantile_ouliers_col" in
  if negb (truthy q_o_cols) then mret tt
  else
    cols ← lift (py_iter q_o_cols);
    for_each cols outliers_body.

(** [drop_columns] *)
Definition drop_columns : M unit :=
  c ← get cfg;
  let columns := cfg_get c "drop_col" in
  if negb (truthy columns) then mret tt
  else
    log INFO (DroppingColumns columns);;
    cols ← lift (py_iter columns);
    for_each cols (fun col =>
      try_except
        (d ← get df;
         d' ← lift (drop_label d col);
         modify (set_df d'))
        (fun e => match e with
                  | KeyError => Some (log WARNING (ColumnNotInFrame col))
                  | _ => None
                  end)).

(** [run_all_cleaners] *)
Definition run_all_cleaners : M DataFrame :=
  clean_headers;;
  clean_drop_dupplicates;;
  clean_numeric_columns;;
  clean_datetime_columns;;
  run_astype_conversion "int";;
  run_astype_conversion "float";;
  run_astype_conversion "str";;
  clean_drop_na;;
  drop_columns;;
  clean_quantile_outliers;;
  get df.

End Methods.

(** ** A reference implementation of the pandas conversions

    Used to evaluate the cleaner on concrete tables.  It follows pandas on
    the fragment the examples use: strings that are plain decimal literals
    (an optional sign, digits, an optional fractional part) or not numbers
    at all; the format ["%Y"]; quantiles by linear interpolation, of a
    numeric column and of a datetime column; timestamps and timedeltas within
    their 64-bit range of nanoseconds.  Outside the fragment it raises
    [NotImplementedError]. *)
Module Ref.

Definition digit (a : ascii) : option Z :=
  let n := Z.of_nat (nat_of_ascii a) in
  if (48 <=? n)%Z && (n <=? 57)%Z then Some (n - 48)%Z else None.

(** The value of a non-empty run of digits, with how many there are. *)
Fixpoint digits (s : string) (acc : Z) (n : nat) : option (Z * nat) :=
  match s with
  | EmptyString => if Nat.eqb n 0 then None else Some (acc, n)
  | String a s' =>
      match digit a with
      | Some v => digits s' (10 * acc + v)%Z (S n)
      | None => None
      end
  end.

Definition unsigned (s : string) : bool * string :=
  match s with
  | String a s' => if Ascii.eqb a "-"%char then (true, s') else (false, s)
  | _ => (false, s)
  end.

(** [int(s)] on a decimal integer literal. *)
Definition parse_int (s : string) : option Z :=
  let (neg, body) := unsigned s in
  match digits body 0 0 with
  | Some (v, _) => Some (if neg then - v else v)%Z
  | None => None
  end.

Fixpoint split_dot (acc : string) (s : string) : option (string * string) :=
  match s with
  | EmptyString => None
  | String a s' =>
      if Ascii.eqb a "."%char then Some (acc, s')
      else split_dot (acc ++ String a EmptyString)%string s'
  end.

(** [float(s)] on a decimal literal: the mantissa over a power of ten,
    one correctly rounded division. *)
Definition parse_float (s : string) : option float :=
  match parse_int s with
  | Some z => Some (float_of_Z z)
  | None =>
      let (neg, body) := unsigned s in
      match split_dot "" body with
      | Some (ip, fp) =>
          match digits ip 0 0, digits fp 0 0 with
          | Some (i, _), Some (f, k) =>
              let m := (i * 10 ^ Z.of_nat k + f)%Z in
              Some (fdiv (float_of_Z (if neg then - m else m))
                         (float_of_Z (10 ^ Z.of_nat k)))
          | _, _ => None
          end
      | None => None
      end
  end.

Definition is_IntB (c : cell) : bool := match c with Int _ => true | _ => false end.
Definition is_numB (c : cell) : bool :=
  match c with Int _ | Float _ => true | _ => false end.

(** One cell of [to_numeric]: integers stay integers, decimal literals
    become floats, any other string is coerced to [NaN]. *)
Definition to_numeric_cell (c : cell) : exn + cell :=
  match c with
  | Int z => inr (Int z)
  | Float f => inr (Float f)
  | Str s =>
      match parse_int s with
      | Some z => inr (Int z)
      | None => inr (Float (default S754_nan (parse_float s)))
      end
  | Timestamp _ | NaT => inl NotImplementedError
  end.

Definition widen (c : cell) : cell :=
  match c with Int z => Float (float_of_Z z) | _ => c end.

(** The column is [int64] when every cell is an integer, else [float64]. *)
Definition to_numeric (s : Series) : exn + Series :=
  r ← mapM to_numeric_cell s;
  mret (if forallb is_IntB r then r else map widen r).

(** Days from 1970-01-01 to the first of January of year [y]. *)
Definition days_to_year (y : Z) : Z :=
  (365 * (y - 1970) + (y - 1969) / 4 - (y - 1901) / 100 + (y - 1601) / 400)%Z.

Definition ns_per_day : Z := 86400000000000.

(** A cell parsed under ["%Y"]: exactly four digits, within the range of
    [Timestamp]. *)
Definition strptime_Y (c : cell) : exn + cell :=
  match c with
  | Str s =>
      match digits s 0 0 with
      | Some (y, 4) =>
          if (1678 <=? y)%Z && (y <=? 2261)%Z
          then inr (Timestamp (days_to_year y * ns_per_day))
          else inr NaT
      | _ => inr NaT
      end
  | Float S754_nan | NaT => inr NaT
  | Timestamp t => inr (Timestamp t)
  | _ => inl NotImplementedError
  end.

Definition to_datetime (s : Series) (form : string) : exn + Series :=
  if String.eqb form "%Y" then mapM strptime_Y s
  else inl NotImplementedError.

Definition digit_char (d : Z) : string :=
  String (ascii_of_nat (Z.to_nat (48 + d))) EmptyString.

Fixpoint decimal (fuel : nat) (z : Z) (acc : string) : string :=
  match fuel with
  | O => acc
  | S fuel' =>
      let acc' := (digit_char (z mod 10) ++ acc)%string in
      if (z <? 10)%Z then acc' else decimal fuel' (z / 10) acc'
  end.

(** [str(z)] *)
Definition str_of_Z (z : Z) : string :=
  if (z <? 0)%Z then ("-" ++ decimal (S (Z.to_nat (Z.log2 (- z)))) (- z) "")%string
  else decimal (S (Z.to_nat (Z.log2 z))) z "".

(** The integer a float is equal to, when it is one. *)
Definition integral (f : float) : option Z :=
  match f with
  | S754_zero _ => Some 0%Z
  | S754_finite s m e =>
      if (0 <=? e)%Z
      then Some ((if s then Z.neg m else Z.pos m) * 2 ^ e)%Z
      else if (Z.pos m mod 2 ^ (- e) =? 0)%Z
           then Some ((if s then Z.neg m else Z.pos m) / 2 ^ (- e))%Z
           else None
  | _ => None
  end.

(** The integer part of a finite float, towards zero. *)
Definition trunc (f : float) : option Z :=
  match f with
  | S754_zero _ => Some 0%Z
  | S754_finite s m e =>
      Some (if (0 <=? e)%Z then (if s then Z.neg m else Z.pos m) * 2 ^ e
            else Z.quot (if s then Z.neg m else Z.pos m) (2 ^ (- e)))%Z
  | _ => None
  end.

Definition astype_cell (t : pytype) (c : cell) : exn + cell :=
  match t, c with
  | py_int, Int z => inr (Int z)
  | py_int, Float f =>
      match trunc f with Some z => inr (Int z) | None => inl ValueError end
  | py_int, Str s =>
      match parse_int s with Some z => inr (Int z) | None => inl ValueError end
  | py_int, NaT => inl ValueError
  | py_int, Timestamp _ => inl NotImplementedError
  | py_float, Int z => inr (Float (float_of_Z z))
  | py_float, Float f => inr (Float f)
  | py_float, Str s =>
      match parse_float s with Some f => inr (Float f) | None => inl ValueError end
  | py_float, (Timestamp _ | NaT) => inl TypeError
  | py_str, Int z => inr (Str (str_of_Z z))
  | py_str, Float S754_nan => inr (Str "nan")
  | py_str, Float f =>
      match integral f with
      | Some z => inr (Str (str_of_Z z ++ ".0"))
      | None => inl NotImplementedError
      end
  | py_str, Str s => inr (Str s)
  | py_str, NaT => inr (Str "NaT")
  | py_str, Timestamp _ => inl NotImplementedError
  end.

Definition astype (s : Series) (t : pytype) : exn + Series :=
  mapM (astype_cell t) s.

Definition flt (a b : float) : bool := SFltb a b.

Fixpoint insert_sorted (x : float) (l : list float) : list float :=
  match l with
  | [] => [x]
  | y :: l' => if flt y x then y :: insert_sorted x l' else x :: l
  end.

Definition sort (l : list float) : list float := foldr insert_sorted [] l.

(** The numeric, non-missing values of a series, as floats. *)
Definition values (s : Series) : list float :=
  omap (fun c => match c with
                 | Int z => Some (float_of_Z z)
                 | Float f => if is_nan f then None else Some f
                 | _ => None
                 end) s.

Definition floor (f : float) : Z :=
  match integral f, trunc f with
  | Some z, _ => z
  | None, Some z => (if SFltb f (S754_zero false) then z - 1 else z)%Z
  | None, None => 0%Z
  end.

(** numpy's linear interpolation between two neighbours. *)
Definition lerp (a b t : float) : float :=
  let diff_b_a := fsub b a in
  if fle (float_lit 1 (-1)) t
  then fsub b (fmul diff_b_a (fsub (float_of_Z 1) t))
  else fadd a (fmul diff_b_a t).

(** The scalars: a [float64], a [Timestamp] and a [Timedelta] by their
    nanoseconds, and [NaT]. *)
Inductive scalar :=
| F64 (f : float)
| Stamp (ns : Z)
| Delta (ns : Z)
| Missing.

Definition is_dateB (c : cell) : bool :=
  match c with Timestamp _ | NaT => true | _ => false end.

(** The nanoseconds of the timestamps of a series. *)
Definition stamps (s : Series) : list Z :=
  omap (fun c => match c with Timestamp t => Some t | _ => None end) s.

Fixpoint insert_sorted_Z (x : Z) (l : list Z) : list Z :=
  match l with
  | [] => [x]
  | y :: l' => if (y <? x)%Z then y :: insert_sorted_Z x l' else x :: l
  end.

Definition sort_Z (l : list Z) : list Z := foldr insert_sorted_Z [] l.

(** The nanoseconds a [Timestamp] or a [Timedelta] can hold. *)
Definition in_range (z : Z) : bool :=
  (- 2 ^ 63 <? z)%Z && (z <? 2 ^ 63)%Z.

(** The interpolation on the nanoseconds of two timestamps: the difference
    is taken on the integers, the rest in binary64. *)
Definition lerp_Z (a b : Z) (t : float) : float :=
  let diff_b_a := float_of_Z (b - a) in
  if fle (float_lit 1 (-1)) t
  then fsub (float_of_Z b) (fmul diff_b_a (fsub (float_of_Z 1) t))
  else fadd (float_of_Z a) (fmul diff_b_a t).

(** The position of the [q]-quantile among [n] sorted values: the index of
    the lower neighbour and the weight of the upper one. *)
Definition position (n : Z) (q : float) : Z * float :=
  let virtual_index :=
    fsub (fadd (fmul (float_of_Z n) q)
               (fsub (float_of_Z 1) q)) (float_of_Z 1) in
  let previous := floor virtual_index in
  (previous, fsub virtual_index (float_of_Z previous)).

(** [s.quantile(q)], method "linear", missing values skipped.  The
    quantile of a datetime column is taken on its nanoseconds and truncated
    to a whole number of them. *)
Definition quantile (s : Series) (q : float) : exn + scalar :=
  if forallb is_numB s then
    let v := sort (values s) in
    let n := Z.of_nat (length v) in
    if (n =? 0)%Z then inr (F64 S754_nan)
    else
      let (previous, gamma) := position n q in
      let a := default S754_nan (v !! Z.to_nat previous) in
      let b := default S754_nan (v !! Z.to_nat (Z.min (previous + 1) (n - 1))) in
      inr (F64 (lerp a b gamma))
  else if forallb is_dateB s then
    let v := sort_Z (stamps s) in
    let n := Z.of_nat (length v) in
    if (n =? 0)%Z then inr Missing
    else
      let (previous, gamma) := position n q in
      let a := default 0%Z (v !! Z.to_nat previous) in
      let b := default 0%Z (v !! Z.to_nat (Z.min (previous + 1) (n - 1))) in
      match trunc (lerp_Z a b gamma) with
      | Some t => if in_range t then inr (Stamp t) else inl NotImplementedError
      | None => inl NotImplementedError
      end
  else inl TypeError.

Definition stamp (z : Z) : exn + scalar :=
  if in_range z then inr (Stamp z) else inl NotImplementedError.

Definition delta (z : Z) : exn + scalar :=
  if in_range z then inr (Delta z) else inl NotImplementedError.

(** [x - y] *)
Definition scalar_sub (x y : scalar) : exn + scalar :=
  match x, y with
  | F64 a, F64 b => inr (F64 (fsub a b))
  | Stamp a, Stamp b => delta (a - b)
  | Stamp a, Delta d => stamp (a - d)
  | Delta a, Delta b => delta (a - b)
  | Missing, (Stamp _ | Delta _ | Missing) | (Stamp _ | Delta _), Missing => inr Missing
  | Delta _, Stamp _ => inl TypeError
  | F64 _, (Stamp _ | Delta _) | (Stamp _ | Delta _), F64 _ => inl TypeError
  | F64 _, Missing | Missing, F64 _ => inl NotImplementedError
  end.

(** [x + y] *)
Definition scalar_add (x y : scalar) : exn + scalar :=
  match x, y with
  | F64 a, F64 b => inr (F64 (fadd a b))
  | Stamp a, Delta d | Delta d, Stamp a => stamp (a + d)
  | Delta a, Delta b => delta (a + b)
  | Missing, (Stamp _ | Delta _ | Missing) | (Stamp _ | Delta _), Missing => inr Missing
  | Stamp _, Stamp _ => inl TypeError
  | F64 _, (Stamp _ | Delta _) | (Stamp _ | Delta _), F64 _ => inl TypeError
  | F64 _, Missing | Missing, F64 _ => inl NotImplementedError
  end.

(** [a * x]: a [Timedelta] is scaled on its nanoseconds, in binary64, and
    truncated. *)
Definition scalar_rmul (a : float) (x : scalar) : exn + scalar :=
  match x with
  | F64 b => inr (F64 (fmul a b))
  | Delta d =>
      if is_nan a then inr Missing
      else match trunc (fmul a (float_of_Z d)) with
           | Some z => delta z
           | None => inl NotImplementedError
           end
  | Missing => inr Missing
  | Stamp _ => inl TypeError
  end.

(** [s >= x] and [s <= x]: a numeric column compares with a float, a
    datetime column with a timestamp or [NaT]. *)
Definition series_ge (s : Series) (x : scalar) : exn + list bool :=
  match x with
  | F64 b =>
      if forallb is_numB s then inr (map (fun c => fle b (float64 c)) s)
      else inl TypeError
  | Stamp t =>
      if forallb is_dateB s
      then inr (map (fun c => match c with
                              | Timestamp a => (t <=? a)%Z
                              | _ => false
                              end) s)
      else inl TypeError
  | Missing =>
      if forallb is_dateB s then inr (map (fun _ => false) s)
      else inl NotImplementedError
  | Delta _ =>
      if forallb is_dateB s then inl TypeError else inl NotImplementedError
  end.

Definition series_le (s : Series) (x : scalar) : exn + list bool :=
  match x with
  | F64 b =>
      if forallb is_numB s then inr (map (fun c => fle (float64 c) b) s)
      else inl TypeError
  | Stamp t =>
      if forallb is_dateB s
      then inr (map (fun c => match c with
                              | Timestamp a => (a <=? t)%Z
                              | _ => false
                              end) s)
      else inl TypeError
  | Missing =>
      if forallb is_dateB s then inr (map (fun _ => false) s)
      else inl NotImplementedError
  | Delta _ =>
      if forallb is_dateB s then inl TypeError else inl NotImplementedError
  end.

(** The report engine: it refuses a table without rows or without
    columns. *)
Definition to_file (d : DataFrame) : exn + unit :=
  match rows d, columns d with
  | [], _ | _, [] => inl ValueError
  | _, _ => inr tt
  end.

End Ref.

(** The reference implementation as an instance of the interface. *)
Definition reference : Pandas.
Proof.
  assert (Hnum : forall s, numeric_series s -> forallb Ref.is_numB s = true).
  { intros s Hs. apply forallb_forall. intros c Hc.
    destruct Hs as [Hs | Hs]; rewrite Forall_forall in Hs;
      apply list_elem_of_In, Hs in Hc; by destruct c. }
  refine {| to_numeric := Ref.to_numeric;
            to_datetime := Ref.to_datetime;
            astype := Ref.astype;
            scalar := Ref.scalar;
            of_float := Ref.F64;
            quantile := Ref.quantile;
            scalar_sub := Ref.scalar_sub;
            scalar_add := Ref.scalar_add;
            scalar_rmul := Ref.scalar_rmul;
            series_ge := Ref.series_ge;
            series_le := Ref.series_le |}.
  - intros s x m Hm. unfold Ref.series_ge in Hm.
    destruct x; destruct (forallb _ s); try done; injection Hm as <-;
      apply length_map.
  - intros s x m Hm. unfold Ref.series_le in Hm.
    destruct x; destruct (forallb _ s); try done; injection Hm as <-;
      apply length_map.
  - intros s x m i c Hm Hi Hc. unfold Ref.series_ge in Hm.
    destruct x; destruct (forallb _ s); try done; injection Hm as <-;
      rewrite list_lookup_fmap, Hi; simpl; f_equal.
    + destruct c as [z|g|t|t|]; simpl in Hc; try done;
        [destruct g; simpl in Hc; try done|]; by destruct f.
    + destruct c; simpl in Hc; done.
  - intros s x m i c Hm Hi Hc. unfold Ref.series_le in Hm.
    destruct x; destruct (forallb _ s); try done; injection Hm as <-;
      rewrite list_lookup_fmap, Hi; simpl; f_equal.
    + destruct c as [z|g|t|t|]; simpl in Hc; try done.
      destruct g; simpl in Hc; done.
    + destruct c; simpl in Hc; done.
  - intros s q Hs. unfold Ref.quantile. rewrite (Hnum _ Hs).
    destruct (_ =? _)%Z; [eauto|]. destruct (Ref.position _ _). eauto.
  - reflexivity.
  - reflexivity.
  - reflexivity.
  - intros s x Hs. unfold Ref.series_ge. by rewrite (Hnum _ Hs).
  - intros s x Hs. unfold Ref.series_le. by rewrite (Hnum _ Hs).
Defined.

(** The reference report engine. *)
Definition reference_engine : Profiling.
Proof.
  refine {| to_file := Ref.to_file |}.
  intros d Hd. unfold Ref.to_file. by rewrite Hd.
Defined.

(** ** Definitions that follow the wording of the specification *)

(** §6: the documented per-key defaults. *)
Definition documented_default (key : string) : pyval :=
  default PyNone (DEFAULT_CFG !! key).

(** §4.1: a lookup that answers the user's value if present, else the
    documented default. *)
Definition lookup_with_default (c : config) (key : string) : pyval :=
  match c !! key with
  | Some v => v
  | None => documented_default key
  end.

Section Wording.
Context {pd : Pandas}.

(** §4.4, in the order of its numbering: the three casts (stage 4) before
    the datetime parsing (stage 5). *)
Definition stages_in_numbered_order : M DataFrame :=
  clean_headers;;
  clean_drop_dupplicates;;
  clean_numeric_columns;;
  run_astype_conversion "int";;
  run_astype_conversion "float";;
  run_astype_conversion "str";;
  clean_datetime_columns;;
  clean_drop_na;;
  drop_columns;;
  clean_quantile_outliers;;
  get df.

(** §4.4 stage 8 and §9: the bounds of a column, with the spread
    [Q1 - Q3]. *)
Definition outlier_bounds (column : Series) : exn + scalar * scalar :=
  Q1 ← quantile column f0_25;
  Q3 ← quantile column f0_75;
  IQR ← scalar_sub Q1 Q3;
  w ← scalar_rmul f1_5 IQR;
  lo ← scalar_sub Q1 w;
  hi ← scalar_add Q3 w;
  mret (lo, hi).

(** §4.4 stage 8: which values of a column lie within the bounds. *)
Definition within (column : Series) (lo hi : scalar) : exn + list bool :=
  ge ← series_ge column lo;
  le ← series_le column hi;
  mret (zip_with andb ge le).

(** The same for one number and two float bounds. *)
Definition in_bounds (lo hi : float) (c : cell) : bool :=
  fle lo (float64 c) && fle (float64 c) hi.

(** One column of the outlier stage: the rows of the current table whose
    value in the column lies within the bounds are retained. *)
Definition outlier_step (col : string) (d : DataFrame) : exn + DataFrame :=
  match col_index d col with
  | None => inl KeyError
  | Some i =>
      let column := map (cell_at i) (rows d) in
      b ← outlier_bounds column;
      keep ← within column b.1 b.2;
      mret (mkDF (columns d) (select keep (rows d)))
  end.

(** The stage as a fold over the listed columns, each step consuming the
    table the previous one produced. *)
Fixpoint outlier_fold (cols : list string) (d : DataFrame) : exn + DataFrame :=
  match cols with
  | [] => mret d
  | c :: cs => d' ← outlier_step c d; outlier_fold cs d'
  end.

End Wording.

(** The position, in [run_all_cleaners], of the call that emits a log
    record ([0] for the records of the other methods). *)
Definition stage_rank (m : message) : nat :=
  match m with
  | RemovingHeaders => 1
  | RemovingDuplicates => 2
  | RunningToNumeric _ => 3
  | DatetimeSkipped _ _ | RunningToDatetime _ _ => 4
  | RunningAstype t _ | AstypeFailed _ t =>
      if String.eqb t "int" then 5 else if String.eqb t "float" then 6 else 7
  | DroppingNaN => 8
  | DroppingColumns _ | ColumnNotInFrame _ => 9
  | _ => 0
  end.

(** The conditions under which the datetime stage and a cast stage get
    past their early returns. *)
Definition datetime_gate (c : config) : bool :=
  truthy (cfg_get c "clean_types") && truthy (cfg_get c "datetime_col") &&
  match py_len (cfg_get c "datetime_col"), py_len (cfg_get c "datetime_format") with
  | inr a, inr b => Nat.eqb a b
  | _, _ => false
  end.

Definition cast_gate (c : config) (type_str : string) : bool :=
  truthy (cfg_get c "clean_types") &&
  match category_key type_str with
  | Some key => truthy (cfg_get c key)
  | None => false
  end.

(** The well-known location of the default specification. *)
Definition default_specs (s : CleanerCSV) : Path :=
  absolute s (path_join BASE_DIR (Path_of "default_specs.json")).

(** What [json.load] obtains from what is found at a path, if anything. *)
Definition readable_json (o : option file) : option config :=
  match o with
  | Some (JsonText c) => Some c
  | _ => None
  end.

(** Text that can be read and is not JSON. *)
Definition not_json (f : file) : Prop :=
  match f with
  | CsvText _ | HtmlReport _ | OtherText => True
  | JsonText _ | Unreadable _ => False
  end.

(** Nothing is found at a path, or text that is not JSON: the two cases
    in which [__init__] falls back on the default specification. *)
Definition missing_or_not_json (o : option file) : Prop :=
  match o with
  | None => True
  | Some f => not_json f
  end.

(** One of the gates of the stages that set the Mutation flag is open. *)
Definition flag_gate (c : config) : bool :=
  truthy (cfg_get c "drop_repeat_headers") || truthy (cfg_get c "drop_duplicates") ||
  truthy (cfg_get c "clean_types") || truthy (cfg_get c "drop_na").

(** Every row holds one cell per column. *)
Definition rectangular (d : DataFrame) : Prop :=
  Forall (fun r => length r = length (columns d)) (rows d).


(** ** Example objects *)

(** A fresh object in a working directory holding the given files. *)
Definition fresh (wd : Path) (fs : gmap Path file) : CleanerCSV :=
  mkCleaner (mkPath false []) (mkPath false []) ∅ (mkPath false [])
            (mkPath false []) (mkPath false []) (mkDF [] []) false false [] wd fs.

(** An object already holding a specification and a table. *)
Definition loaded (c : config) (d : DataFrame) : CleanerCSV :=
  mkCleaner (Path_of "/work") (Path_of "data_cleaner.log") c (Path_of "/work/spec.json")
            (Path_of "profiles/input_file.html") (Path_of "profiles/output_file.html")
            d false false [] (Path_of "/work") ∅.

Definition F (z : Z) : cell := Float (float_of_Z z).

(** A table with a fully missing row, two partly missing ones and a full
    one. *)
Definition sparse_table : DataFrame :=
  mkDF ["A"; "B"]
       [ [Str "x"; NaN];
         [NaN; NaN];
         [NaN; F 2];
         [Str "y"; F 3] ].

Definition drop_na_object : CleanerCSV :=
  loaded {[ "drop_na" := PyBool true ]} sparse_table.

(** Two datetime columns, one format. *)
Definition two_dates_table : DataFrame :=
  mkDF ["D1"; "D2"] [ [Str "2019"; Str "2020"]; [Str "2021"; Str "bad"] ].

Definition arity_mismatch_object : CleanerCSV :=
  loaded {[ "clean_types" := PyBool true;
            "datetime_col" := PyList ["D1"; "D2"];
            "datetime_format" := PyList ["%Y"] ]} two_dates_table.

(** *** Loading *)

Definition work : Path := Path_of "/work".
Definition spec_json : Path := Path_of "/work/spec.json".

(** Three orders, the last one entered twice. *)
Definition orders_table : DataFrame :=
  mkDF ["Order ID"; "Product"]
       [ [Str "1"; Str "cable"];
         [Str "2"; Str "phone"];
         [Str "3"; Str "screen"];
         [Str "3"; Str "screen"] ].

(** A specification file from which [drop_duplicates] was deleted, next to
    its data. *)
Definition files_without_drop_duplicates : gmap Path file :=
  {[ spec_json := JsonText (delete "drop_duplicates" DEFAULT_CFG);
     Path_of "/work/data/my_data.csv" := CsvText (fun _ => orders_table) ]}.

(** The same with [input_file] deleted instead. *)
Definition files_without_input_file : gmap Path file :=
  {[ spec_json := JsonText (delete "input_file" DEFAULT_CFG);
     Path_of "/work/data/my_data.csv" := CsvText (fun _ => orders_table) ]}.

(** A requested specification that is not JSON; nothing at the default
    location. *)
Definition files_with_broken_spec : gmap Path file :=
  {[ spec_json := OtherText ]}.

(** No requested specification, and a default one that is not JSON. *)
Definition files_with_broken_default : gmap Path file :=
  {[ Path_of "/work/default_specs.json" := OtherText ]}.

(** A requested specification whose bytes are not UTF-8, and one that is
    a directory; nothing at the default location. *)
Definition files_with_undecodable_spec : gmap Path file :=
  {[ spec_json := Unreadable NotUtf8 ]}.
Definition files_with_directory_spec : gmap Path file :=
  {[ spec_json := Unreadable Directory ]}.

(** No requested specification, and a default one edited by the user. *)
Definition edited_default : config :=
  {[ "input_file" := PyStr "sales.csv"; "drop_na" := PyBool false ]}.
Definition files_with_edited_default : gmap Path file :=
  {[ Path_of "/work/default_specs.json" := JsonText edited_default ]}.

(** *** Stage order and casts *)

Definition bad_dates_table : DataFrame :=
  mkDF ["D"] [ [Str "bad"]; [Str "soon"] ].

(** A column listed both for datetime parsing and for the cast to
    string. *)
Definition order_object : CleanerCSV :=
  loaded {[ "clean_types" := PyBool true;
            "numeric_col" := PyList [];
            "datetime_col" := PyList ["D"];
            "datetime_format" := PyList ["%Y"];
            "str_col" := PyList ["D"] ]} bad_dates_table.

(** The example of the specification: ["bad"] in a column listed in
    [int_col]; another column is listed in [float_col]. *)
Definition cast_table : DataFrame :=
  mkDF ["A"; "B"]
       [ [Str "1"; Str "1.5"]; [Str "bad"; Str "2"]; [Str "3"; Str "3"] ].

Definition cast_object : CleanerCSV :=
  loaded {[ "clean_types" := PyBool true;
            "numeric_col" := PyList [];
            "int_col" := PyList ["A"];
            "float_col" := PyList ["B"] ]} cast_table.

(** A listed column that the table does not have. *)
Definition absent_column_object : CleanerCSV :=
  loaded {[ "clean_types" := PyBool true;
            "numeric_col" := PyList [];
            "int_col" := PyList ["Z"] ]} cast_table.

(** A column parsed as datetime and listed in [float_col]. *)
Definition dates_table : DataFrame :=
  mkDF ["D"] [ [Str "2019"]; [Str "bad"] ].

Definition datetime_float_object : CleanerCSV :=
  loaded {[ "clean_types" := PyBool true;
            "numeric_col" := PyList [];
            "datetime_col" := PyList ["D"];
            "datetime_format" := PyList ["%Y"];
            "float_col" := PyList ["D"] ]} dates_table.

(** *** Mutation flag and profiles *)

(** [clean_types] on, nothing listed. *)
Definition numeric_gate_object : CleanerCSV :=
  loaded {[ "clean_types" := PyBool true; "numeric_col" := PyList [] ]} orders_table.

Definition profile_object : CleanerCSV :=
  loaded {[ "input_file_profile" := PyStr "profiles/input_file.html";
            "output_file_profile" := PyStr "profiles/output_file.html";
            "drop_duplicates" := PyBool true ]} orders_table.

(** Both profile options name the same file. *)
Definition one_profile_object : CleanerCSV :=
  loaded {[ "input_file_profile" := PyStr "profile.html";
            "output_file_profile" := PyStr "profile.html";
            "drop_duplicates" := PyBool true ]} orders_table.

(** Only a column removal is asked for. *)
Definition drop_col_object : CleanerCSV :=
  loaded {[ "input_file_profile" := PyStr "profiles/input_file.html";
            "output_file_profile" := PyStr "profiles/output_file.html";
            "drop_col" := PyList ["Product"] ]} orders_table.

(** Duplicate removal, and outlier removal on a column none of whose
    values is within its bounds: the table [outlier_table] below, where the
    quartiles of [B] are 0.75 and 2.25 once the duplicates are gone. *)
Definition emptied_config : config :=
  {[ "input_file_profile" := PyStr "profiles/input_file.html";
     "output_file_profile" := PyStr "profiles/output_file.html";
     "drop_duplicates" := PyBool true;
     "quantile_ouliers_col" := PyList ["B"] ]}.

(** *** Outliers *)

(** Seven rows with [A = 5] and two with [A = 9]. *)
Definition outlier_table : DataFrame :=
  mkDF ["A"; "B"]
       [ [Int 5; Int 0]; [Int 5; Int 1]; [Int 5; Int 1]; [Int 5; Int 1];
         [Int 5; Int 1]; [Int 5; Int 1]; [Int 5; Int 2];
         [Int 9; Int 3]; [Int 9; Int 3] ].

Definition outlier_object : CleanerCSV :=
  loaded {[ "quantile_ouliers_col" := PyList ["A"; "B"] ]} outlier_table.

(** The same table with [B] alone listed. *)
Definition outlier_B_object : CleanerCSV :=
  loaded {[ "quantile_ouliers_col" := PyList ["B"] ]} outlier_table.

(** A float column with a missing value; [drop_na] is not set. *)
Definition missing_value_table : DataFrame :=
  mkDF ["A"; "B"]
       [ [F 5; Str "x"]; [NaN; Str "y"]; [F 5; Str "z"]; [F 5; NaN] ].

Definition missing_value_object : CleanerCSV :=
  loaded {[ "quantile_ouliers_col" := PyList ["A"] ]} missing_value_table.

(** A datetime column, as the datetime stage leaves it, with a missing
    value: twice the first of January 2019, and [NaT]. *)
Definition missing_date_table : DataFrame :=
  mkDF ["D"; "B"]
       [ [Timestamp 1546300800000000000; Str "x"];
         [NaT; Str "y"];
         [Timestamp 1546300800000000000; Str "z"] ].

Definition missing_date_object : CleanerCSV :=
  loaded {[ "quantile_ouliers_col" := PyList ["D"] ]} missing_date_table.

Definition emptied_object : CleanerCSV := loaded emptied_config outlier_table.

(** *** Further example objects *)

(** An export in which the header line comes back as a data row. *)
Definition repeated_header_table : DataFrame :=
  mkDF ["Order ID"; "Product"]
       [ [Str "1"; Str "cable"];
         [Str "Order ID"; Str "Product"];
         [Str "2"; Str "phone"] ].

Definition header_object : CleanerCSV :=
  loaded {[ "drop_repeat_headers" := PyBool true ]} repeated_header_table.

Definition duplicates_object : CleanerCSV :=
  loaded {[ "drop_duplicates" := PyBool true ]} orders_table.

(** A float column holding the two zeros, [0.0] and then [-0.0]. *)
Definition zeros_table : DataFrame :=
  mkDF ["A"] [ [Float (S754_zero false)]; [F 1]; [Float (S754_zero true)] ].

Definition zeros_object : CleanerCSV :=
  loaded {[ "drop_duplicates" := PyBool true ]} zeros_table.

(** [clean_types] with a datetime column and nothing else. *)
Definition clean_types_only_object : CleanerCSV :=
  loaded {[ "clean_types" := PyBool true;
            "datetime_col" := PyList ["D"] ]} dates_table.

(** A column to drop that exists and one that does not. *)
Definition drop_two_object : CleanerCSV :=
  loaded {[ "drop_col" := PyList ["Product"; "Price"] ]} orders_table.

(** An object whose input file exists, with no delimiter configured. *)
Definition reading_object : CleanerCSV :=
  set_files {[ Path_of "/work/data/my_data.csv" :=
                 CsvText (fun sep => if String.eqb sep "," then orders_table
                                     else mkDF [] []) ]}
    (loaded {[ "input_file" := PyStr "data/my_data.csv" ]} (mkDF [] [])).

(** No gate is open. *)
Definition idle_object : CleanerCSV :=
  loaded {[ "drop_na" := PyBool false; "drop_col" := PyList [] ]} sparse_table.


(** * Properties *)

Section Properties.
Context {pd : Pandas} {pr : Profiling}.

Ltac munfold :=
  unfold mbind, M_bind, mret, M_ret, get, modify, lift, log, raise, try_except in *.

#[local] Arguments fadd : simpl never.
#[local] Arguments fsub : simpl never.
#[local] Arguments fmul : simpl never.
#[local] Arguments fle : simpl never.

(** *** Missing-row removal *)

Lemma forallb_isna_false (r : row) :
  forallb isna r = false <-> exists c, c ∈ r /\ isna c = false.
Proof.
  induction r as [|c r IH]; simpl.
  - split; [done | intros (c & Hc & _); inversion Hc].
  - rewrite andb_false_iff, IH. split.
    + intros [Hc | (c' & Hc' & Hna)].
      * exists c. split; [left | done].
      * exists c'. split; [by right | done].
    + intros (c' & Hc' & Hna). apply elem_of_cons in Hc' as [-> | Hc'].
      * by left.
      * right. eauto.
Qed.

(** C9: with [drop_na] enabled the stage returns normally, keeps the
    columns, and keeps, in order and unaltered, exactly the rows that have
    at least one non-missing cell: a row of the table is removed if and only
    if every one of its cells is missing. *)
Theorem clean_drop_na_drops_only_all_missing (st : CleanerCSV) :
  truthy (cfg_get (cfg st) "drop_na") = true ->
  exists st',
    clean_drop_na st = (inr tt, st') /\
    columns (df st') = columns (df st) /\
    rows (df st') = filter (fun r => forallb isna r = false) (rows (df st)) /\
    sublist (rows (df st')) (rows (df st)) /\
    (forall r, r ∈ rows (df st') <->
               r ∈ rows (df st) /\ exists c, c ∈ r /\ isna c = false) /\
    (forall r, r ∈ rows (df st) ->
               (r ∉ rows (df st') <-> forall c, c ∈ r -> isna c = true)).
Proof.
  intros Hon. unfold clean_drop_na. munfold. rewrite Hon. simpl.
  eexists. split; [reflexivity|]. simpl.
  split; [done|]. split; [done|]. split; [apply sublist_filter|].
  split.
  - intros r. rewrite list_elem_of_filter, forallb_isna_false. tauto.
  - intros r Hr. rewrite list_elem_of_filter, forallb_isna_false. split.
    + intros Hn c Hc. destruct (isna c) eqn:E; [done|].
      exfalso. apply Hn. eauto.
    + intros Hall ((c & Hc & Hna) & _). rewrite (Hall c Hc) in Hna. done.
Qed.

(** *** Frame conditions: what a method leaves related *)

(** [frames R m]: whatever [m] does, and whether or not it raises, the
    object it leaves is [R]-related to the one it started from. *)
Definition frames {A} (R : relation CleanerCSV) (m : M A) : Prop :=
  forall s, R s (m s).2.

Section Frames.
Context (R : relation CleanerCSV) `{!PreOrder R}.

Lemma frames_ret {A} (x : A) : frames R (mret x).
Proof. intros s. simpl. reflexivity. Qed.

Lemma frames_lift {A} (r : exn + A) : frames R (lift r).
Proof. intros s. simpl. reflexivity. Qed.

Lemma frames_get {A} (f : CleanerCSV -> A) : frames R (get f).
Proof. intros s. simpl. reflexivity. Qed.

Lemma frames_raise {A} (e : exn) : frames R (raise (A:=A) e).
Proof. intros s. simpl. reflexivity. Qed.

Lemma frames_modify (f : CleanerCSV -> CleanerCSV) :
  (forall s, R s (f s)) -> frames R (modify f).
Proof. intros Hf s. apply Hf. Qed.

Lemma frames_bind {A B} (m : M A) (f : A -> M B) :
  frames R m -> (forall x, frames R (f x)) -> frames R (m ≫= f).
Proof.
  intros Hm Hf s. unfold mbind, M_bind. specialize (Hm s).
  destruct (m s) as [[e|x] s']; simpl in *; [done|].
  etransitivity; [exact Hm | apply Hf].
Qed.

Lemma frames_try {A} (body : M A) (handler : exn -> option (M A)) :
  frames R body ->
  (forall e h, handler e = Some h -> frames R h) ->
  frames R (try_except body handler).
Proof.
  intros Hb Hh s. unfold try_except. specialize (Hb s).
  destruct (body s) as [[e|x] s']; simpl in *; [|done].
  destruct (handler e) as [h|] eqn:E; simpl; [|done].
  etransitivity; [exact Hb | eapply Hh, E].
Qed.

Lemma frames_for_each {A} (l : list A) (body : A -> M unit) :
  (forall x, frames R (body x)) -> frames R (for_each l body).
Proof.
  intros Hb. induction l as [|x l IH]; simpl.
  - apply frames_ret.
  - apply frames_bind; [apply Hb | intros _; apply IH].
Qed.

Lemma frames_open_json (p : Path) : frames R (open_json p).
Proof.
  intros s. unfold open_json.
  destruct (files s !! absolute s p) as [[]|]; simpl; reflexivity.
Qed.

Lemma frames_if {A} (b : bool) (m1 m2 : M A) :
  frames R m1 -> frames R m2 -> frames R (if b then m1 else m2).
Proof. by destruct b. Qed.

End Frames.

(** Reduces a frame condition on a method to conditions on the attribute
    updates it performs. *)
Ltac frame_step :=
  match goal with
  | |- frames _ (mret _) => apply frames_ret; tc_solve
  | |- frames _ (lift _) => apply frames_lift; tc_solve
  | |- frames _ (get _) => apply frames_get; tc_solve
  | |- frames _ (raise _) => apply frames_raise; tc_solve
  | |- frames _ (_ ≫= _) => apply frames_bind; [tc_solve | | intros ?]
  | |- frames _ (for_each _ _) => apply frames_for_each; [tc_solve | intros ?]
  | |- frames _ (try_except _ _) =>
      apply frames_try;
      [tc_solve | | let e := fresh "e" in let h := fresh "h" in
                    let E := fresh "E" in
                    intros e h E; destruct e; inversion E; subst; clear E]
  | |- frames _ (if ?b then _ else _) => apply frames_if
  | |- frames _ (match ?x with Some _ => _ | None => _ end) => destruct x
  | |- frames _ (log _ _) => apply frames_modify; intros ?
  | |- frames _ (modify _) => apply frames_modify; intros ?
  | |- frames _ (open_json _) => apply frames_open_json; tc_solve
  | |- frames _ (self_df _) => unfold self_df
  | |- frames _ (update_column _ _) => unfold update_column
  end.
Ltac frame := repeat frame_step.

(** Every cleaning stage leaves the specification as it is. *)
Definition same_cfg : relation CleanerCSV := fun s s' => cfg s' = cfg s.

#[local] Instance same_cfg_preorder : PreOrder same_cfg.
Proof. split; [by intros ? | intros ??? H1 H2; unfold same_cfg in *; congruence]. Qed.

Lemma clean_headers_cfg : frames same_cfg clean_headers.
Proof. unfold clean_headers. frame; done. Qed.
Lemma clean_drop_dupplicates_cfg : frames same_cfg clean_drop_dupplicates.
Proof. unfold clean_drop_dupplicates. frame; done. Qed.
Lemma clean_numeric_columns_cfg : frames same_cfg clean_numeric_columns.
Proof. unfold clean_numeric_columns. frame; done. Qed.
Lemma clean_datetime_columns_cfg : frames same_cfg clean_datetime_columns.
Proof. unfold clean_datetime_columns. frame; done. Qed.
Lemma run_astype_conversion_cfg t : frames same_cfg (run_astype_conversion t).
Proof. unfold run_astype_conversion, astype_body. frame; done. Qed.
Lemma clean_drop_na_cfg : frames same_cfg clean_drop_na.
Proof. unfold clean_drop_na. frame; done. Qed.
Lemma drop_columns_cfg : frames same_cfg drop_columns.
Proof. unfold drop_columns. frame; done. Qed.
Lemma clean_quantile_outliers_cfg : frames same_cfg clean_quantile_outliers.
Proof. unfold clean_quantile_outliers, outliers_body. frame; done. Qed.


(** Two continuations that agree on every object carrying the same
    specification agree after a method that leaves the specification
    alone. *)
Lemma bind_cong_cfg {A B} (m : M A) (k1 k2 : A -> M B) (st : CleanerCSV) :
  frames same_cfg m ->
  (forall x s, cfg s = cfg st -> k1 x s = k2 x s) ->
  (m ≫= k1) st = (m ≫= k2) st.
Proof.
  intros Hm Hk. unfold mbind, M_bind. specialize (Hm st).
  destruct (m st) as [[e|x] s']; simpl in *; [done|]. by apply Hk.
Qed.

(** *** Datetime parsing: lists of different lengths *)

Lemma truthy_PyList (l : list string) : l <> [] -> truthy (PyList l) = true.
Proof. by destruct l. Qed.

(** C7: with [clean_types] on, a non-empty [datetime_col] and a
    [datetime_format] of another length, the datetime stage is a no-op on
    every object carrying that specification: it returns normally, parses
    no column, leaves table and Mutation flag as they are and only logs a
    warning; and the whole run is the run in which that warning stands in
    for the stage, the later stages being executed as usual. *)
Theorem datetime_arity_mismatch_skips_stage
    (st : CleanerCSV) (cols : list string) (n : nat) :
  truthy (cfg_get (cfg st) "clean_types") = true ->
  cfg_get (cfg st) "datetime_col" = PyList cols ->
  cols <> [] ->
  py_len (cfg_get (cfg st) "datetime_format") = inr n ->
  length cols <> n ->
  (forall s, cfg s = cfg st ->
     clean_datetime_columns s =
       (inr tt, add_log (WARNING, DatetimeSkipped (length cols) n) s)) /\
  run_all_cleaners st =
    (clean_headers;;
     clean_drop_dupplicates;;
     clean_numeric_columns;;
     log WARNING (DatetimeSkipped (length cols) n);;
     run_astype_conversion "int";;
     run_astype_conversion "float";;
     run_astype_conversion "str";;
     clean_drop_na;;
     drop_columns;;
     clean_quantile_outliers;;
     get df) st.
Proof.
  intros Hon Hcols Hne Hlen Hdiff.
  assert (Hskip : forall s, cfg s = cfg st ->
     clean_datetime_columns s =
       (inr tt, add_log (WARNING, DatetimeSkipped (length cols) n) s)).
  { intros s Hs. unfold clean_datetime_columns. munfold. rewrite Hs.
    rewrite Hon, Hcols, (truthy_PyList _ Hne), Hlen. simpl.
    destruct (Nat.eqb_spec (length cols) n); [done|]. reflexivity. }
  split; [exact Hskip|].
  unfold run_all_cleaners.
  apply bind_cong_cfg; [apply clean_headers_cfg|]. intros _ s1 H1.
  apply bind_cong_cfg; [apply clean_drop_dupplicates_cfg|]. intros _ s2 H2.
  rewrite H1 in H2.
  apply bind_cong_cfg; [apply clean_numeric_columns_cfg|]. intros _ s3 H3.
  rewrite H2 in H3.
  unfold mbind at 1 3. unfold M_bind. rewrite (Hskip s3 H3). reflexivity.
Qed.



(** *** Explicit casts: a column whose cast fails *)

Lemma for_each_app {A} (l1 l2 : list A) (body : A -> M unit) (s : CleanerCSV) :
  for_each (l1 ++ l2) body s = (for_each l1 body;; for_each l2 body) s.
Proof.
  revert s. induction l1 as [|x l1 IH]; intros s; simpl.
  - reflexivity.
  - unfold mbind, M_bind in *. destruct (body x s) as [[e|[]] s']; [done|].
    apply IH.
Qed.

(** C6 (as amended): in the cast stage of a category, when the turn of a
    listed column of the table comes and its cast raises [ValueError], the
    exception the stage catches, the loop body returns normally,
    having only appended the info record and an error-level record: the
    table, hence the column, is exactly as before the attempt; and the stage
    as a whole ends as the loop over the remaining listed columns ends from
    there, so that they, and the categories that follow in
    [run_all_cleaners], are processed. *)
Theorem cast_failure_leaves_column_and_continues
    (type_str key : string) (st s1 : CleanerCSV)
    (pre post : list string) (col : string) (series : Series) :
  truthy (cfg_get (cfg st) "clean_types") = true ->
  category_key type_str = Some key ->
  cfg_get (cfg st) key = PyList (pre ++ col :: post) ->
  for_each pre (astype_body type_str) (set_df_changed true st) = (inr tt, s1) ->
  getitem (df s1) col = inr series ->
  astype series (type_map_get type_str) = inl ValueError ->
  let s2 := add_log (ERROR, AstypeFailed col type_str)
              (add_log (INFO, RunningAstype type_str col) s1) in
  astype_body type_str col s1 = (inr tt, s2) /\
  df s2 = df s1 /\
  run_astype_conversion type_str st = for_each post (astype_body type_str) s2.
Proof.
  intros Hon Hkey Hcols Hpre Hget Hcast s2.
  assert (Hbody : astype_body type_str col s1 = (inr tt, s2)).
  { unfold astype_body, update_column, self_df. munfold. simpl.
    rewrite Hget, Hcast. reflexivity. }
  split; [exact Hbody|]. split; [reflexivity|].
  unfold run_astype_conversion. munfold.
  rewrite Hon, Hkey, Hcols. simpl.
  replace (negb (negb (length (pre ++ col :: post) =? 0)%nat)) with false
    by (rewrite length_app; simpl; rewrite Nat.add_succ_r; reflexivity).
  rewrite for_each_app. unfold mbind, M_bind. rewrite Hpre. simpl.
  unfold mbind, M_bind. rewrite Hbody. reflexivity.
Qed.


(** *** The order of the stages *)

(** The object has only gained log records, all of rank [k]. *)
Definition appends (k : nat) : relation CleanerCSV := fun s s' =>
  exists l, logger s' = logger s ++ l /\ Forall (fun r => stage_rank r.2 = k) l.

#[local] Instance appends_preorder k : PreOrder (appends k).
Proof.
  split.
  - intros s. exists []. by rewrite app_nil_r.
  - intros s1 s2 s3 (l1 & E1 & F1) (l2 & E2 & F2). exists (l1 ++ l2).
    split; [by rewrite E2, E1, app_assoc | by apply Forall_app].
Qed.

Lemma appends_same k s s' : logger s' = logger s -> appends k s s'.
Proof. intros E. exists []. by rewrite app_nil_r. Qed.

Lemma appends_log k lv m s : stage_rank m = k -> appends k s (add_log (lv, m) s).
Proof. intros E. exists [(lv, m)]. split; [done | by constructor]. Qed.

Ltac appends_tac :=
  first [ by apply appends_same | by apply appends_log ].

Lemma clean_headers_appends : frames (appends 1) clean_headers.
Proof. unfold clean_headers. frame; appends_tac. Qed.
Lemma clean_drop_dupplicates_appends : frames (appends 2) clean_drop_dupplicates.
Proof. unfold clean_drop_dupplicates. frame; appends_tac. Qed.
Lemma clean_numeric_columns_appends : frames (appends 3) clean_numeric_columns.
Proof. unfold clean_numeric_columns. frame; appends_tac. Qed.
Lemma clean_datetime_columns_appends : frames (appends 4) clean_datetime_columns.
Proof. unfold clean_datetime_columns. frame; appends_tac. Qed.
Lemma run_astype_conversion_appends t :
  frames (appends (stage_rank (RunningAstype t ""))) (run_astype_conversion t).
Proof. unfold run_astype_conversion, astype_body. frame; appends_tac. Qed.
Lemma clean_drop_na_appends : frames (appends 8) clean_drop_na.
Proof. unfold clean_drop_na. frame; appends_tac. Qed.
Lemma drop_columns_appends : frames (appends 9) drop_columns.
Proof. unfold drop_columns. frame; appends_tac. Qed.
Lemma clean_quantile_outliers_silent k : frames (appends k) clean_quantile_outliers.
Proof. unfold clean_quantile_outliers, outliers_body. frame; appends_tac. Qed.

(** The object has only gained log records, of ranks from [k] to 9 and in
    non-decreasing order of rank. *)
Definition sorted_from (k : nat) : relation CleanerCSV := fun s s' =>
  exists l, logger s' = logger s ++ l /\
            StronglySorted le (map (fun r => stage_rank r.2) l) /\
            Forall (fun r => k <= stage_rank r.2 <= 9) l.

Lemma sorted_from_seq {A B} (k k' : nat) (m : M A) (rest : M B) :
  k <= k' -> k <= 9 ->
  frames (appends k) m -> frames (sorted_from k') rest ->
  frames (sorted_from k) (m;; rest).
Proof.
  intros Hk Hk9 Hm Hrest s. unfold mbind, M_bind. specialize (Hm s).
  destruct (m s) as [[e|x] s1]; simpl in *.
  - destruct Hm as (l & E & F). exists l. split; [done|]. split.
    + clear E. induction F as [|r l Hr F IH]; simpl; constructor; [done|].
      apply Forall_forall. intros y Hy. apply list_elem_of_fmap in Hy as (r' & -> & Hr').
      rewrite Forall_forall in F. rewrite Hr, (F r' Hr'). done.
    + eapply Forall_impl; [exact F|]. simpl. intros r ->. lia.
  - destruct Hm as (l1 & E1 & F1). destruct (Hrest s1) as (l2 & E2 & S2 & F2).
    exists (l1 ++ l2). split; [by rewrite E2, E1, app_assoc|]. split.
    + rewrite map_app. apply StronglySorted_app_2.
      * intros x1 x2 H1 H2.
        apply list_elem_of_fmap in H1 as (r1 & -> & H1).
        apply list_elem_of_fmap in H2 as (r2 & -> & H2).
        rewrite Forall_forall in F1, F2.
        rewrite (F1 r1 H1). specialize (F2 r2 H2). simpl in F2. lia.
      * clear E1. induction F1 as [|r l Hr F IH]; simpl; constructor; [done|].
        apply Forall_forall. intros y Hy.
        apply list_elem_of_fmap in Hy as (r' & -> & Hr').
        rewrite Forall_forall in F. rewrite Hr, (F r' Hr'). done.
      * done.
    + apply Forall_app. split.
      * eapply Forall_impl; [exact F1|]. simpl. intros r ->. lia.
      * eapply Forall_impl; [exact F2|]. simpl. intros r ?. lia.
Qed.

Lemma StronglySorted_lookup_le (l : list nat) (i j a b : nat) :
  StronglySorted le l -> i < j -> l !! i = Some a -> l !! j = Some b -> a <= b.
Proof.
  intros Hs Hij Hi Hj.
  rewrite <- (take_drop j l) in Hs. apply StronglySorted_app in Hs as (H & _ & _).
  apply H.
  - apply list_elem_of_lookup. exists i. by rewrite lookup_take_lt.
  - apply list_elem_of_lookup. exists 0. by rewrite lookup_drop, Nat.add_0_r.
Qed.

Lemma sorted_from_get {A} k (f : CleanerCSV -> A) : frames (sorted_from k) (get f).
Proof. intros s. exists []. simpl. rewrite app_nil_r. repeat constructor. Qed.

(** C2 (as amended): whatever the specification enables, a run executes
    the stages in one fixed order, which is the order of the calls of
    [run_all_cleaners]: header rows, duplicates, numeric coercion, datetime
    parsing, then the casts to int, to float and to string, then missing
    rows, column removal and outliers.  The records the run adds to the log
    are in that order; in particular every record of the datetime stage
    (rank 4) precedes every record of a cast (ranks 5 to 7). *)
Theorem run_all_cleaners_fixed_order (st : CleanerCSV) :
  run_all_cleaners st =
    (clean_headers;; clean_drop_dupplicates;; clean_numeric_columns;;
     clean_datetime_columns;;
     run_astype_conversion "int";; run_astype_conversion "float";;
     run_astype_conversion "str";;
     clean_drop_na;; drop_columns;; clean_quantile_outliers;; get df) st /\
  exists l,
    logger (run_all_cleaners st).2 = logger st ++ l /\
    StronglySorted le (map (fun r => stage_rank r.2) l) /\
    Forall (fun r => 1 <= stage_rank r.2 <= 9) l /\
    (forall i j lv1 lv2 t c m,
        l !! i = Some (lv1, RunningAstype t c) ->
        l !! j = Some (lv2, m) ->
        stage_rank m = 4 -> j < i).
Proof.
  split; [reflexivity|].
  assert (H : frames (sorted_from 1) run_all_cleaners).
  { unfold run_all_cleaners.
    eapply (sorted_from_seq 1 2); [lia | lia | apply clean_headers_appends |].
    eapply (sorted_from_seq 2 3); [lia | lia | apply clean_drop_dupplicates_appends |].
    eapply (sorted_from_seq 3 4); [lia | lia | apply clean_numeric_columns_appends |].
    eapply (sorted_from_seq 4 5); [lia | lia | apply clean_datetime_columns_appends |].
    eapply (sorted_from_seq 5 6); [lia | lia | apply (run_astype_conversion_appends "int") |].
    eapply (sorted_from_seq 6 7); [lia | lia | apply (run_astype_conversion_appends "float") |].
    eapply (sorted_from_seq 7 8); [lia | lia | apply (run_astype_conversion_appends "str") |].
    eapply (sorted_from_seq 8 9); [lia | lia | apply clean_drop_na_appends |].
    eapply (sorted_from_seq 9 9); [lia | lia | apply drop_columns_appends |].
    eapply (sorted_from_seq 9 9); [lia | lia | apply clean_quantile_outliers_silent |].
    apply sorted_from_get. }
  destruct (H st) as (l & E & S & F). exists l.
  split; [done|]. split; [done|]. split; [done|].
  intros i j lv1 lv2 t c m Hi Hj Hm.
  destruct (decide (j < i)) as [|Hge]; [done|]. exfalso.
  assert (Hri : map (fun r => stage_rank r.2) l !! i = Some (stage_rank (RunningAstype t c)))
    by (rewrite list_lookup_fmap, Hi; done).
  assert (Hrj : map (fun r => stage_rank r.2) l !! j = Some 4)
    by (rewrite list_lookup_fmap, Hj; simpl; by rewrite Hm).
  assert (Hcast : 5 <= stage_rank (RunningAstype t c))
    by (simpl; repeat case_match; lia).
  remember (stage_rank (RunningAstype t c)) as k eqn:Ek. clear Ek.
  destruct (decide (i = j)) as [->|Hne].
  - rewrite Hri in Hrj. inversion Hrj. lia.
  - assert (Hlt : i < j) by lia.
    pose proof (StronglySorted_lookup_le _ _ _ _ _ S Hlt Hri Hrj). lia.
Qed.


(** *** The Mutation flag *)

Definition same_flag : relation CleanerCSV := fun s s' => df_changed s' = df_changed s.

#[local] Instance same_flag_preorder : PreOrder same_flag.
Proof. split; [by intros ? | intros ??? H1 H2; unfold same_flag in *; congruence]. Qed.

(** The flag is never reset. *)
Definition flag_kept : relation CleanerCSV :=
  fun s s' => df_changed s = true -> df_changed s' = true.

#[local] Instance flag_kept_preorder : PreOrder flag_kept.
Proof.
  split.
  - intros s Hs. exact Hs.
  - intros s1 s2 s3 H1 H2 Hs. apply H2, H1, Hs.
Qed.

Lemma run_all_cleaners_flag_kept : frames flag_kept run_all_cleaners.
Proof.
  unfold run_all_cleaners, clean_headers, clean_drop_dupplicates,
    clean_numeric_columns, clean_datetime_columns, run_astype_conversion,
    astype_body, clean_drop_na, drop_columns, clean_quantile_outliers,
    outliers_body.
  frame; by unfold flag_kept.
Qed.

(** A loop that leaves the flag alone, run after the flag was set. *)
Lemma flag_after_set {A} (m : M A) (s : CleanerCSV) :
  frames same_flag m ->
  df_changed ((modify (set_df_changed true);; m) s).2 = true.
Proof. intros Hm. unfold mbind, M_bind. simpl. rewrite (Hm _). done. Qed.

(** How the six stages that can set the Mutation flag treat it: each
    sets it when its gate is open, before it looks at the table, and leaves
    it as it is when its gate is closed; the gates are
    [drop_repeat_headers], [drop_duplicates] and [drop_na] for the row
    filters, [clean_types] alone for the numeric coercion, [clean_types] with
    a non-empty column list for a cast category, and [clean_types] with a
    non-empty [datetime_col] paired with as many formats for the datetime
    stage.  No stage of a run resets the flag. *)
Lemma mutation_flag_follows_gates (st : CleanerCSV) :
  let c := cfg st in
  df_changed (clean_headers st).2
    = df_changed st || truthy (cfg_get c "drop_repeat_headers") /\
  df_changed (clean_drop_dupplicates st).2
    = df_changed st || truthy (cfg_get c "drop_duplicates") /\
  df_changed (clean_numeric_columns st).2
    = df_changed st || truthy (cfg_get c "clean_types") /\
  df_changed (clean_datetime_columns st).2
    = df_changed st || datetime_gate c /\
  (forall t, df_changed (run_astype_conversion t st).2
    = df_changed st || cast_gate c t) /\
  df_changed (clean_drop_na st).2
    = df_changed st || truthy (cfg_get c "drop_na") /\
  (df_changed st = true -> df_changed (run_all_cleaners st).2 = true).
Proof.
  intros c. subst c. repeat split.
  - unfold clean_headers. munfold.
    destruct (truthy _); simpl; by rewrite ?orb_true_r, ?orb_false_r.
  - unfold clean_drop_dupplicates. munfold.
    destruct (truthy _); simpl; by rewrite ?orb_true_r, ?orb_false_r.
  - unfold clean_numeric_columns.
    change ((get cfg ≫= ?k) st) with (k (cfg st) st). cbv beta.
    destruct (truthy _); simpl; [|by rewrite orb_false_r].
    rewrite orb_true_r. apply flag_after_set. frame; done.
  - unfold clean_datetime_columns, datetime_gate.
    change ((get cfg ≫= ?k) st) with (k (cfg st) st). cbv beta zeta.
    destruct (truthy (cfg_get (cfg st) "clean_types")); simpl;
      [|by rewrite orb_false_r].
    destruct (truthy (cfg_get (cfg st) "datetime_col")); simpl;
      [|by rewrite orb_false_r].
    unfold mbind at 1. unfold M_bind, lift.
    destruct (py_len (cfg_get (cfg st) "datetime_col")) as [e|a]; simpl;
      [by rewrite orb_false_r|].
    unfold mbind at 1. unfold M_bind.
    destruct (py_len (cfg_get (cfg st) "datetime_format")) as [e|b]; simpl;
      [by rewrite orb_false_r|].
    destruct (Nat.eqb a b); simpl; [|by rewrite orb_false_r].
    rewrite orb_true_r. apply flag_after_set. frame; done.
  - intros t. unfold run_astype_conversion, cast_gate.
    change ((get cfg ≫= ?k) st) with (k (cfg st) st). cbv beta zeta.
    destruct (truthy (cfg_get (cfg st) "clean_types")); simpl;
      [|by rewrite orb_false_r].
    destruct (category_key t) as [key|]; simpl; [|by rewrite orb_false_r].
    destruct (truthy (cfg_get (cfg st) key)); simpl; [|by rewrite orb_false_r].
    rewrite orb_true_r. apply flag_after_set. unfold astype_body. frame; done.
  - unfold clean_drop_na. munfold.
    destruct (truthy _); simpl; by rewrite ?orb_true_r, ?orb_false_r.
  - apply run_all_cleaners_flag_kept.
Qed.

Lemma bind_ret_state {A B} (m : M A) (f : A -> M B) (s : CleanerCSV) (x : A) :
  m s = (inr x, s) -> (m ≫= f) s = f x s.
Proof. intros E. unfold mbind, M_bind. by rewrite E. Qed.

(** Once the flag is set, what follows keeps it. *)
Lemma flagged_bind {A B} (m : M A) (f : A -> M B) (s : CleanerCSV) :
  df_changed (m s).2 = true -> (forall x, frames flag_kept (f x)) ->
  df_changed ((m ≫= f) s).2 = true.
Proof.
  intros Hm Hf. unfold mbind, M_bind.
  destruct (m s) as [[e|x] s']; simpl in *; [done|]. by apply Hf.
Qed.

Ltac flag_kept_rest :=
  unfold clean_headers, clean_drop_dupplicates,
    clean_numeric_columns, clean_datetime_columns, run_astype_conversion,
    astype_body, clean_drop_na, drop_columns, clean_quantile_outliers,
    outliers_body;
  frame; by unfold flag_kept.

(** A run with one of the four gates open sets the flag, wherever it
    stops. *)
Lemma run_all_cleaners_sets_flag (st : CleanerCSV) :
  flag_gate (cfg st) = true -> df_changed (run_all_cleaners st).2 = true.
Proof.
  unfold flag_gate. intros Hg.
  destruct (mutation_flag_follows_gates st) as (H1 & H2 & H3 & _ & _ & H6 & _).
  cbv zeta in H1, H2, H3, H6.
  unfold run_all_cleaners.
  destruct (truthy (cfg_get (cfg st) "drop_repeat_headers")) eqn:G1.
  { apply flagged_bind; [by rewrite H1, orb_true_r | intros; flag_kept_rest]. }
  rewrite (bind_ret_state clean_headers _ st tt)
    by (unfold clean_headers; munfold; by rewrite G1).
  destruct (truthy (cfg_get (cfg st) "drop_duplicates")) eqn:G2.
  { apply flagged_bind; [by rewrite H2, orb_true_r | intros; flag_kept_rest]. }
  rewrite (bind_ret_state clean_drop_dupplicates _ st tt)
    by (unfold clean_drop_dupplicates; munfold; by rewrite G2).
  destruct (truthy (cfg_get (cfg st) "clean_types")) eqn:G3.
  { apply flagged_bind; [by rewrite H3, orb_true_r | intros; flag_kept_rest]. }
  rewrite (bind_ret_state clean_numeric_columns _ st tt)
    by (unfold clean_numeric_columns; munfold; by rewrite G3).
  rewrite (bind_ret_state clean_datetime_columns _ st tt)
    by (unfold clean_datetime_columns; munfold; by rewrite G3).
  do 3 (rewrite (bind_ret_state (run_astype_conversion _) _ st tt)
          by (unfold run_astype_conversion; munfold; by rewrite G3)).
  simpl in Hg.
  apply flagged_bind; [by rewrite H6, Hg, orb_true_r | intros; flag_kept_rest].
Qed.

(** With every gate closed a run does nothing. *)
Lemma run_all_cleaners_idle (st : CleanerCSV) :
  flag_gate (cfg st) = false ->
  truthy (cfg_get (cfg st) "drop_col") = false ->
  truthy (cfg_get (cfg st) "quantile_ouliers_col") = false ->
  run_all_cleaners st = (inr (df st), st).
Proof.
  unfold flag_gate. intros Hg H5 H6.
  apply orb_false_elim in Hg as [Hg H4].
  apply orb_false_elim in Hg as [Hg H3].
  apply orb_false_elim in Hg as [H1 H2].
  unfold run_all_cleaners, clean_headers, clean_drop_dupplicates,
    clean_numeric_columns, clean_datetime_columns, run_astype_conversion,
    clean_drop_na, drop_columns, clean_quantile_outliers.
  munfold.
  repeat (first [ rewrite H1 | rewrite H2 | rewrite H3 | rewrite H4
                | rewrite H5 | rewrite H6 ]; simpl).
  reflexivity.
Qed.

(** C3, where the code departs from it.  Column removal and outlier
    removal never touch the Mutation flag, whatever they remove: a run in
    which no other stage is enabled leaves the flag as it was.  And the
    numeric coercion sets the flag as soon as [clean_types] is on, before it
    looks at [numeric_col], so also for an empty list, on which the cast and
    datetime stages return without setting it. *)
Theorem flag_misses_column_and_outlier_removal (st : CleanerCSV) :
  df_changed (drop_columns st).2 = df_changed st /\
  df_changed (clean_quantile_outliers st).2 = df_changed st /\
  (flag_gate (cfg st) = false ->
     df_changed (run_all_cleaners st).2 = df_changed st) /\
  (truthy (cfg_get (cfg st) "clean_types") = true ->
   cfg_get (cfg st) "numeric_col" = PyList [] ->
     clean_numeric_columns st = (inr tt, set_df_changed true st)) /\
  (forall t key, category_key t = Some key ->
     cfg_get (cfg st) key = PyList [] ->
     run_astype_conversion t st = (inr tt, st)) /\
  (cfg_get (cfg st) "datetime_col" = PyList [] ->
     clean_datetime_columns st = (inr tt, st)).
Proof.
  assert (Hdrop : frames same_flag drop_columns)
    by (unfold drop_columns; frame; done).
  assert (Hout : frames same_flag clean_quantile_outliers)
    by (unfold clean_quantile_outliers, outliers_body; frame; done).
  split; [apply Hdrop|]. split; [apply Hout|]. split; [|split; [|split]].
  - unfold flag_gate. intros Hg.
    apply orb_false_elim in Hg as [Hg H4].
    apply orb_false_elim in Hg as [Hg H3].
    apply orb_false_elim in Hg as [H1 H2].
    unfold run_all_cleaners.
    rewrite (bind_ret_state clean_headers _ st tt)
      by (unfold clean_headers; munfold; by rewrite H1).
    rewrite (bind_ret_state clean_drop_dupplicates _ st tt)
      by (unfold clean_drop_dupplicates; munfold; by rewrite H2).
    rewrite (bind_ret_state clean_numeric_columns _ st tt)
      by (unfold clean_numeric_columns; munfold; by rewrite H3).
    rewrite (bind_ret_state clean_datetime_columns _ st tt)
      by (unfold clean_datetime_columns; munfold; by rewrite H3).
    do 3 (rewrite (bind_ret_state (run_astype_conversion _) _ st tt)
            by (unfold run_astype_conversion; munfold; by rewrite H3)).
    rewrite (bind_ret_state clean_drop_na _ st tt)
      by (unfold clean_drop_na; munfold; by rewrite H4).
    assert (Hrest : frames same_flag (drop_columns;; clean_quantile_outliers;; get df)).
    { apply frames_bind; [tc_solve | exact Hdrop | intros _].
      apply frames_bind; [tc_solve | exact Hout | intros _]. apply frames_get. tc_solve. }
    apply Hrest.
  - intros Hon Hcols. unfold clean_numeric_columns. munfold.
    by rewrite Hon, Hcols.
  - intros t key Hkey Hcols. unfold run_astype_conversion. munfold.
    rewrite Hkey, Hcols. by destruct (truthy _).
  - intros Hcols. unfold clean_datetime_columns. munfold.
    rewrite Hcols. simpl. by rewrite orb_true_r.
Qed.


(** *** The profiling target *)

(** What [html_profile] reads to choose its target is left alone by the
    stages. *)
Definition same_place : relation CleanerCSV :=
  fun s s' => cfg s' = cfg s /\ local_path s' = local_path s.

#[local] Instance same_place_preorder : PreOrder same_place.
Proof.
  split.
  - by intros s.
  - intros s1 s2 s3 [H1 H1'] [H2 H2']. unfold same_place. split; congruence.
Qed.

Lemma run_all_cleaners_same_place : frames same_place run_all_cleaners.
Proof.
  unfold run_all_cleaners, clean_headers, clean_drop_dupplicates,
    clean_numeric_columns, clean_datetime_columns, run_astype_conversion,
    astype_body, clean_drop_na, drop_columns, clean_quantile_outliers,
    outliers_body.
  frame; by unfold same_place.
Qed.

Lemma html_profile_frames :
  frames same_place html_profile /\ frames same_flag html_profile.
Proof.
  split; unfold html_profile, write_file; frame;
    by unfold same_place, same_flag.
Qed.

(** What [html_profile] does, by what the report engine answers: the
    record of the chosen target is logged before the engine is called, the
    file is written and the second record logged after it has answered. *)
Lemma html_profile_eval (s : CleanerCSV) (pin pout : string) :
  cfg_get (cfg s) "input_file_profile" = PyStr pin ->
  cfg_get (cfg s) "output_file_profile" = PyStr pout ->
  let target := path_join (local_path s) (Path_of (if df_changed s then pout else pin)) in
  let started :=
    add_log (INFO, if df_changed s then ProfilingCleaned target
                   else ProfilingSource target) s in
  html_profile s =
    match to_file (df s) with
    | inr _ =>
        (inr target,
         add_log (INFO, ProfilingFinished)
           (set_files (<[absolute s target := HtmlReport (df s)]> (files s)) started))
    | inl e => (inl e, started)
    end.
Proof.
  intros Hin Hout. unfold html_profile, write_file. munfold.
  destruct (df_changed s); simpl; [rewrite Hout | rewrite Hin]; simpl;
    by destruct (to_file (df s)) as [e|[]].
Qed.

(** C8 (as amended): [html_profile] chooses its target from the Mutation
    flag alone: on any object carrying the specification and directory of
    [st] the target is the path resolved from [input_file_profile] while the
    flag is false and the one resolved from [output_file_profile] once it is
    true; when the report engine builds the report of the table, the call
    writes it there and returns that path, and when the engine raises, as it
    does on a table without rows, the call raises the same.  Hence, on an
    unmutated object, the call before and the call after a run in which one
    of [drop_repeat_headers], [drop_duplicates], [clean_types] and [drop_na]
    is on: the run sets the flag, the calls return the input target and the
    output target wherever the engine answers, and these are two distinct
    paths whenever the two options resolve to different paths.  Every run
    that changes the table without removing columns or outliers is such a
    run. *)
Theorem html_profile_target_follows_flag (st : CleanerCSV) (pin pout : string) :
  cfg_get (cfg st) "input_file_profile" = PyStr pin ->
  cfg_get (cfg st) "output_file_profile" = PyStr pout ->
  let target_in := path_join (local_path st) (Path_of pin) in
  let target_out := path_join (local_path st) (Path_of pout) in
  (forall s, cfg s = cfg st -> local_path s = local_path st ->
     let target := if df_changed s then target_out else target_in in
     (html_profile s).1 = (fun _ => target) <$> to_file (df s) /\
     (to_file (df s) = inr tt ->
      files (html_profile s).2 !! absolute s target = Some (HtmlReport (df s)))) /\
  (df_changed st = false ->
   let before := html_profile st in
   let run := run_all_cleaners before.2 in
   let after := html_profile run.2 in
   (flag_gate (cfg st) = true ->
      df_changed run.2 = true /\
      before.1 = (fun _ => target_in) <$> to_file (df st) /\
      after.1 = (fun _ => target_out) <$> to_file (df run.2) /\
      (target_in <> target_out ->
         forall p, before.1 = inr p -> after.1 <> inr p)) /\
   (truthy (cfg_get (cfg st) "drop_col") = false ->
    truthy (cfg_get (cfg st) "quantile_ouliers_col") = false ->
    df run.2 <> df before.2 -> flag_gate (cfg st) = true)).
Proof.
  intros Hin Hout target_in target_out.
  assert (Hsel : forall s, cfg s = cfg st -> local_path s = local_path st ->
     html_profile s =
       let target := if df_changed s then target_out else target_in in
       let started :=
         add_log (INFO, if df_changed s then ProfilingCleaned target
                        else ProfilingSource target) s in
       match to_file (df s) with
       | inr _ =>
           (inr target,
            add_log (INFO, ProfilingFinished)
              (set_files (<[absolute s target := HtmlReport (df s)]> (files s)) started))
       | inl e => (inl e, started)
       end).
  { intros s Hc Hl. rewrite (html_profile_eval s pin pout) by (by rewrite Hc).
    rewrite Hl. unfold target_in, target_out. by destruct (df_changed s). }
  split.
  - intros s Hc Hl target. rewrite (Hsel s Hc Hl). cbv zeta. fold target.
    destruct (to_file (df s)) as [e|u]; simpl; [done|].
    split; [done | intros _; apply lookup_insert_eq].
  - intros Hflag before run after.
    destruct html_profile_frames as [Hp Hf].
    pose proof (Hp st) as [Hc1 Hl1]. pose proof (Hf st) as Hf1.
    pose proof (run_all_cleaners_same_place before.2) as [Hc2 Hl2].
    fold before in Hc1, Hl1, Hf1. fold run in Hc2, Hl2.
    unfold same_flag in Hf1.
    split.
    + intros Hg.
      assert (Hset : df_changed run.2 = true).
      { apply run_all_cleaners_sets_flag. by rewrite Hc1. }
      assert (Hb : before.1 = (fun _ => target_in) <$> to_file (df st)).
      { unfold before. rewrite (Hsel st) by done. cbv zeta. rewrite Hflag.
        by destruct (to_file (df st)). }
      assert (Ha : after.1 = (fun _ => target_out) <$> to_file (df run.2)).
      { unfold after. rewrite (Hsel run.2) by congruence. cbv zeta. rewrite Hset.
        by destruct (to_file (df run.2)). }
      split; [done|]. split; [done|]. split; [done|].
      intros Hne p Hp1 Hp2. rewrite Hb in Hp1. rewrite Ha in Hp2.
      destruct (to_file (df st)); [done|].
      destruct (to_file (df run.2)); [done|].
      simpl in *. congruence.
    + intros H5 H6 Hdf. destruct (flag_gate (cfg st)) eqn:Hg; [done|].
      exfalso. apply Hdf. unfold run.
      rewrite run_all_cleaners_idle by (by rewrite Hc1). reflexivity.
Qed.


(** *** Loading the specification *)

Lemma create_default_config_absent (s : CleanerCSV) :
  files s !! default_specs s = None ->
  create_default_config s =
    (inr DEFAULT_CFG,
     set_files (<[default_specs s := JsonText DEFAULT_CFG]> (files s)) s).
Proof.
  intros Hd. unfold default_specs in Hd.
  unfold create_default_config, exists_, write_file. munfold.
  rewrite Hd. reflexivity.
Qed.

Lemma create_default_config_present (s : CleanerCSV) (c0 : config) :
  files s !! default_specs s = Some (JsonText c0) ->
  create_default_config s = (inr c0, s).
Proof.
  intros Hd. unfold default_specs in Hd.
  unfold create_default_config, exists_, open_json. munfold.
  rewrite Hd. simpl. rewrite Hd. reflexivity.
Qed.

Lemma open_json_fallback (s : CleanerCSV) (p : Path) :
  missing_or_not_json (files s !! absolute s p) ->
  open_json p s =
    (inl (if files s !! absolute s p is Some _
          then JSONDecodeError else FileNotFoundError), s).
Proof.
  unfold open_json.
  destruct (files s !! absolute s p) as [[]|]; simpl; intros H; done.
Qed.

(** C4 (as amended): when the requested resource is missing, or is text
    that can be read and is not JSON, and the default location holds no file
    or one that parses, loading does not raise: the specification becomes
    the content of the file at the default location, which is the built-in
    default, written there on the spot, when no such file exists; a warning
    naming the requested path is logged; and the resolved path is the
    default location, which differs from the requested path unless the
    request was for the default location itself. *)
Theorem load_config_falls_back (s : CleanerCSV) (config_file : Path) :
  missing_or_not_json (files s !! absolute s config_file) ->
  (files s !! default_specs s = None \/
   exists c0, files s !! default_specs s = Some (JsonText c0)) ->
  exists s' warning,
    load_config config_file s = (inr tt, s') /\
    cfg s' = default DEFAULT_CFG (readable_json (files s !! default_specs s)) /\
    files s' = <[default_specs s := JsonText (cfg s')]> (files s) /\
    cfg_file s' = default_specs s /\
    warning = (if files s !! absolute s config_file is Some _
               then ConfigNotValidJSON config_file
               else ConfigNotFound config_file) /\
    logger s' = logger s ++ [(WARNING, warning); (INFO, LoadedConfig (default_specs s))] /\
    (config_file <> default_specs s -> cfg_file s' <> config_file).
Proof.
  intros Hreq Hdef.
  unfold load_config. unfold mbind at 1. unfold M_bind, try_except.
  unfold mbind at 1. unfold M_bind.
  rewrite (open_json_fallback _ _ Hreq).
  destruct Hdef as [Hd | [c0 Hd]];
    destruct (files s !! absolute s config_file) as [f|];
    unfold mbind at 1; unfold M_bind;
    rewrite ?(create_default_config_absent _ Hd),
            ?(create_default_config_present _ _ Hd); munfold; simpl;
    do 2 eexists; (split; [reflexivity|]); simpl; rewrite Hd; simpl;
    repeat split;
    first [done | by rewrite insert_id | congruence
          | by rewrite <- app_assoc ].
Qed.

(** C1 (as amended): a specification that loads is kept as it was read,
    no default being merged into it: the lookup of any key never fails and
    answers the user's value when the key is present and [None] when it is
    absent.  An absent boolean option therefore counts as false: without
    [drop_repeat_headers], [drop_duplicates] or [drop_na] the stage it gates
    does nothing, and without [clean_types] neither do the numeric, datetime
    and cast stages. *)
Theorem absent_key_reads_None (s : CleanerCSV) (config_file : Path) (c : config) :
  files s !! absolute s config_file = Some (JsonText c) ->
  exists s',
    load_config config_file s = (inr tt, s') /\
    cfg s' = c /\ cfg_file s' = config_file /\
    (forall key, cfg_get (cfg s') key
                 = match c !! key with Some v => v | None => PyNone end) /\
    (forall s2, cfg s2 = c ->
       (c !! "drop_repeat_headers" = None -> clean_headers s2 = (inr tt, s2)) /\
       (c !! "drop_duplicates" = None -> clean_drop_dupplicates s2 = (inr tt, s2)) /\
       (c !! "drop_na" = None -> clean_drop_na s2 = (inr tt, s2)) /\
       (c !! "clean_types" = None ->
          clean_numeric_columns s2 = (inr tt, s2) /\
          clean_datetime_columns s2 = (inr tt, s2) /\
          forall t, run_astype_conversion t s2 = (inr tt, s2))).
Proof.
  intros Hfile. eexists. split.
  { unfold load_config, open_json. munfold. rewrite Hfile. simpl. reflexivity. }
  simpl. split; [done|]. split; [done|]. split.
  { intros key. unfold cfg_get. by destruct (c !! key). }
  intros s2 Hs2. subst c.
  repeat split.
  - intros H. unfold clean_headers, cfg_get. munfold. by rewrite H.
  - intros H. unfold clean_drop_dupplicates, cfg_get. munfold. by rewrite H.
  - intros H. unfold clean_drop_na, cfg_get. munfold. by rewrite H.
  - unfold clean_numeric_columns, cfg_get. munfold. by rewrite H.
  - unfold clean_datetime_columns, cfg_get. munfold. by rewrite H.
  - intros t. unfold run_astype_conversion, cfg_get. munfold. by rewrite H.
Qed.


(** *** Quantile-based outlier removal *)

(** One turn of the loop of the code is one step of the fold. *)
Lemma outliers_body_step (col : string) (s : CleanerCSV) :
  outliers_body col s =
    match outlier_step col (df s) with
    | inr d => (inr tt, set_df d s)
    | inl e => (inl e, s)
    end.
Proof.
  unfold outliers_body, outlier_step, outlier_bounds, within, self_df, getitem.
  munfold. simpl.
  destruct (col_index (df s) col) as [i|]; simpl; [|reflexivity].
  destruct (quantile _ f0_25) as [e|Q1]; simpl; [reflexivity|].
  destruct (quantile _ f0_75) as [e|Q3]; simpl; [reflexivity|].
  destruct (scalar_sub Q1 Q3) as [e|IQR]; simpl; [reflexivity|].
  destruct (scalar_rmul f1_5 IQR) as [e|w]; simpl; [reflexivity|].
  destruct (scalar_sub Q1 w) as [e|lo]; simpl; [reflexivity|].
  destruct (scalar_add Q3 w) as [e|hi]; simpl; [reflexivity|].
  destruct (series_ge _ lo) as [e|ge]; simpl; [reflexivity|].
  destruct (series_le _ hi) as [e|le]; simpl; reflexivity.
Qed.

Lemma set_df_same (s : CleanerCSV) : set_df (df s) s = s.
Proof. by destruct s. Qed.

(** The loop of the code is the fold. *)
Lemma outliers_loop_fold (cols : list string) (s : CleanerCSV) :
  match outlier_fold cols (df s) with
  | inr d => for_each cols outliers_body s = (inr tt, set_df d s)
  | inl e => (for_each cols outliers_body s).1 = inl e
  end.
Proof.
  revert s. induction cols as [|c cs IH]; intros s; simpl.
  - by rewrite set_df_same.
  - unfold mbind, M_bind, result_bind. rewrite outliers_body_step.
    destruct (outlier_step c (df s)) as [e|d1]; simpl; [reflexivity|].
    specialize (IH (set_df d1 s)). simpl in IH.
    destruct (outlier_fold cs d1) as [e|d]; [exact IH|].
    rewrite IH. reflexivity.
Qed.

Lemma clean_quantile_outliers_loop (st : CleanerCSV) (cols : list string) :
  cfg_get (cfg st) "quantile_ouliers_col" = PyList cols -> cols <> [] ->
  clean_quantile_outliers st = for_each cols outliers_body st.
Proof.
  intros Hc Hne. unfold clean_quantile_outliers. munfold.
  rewrite Hc, (truthy_PyList _ Hne). reflexivity.
Qed.

(** On a numeric column the mask built from the two comparisons selects
    the rows whose number is within the bounds. *)
Lemma select_valid_rows (i : nat) (lo hi : float) (rs : list row) :
  select
    (zip_with andb
       (map (fun c => fle lo (float64 c)) (map (cell_at i) rs))
       (map (fun c => fle (float64 c) hi) (map (cell_at i) rs)))
    rs
  = filter (fun r => in_bounds lo hi (cell_at i r) = true) rs.
Proof.
  induction rs as [|r rs IH]; [reflexivity|].
  cbn [map zip_with select]. rewrite filter_cons, IH.
  case_decide as E; unfold in_bounds in E.
  - by rewrite E.
  - by apply not_true_is_false in E as ->.
Qed.

(** The step on a numeric column: the quartiles are floats, the bounds
    follow in binary64, and the step is the filter of the rows within
    them. *)
Lemma outlier_step_numeric (c : string) (d : DataFrame) (i : nat) :
  col_index d c = Some i ->
  numeric_series (map (cell_at i) (rows d)) ->
  exists Q1 Q3,
    quantile (map (cell_at i) (rows d)) f0_25 = inr (of_float Q1) /\
    quantile (map (cell_at i) (rows d)) f0_75 = inr (of_float Q3) /\
    let IQR := fsub Q1 Q3 in
    outlier_step c d =
      inr (mkDF (columns d)
             (filter (fun r => in_bounds (fsub Q1 (fmul f1_5 IQR))
                                         (fadd Q3 (fmul f1_5 IQR))
                                         (cell_at i r) = true) (rows d))).
Proof.
  intros Hi Hn.
  destruct (quantile_numeric _ f0_25 Hn) as [Q1 H1].
  destruct (quantile_numeric _ f0_75 Hn) as [Q3 H3].
  exists Q1, Q3. split; [done|]. split; [done|]. intros IQR.
  unfold outlier_step, outlier_bounds, within. rewrite Hi. cbv zeta.
  unfold mbind, result_bind, mret, result_ret.
  rewrite H1, H3, scalar_sub_float, scalar_rmul_float, scalar_sub_float,
    scalar_add_float.
  cbn [fst snd].
  rewrite (series_ge_float _ _ Hn), (series_le_float _ _ Hn).
  by rewrite select_valid_rows.
Qed.

(** C5: for a non-empty [quantile_ouliers_col] the stage is the sequential
    fold over the listed columns, in list order: each step takes the first
    and third quartiles of the column in the table left by the previous
    steps, sets the spread to [Q1 - Q3] and the bounds to [Q1 - 1.5 * IQR]
    and [Q3 + 1.5 * IQR], and retains the rows whose value is at least the
    first bound and at most the second; the next step sees only the retained
    rows.  The stage returns the table of the fold, and raises exactly when
    the fold does, with what the fold raises.  This holds of a column of any
    kind; on a numeric column that has cells the quartiles and the bounds
    are floats and the step is the filter of the rows whose number lies
    within them. *)
Theorem clean_quantile_outliers_is_sequential_fold
    (st : CleanerCSV) (cols : list string) :
  cfg_get (cfg st) "quantile_ouliers_col" = PyList cols ->
  cols <> [] ->
  match outlier_fold cols (df st) with
  | inr d => clean_quantile_outliers st = (inr tt, set_df d st)
  | inl e => (clean_quantile_outliers st).1 = inl e
  end /\
  (forall c cs d, outlier_fold (c :: cs) d
                  = match outlier_step c d with
                    | inr d1 => outlier_fold cs d1
                    | inl e => inl e
                    end) /\
  (forall c d i Q1 Q3 IQR w lo hi ge le,
      col_index d c = Some i ->
      let column := map (cell_at i) (rows d) in
      quantile column f0_25 = inr Q1 ->
      quantile column f0_75 = inr Q3 ->
      scalar_sub Q1 Q3 = inr IQR ->
      scalar_rmul f1_5 IQR = inr w ->
      scalar_sub Q1 w = inr lo ->
      scalar_add Q3 w = inr hi ->
      series_ge column lo = inr ge ->
      series_le column hi = inr le ->
      outlier_step c d =
        inr (mkDF (columns d) (select (zip_with andb ge le) (rows d)))) /\
  (forall c d i,
      col_index d c = Some i ->
      rows d <> [] ->
      numeric_series (map (cell_at i) (rows d)) ->
      exists Q1 Q3,
        quantile (map (cell_at i) (rows d)) f0_25 = inr (of_float Q1) /\
        quantile (map (cell_at i) (rows d)) f0_75 = inr (of_float Q3) /\
        let IQR := fsub Q1 Q3 in
        outlier_step c d =
          inr (mkDF (columns d)
                 (filter (fun r => in_bounds (fsub Q1 (fmul f1_5 IQR))
                                             (fadd Q3 (fmul f1_5 IQR))
                                             (cell_at i r) = true) (rows d)))).
Proof.
  intros Hc Hne. split; [|split; [|split]].
  - rewrite (clean_quantile_outliers_loop _ _ Hc Hne). apply outliers_loop_fold.
  - reflexivity.
  - intros c d i Q1 Q3 IQR w lo hi ge le Hi column H1 H3 HI Hw Hlo Hhi Hge Hle.
    unfold outlier_step, outlier_bounds, within. rewrite Hi. cbv zeta.
    fold column. unfold mbind, result_bind, mret, result_ret.
    rewrite H1, H3, HI, Hw, Hlo, Hhi. cbn [fst snd]. by rewrite Hge, Hle.
  - intros c d i Hi _. by apply outlier_step_numeric.
Qed.


(** A row that a mask selects stands under a [True] of the mask. *)
Lemma elem_of_select (mask : list bool) (rs : list row) (r : row) :
  r ∈ select mask rs -> exists k, rs !! k = Some r /\ mask !! k = Some true.
Proof.
  revert mask. induction rs as [|x rs IH]; intros [|b mask]; simpl;
    try (by intros H; inversion H).
  destruct b.
  - intros [-> | H]%elem_of_cons; [by exists 0|].
    destruct (IH _ H) as (k & ? & ?). by exists (S k).
  - intros H. destruct (IH _ H) as (k & ? & ?). by exists (S k).
Qed.

Lemma select_subseteq (mask : list bool) (rs : list row) :
  select mask rs ⊆ rs.
Proof.
  intros r Hr. apply elem_of_select in Hr as (k & Hk & _).
  by eapply list_elem_of_lookup_2.
Qed.

Lemma outlier_step_inv (col : string) (d d1 : DataFrame) :
  outlier_step col d = inr d1 ->
  exists i lo hi ge le,
    col_index d col = Some i /\
    series_ge (map (cell_at i) (rows d)) lo = inr ge /\
    series_le (map (cell_at i) (rows d)) hi = inr le /\
    d1 = mkDF (columns d) (select (zip_with andb ge le) (rows d)).
Proof.
  unfold outlier_step, within. destruct (col_index d col) as [i|]; [|done].
  cbv zeta. unfold mbind, result_bind, mret, result_ret.
  destruct (outlier_bounds _) as [e|[lo hi]]; [done|]. cbn [fst snd].
  destruct (series_ge _ lo) as [e|ge] eqn:Hge; [done|].
  destruct (series_le _ hi) as [e|le] eqn:Hle; [done|].
  intros [= <-]. by exists i, lo, hi, ge, le.
Qed.

(** A row that a step retains has a value in the column: a missing one
    fails the first comparison. *)
Lemma outlier_step_not_missing (col : string) (d d1 : DataFrame) :
  outlier_step col d = inr d1 ->
  exists i,
    col_index d col = Some i /\ columns d1 = columns d /\
    rows d1 ⊆ rows d /\
    forall r, r ∈ rows d1 -> isna (cell_at i r) = false.
Proof.
  intros Hstep.
  destruct (outlier_step_inv _ _ _ Hstep) as (i & lo & hi & ge & le & Hi & Hge & Hle & ->).
  exists i. split; [done|]. split; [done|]. split; [apply select_subseteq|].
  cbn [rows]. intros r Hr.
  apply elem_of_select in Hr as (k & Hk & Hmask).
  destruct (isna (cell_at i r)) eqn:Hna; [|done]. exfalso.
  assert (Hcell : map (cell_at i) (rows d) !! k = Some (cell_at i r))
    by (by rewrite list_lookup_fmap, Hk).
  pose proof (series_ge_missing _ _ _ _ _ Hge Hcell Hna) as Hfalse.
  apply lookup_zip_with_Some in Hmask as (x & y & Hxy & Hx & Hy).
  rewrite Hfalse in Hx. injection Hx as <-. done.
Qed.

(** What the fold leaves: the same columns, rows of the table it started
    from, and in every listed column a value that is not missing. *)
Lemma outlier_fold_not_missing (cols : list string) (d d' : DataFrame) :
  outlier_fold cols d = inr d' ->
  columns d' = columns d /\
  rows d' ⊆ rows d /\
  forall col r, col ∈ cols -> r ∈ rows d' ->
    exists i, col_index d' col = Some i /\ isna (cell_at i r) = false.
Proof.
  revert d. induction cols as [|c cs IH]; intros d; simpl.
  - intros [= <-]. split; [done|]. split; [done|]. intros col r Hc. inversion Hc.
  - unfold mbind, result_bind.
    destruct (outlier_step c d) as [e|d1] eqn:E1; [done|]. intros Hfold.
    destruct (IH _ Hfold) as (Hcols & Hsub & Hna).
    destruct (outlier_step_not_missing _ _ _ E1) as (i & Hi & Hcols1 & Hsub1 & Hna1).
    split; [congruence|]. split.
    + intros r Hr. by apply Hsub1, Hsub.
    + intros col r Hcol Hr. apply elem_of_cons in Hcol as [-> | Hcol].
      * exists i. split; [unfold col_index in *; by rewrite Hcols, Hcols1|].
        by apply Hna1, Hsub.
      * by apply Hna.
Qed.

Lemma numeric_series_filter (i : nat) (P : row -> Prop) `{!forall r, Decision (P r)}
    (rs : list row) :
  numeric_series (map (cell_at i) rs) ->
  numeric_series (map (cell_at i) (filter P rs)).
Proof.
  intros [Hs|Hs]; [left|right]; rewrite Forall_forall in *; intros c Hc;
    apply list_elem_of_fmap in Hc as (r & -> & Hr);
    apply list_elem_of_filter in Hr as [_ Hr];
    apply Hs, list_elem_of_fmap; eauto.
Qed.

(** On numeric columns that are all present the fold goes through. *)
Lemma outlier_fold_total (cols : list string) (d : DataFrame) :
  (forall col, col ∈ cols ->
     exists s, getitem d col = inr s /\ numeric_series s) ->
  exists d', outlier_fold cols d = inr d'.
Proof.
  revert d. induction cols as [|c cs IH]; intros d Hnum; simpl; [eauto|].
  destruct (Hnum c) as (s & Hs & Hn); [by left|].
  unfold getitem in Hs.
  destruct (col_index d c) as [i|] eqn:Hi; [|done]. injection Hs as <-.
  destruct (outlier_step_numeric c d i Hi Hn) as (Q1 & Q3 & _ & _ & Hstep).
  cbv zeta in Hstep. rewrite Hstep.
  unfold mbind, result_bind.
  apply IH. intros col Hcol.
  destruct (Hnum col) as (s' & Hs' & Hn'); [by right|].
  unfold getitem in *. unfold col_index in *. cbn [columns rows].
  destruct (fst <$> list_find (fun c0 => c0 = col) (columns d)) as [j|]; [|done].
  injection Hs' as <-. eexists. split; [reflexivity|].
  by apply numeric_series_filter.
Qed.

(** C10: after the outlier stage every surviving row has a non-missing
    value in each listed column, whether or not [drop_na] is on and whatever
    the kind of the column, numeric or datetime: a row whose value in the
    column being processed is missing fails the comparison with the first
    bound and is removed, and later steps only remove rows.  The stage does
    return such a table whenever every listed column is present and
    numeric. *)
Theorem outliers_remove_missing_values (st : CleanerCSV) (cols : list string) :
  cfg_get (cfg st) "quantile_ouliers_col" = PyList cols ->
  cols <> [] ->
  (forall st', clean_quantile_outliers st = (inr tt, st') ->
     columns (df st') = columns (df st) /\
     rows (df st') ⊆ rows (df st) /\
     forall col r, col ∈ cols -> r ∈ rows (df st') ->
       exists i, col_index (df st') col = Some i /\ isna (cell_at i r) = false) /\
  ((forall col, col ∈ cols ->
      exists s, getitem (df st) col = inr s /\ numeric_series s) ->
   exists st', clean_quantile_outliers st = (inr tt, st')).
Proof.
  intros Hc Hne. rewrite (clean_quantile_outliers_loop _ _ Hc Hne).
  pose proof (outliers_loop_fold cols st) as Hloop. split.
  - intros st' Hrun. destruct (outlier_fold cols (df st)) as [e|d] eqn:Ef.
    + rewrite Hrun in Hloop. done.
    + rewrite Hrun in Hloop. injection Hloop as ->. simpl.
      by apply outlier_fold_not_missing.
  - intros Hnum. destruct (outlier_fold_total cols (df st) Hnum) as [d Hd].
    rewrite Hd in Hloop. eauto.
Qed.


(** *** Row filters: repeated headers and duplicates *)

Lemma select_negb_filter (P : row -> bool) (rs : list row) :
  select (map negb (map P rs)) rs = filter (fun r => P r = false) rs.
Proof.
  induction rs as [|r rs IH]; [reflexivity|].
  cbn [map select]. rewrite filter_cons, IH.
  destruct (P r); simpl; try case_decide; congruence.
Qed.

(** Some cell of the row is the label of its own column. *)
Lemma existsb_eq_label (r : row) (cols : list string) :
  existsb id (zip_with cell_eq_label r cols) = true <->
  exists i name, cols !! i = Some name /\ r !! i = Some (Str name).
Proof.
  revert cols. induction r as [|c r IH]; intros cols.
  - simpl. split; [done | intros (i & name & _ & H); by destruct i].
  - destruct cols as [|n cols].
    + simpl. split; [done | intros (i & name & H & _); by destruct i].
    + cbn [zip_with existsb]. rewrite orb_true_iff, IH. split.
      * intros [H | (i & name & H1 & H2)].
        -- exists 0, n. split; [done|]. unfold id in H. destruct c; try done.
           simpl in H. apply String.eqb_eq in H. by subst.
        -- by exists (S i), name.
      * intros (i & name & H1 & H2). destruct i as [|i]; simpl in *.
        -- left. injection H1 as ->. injection H2 as ->. unfold id. simpl.
           apply String.eqb_refl.
        -- right. by exists i, name.
Qed.

(** X1: with [drop_repeat_headers] on, the header stage returns normally,
    keeps the columns, and keeps, in order and unaltered, exactly the rows
    none of whose cells is the string naming its own column. *)
Theorem clean_headers_removes_repeated_headers (st : CleanerCSV) :
  truthy (cfg_get (cfg st) "drop_repeat_headers") = true ->
  exists st',
    clean_headers st = (inr tt, st') /\
    columns (df st') = columns (df st) /\
    sublist (rows (df st')) (rows (df st)) /\
    (forall r, r ∈ rows (df st') <->
       r ∈ rows (df st) /\
       ~ exists i name, columns (df st) !! i = Some name /\ r !! i = Some (Str name)).
Proof.
  intros Hon. unfold clean_headers. munfold. rewrite Hon. simpl.
  eexists. split; [reflexivity|]. simpl. split; [done|].
  unfold eq_columns_any.
  rewrite (select_negb_filter
             (fun r => existsb id (zip_with cell_eq_label r (columns (df st))))).
  split; [apply sublist_filter|].
  intros r. rewrite list_elem_of_filter, <- existsb_eq_label.
  destruct (existsb _ _); split; intros [? ?]; split; try done.
Qed.

Lemma cell_same_key (c d : cell) :
  cell_same c d = true <-> cell_key c = cell_key d.
Proof.
  destruct c as [?|[]|?|?|], d as [?|[]|?|?|]; simpl;
    rewrite ?andb_false_r, ?andb_true_r, ?orb_false_l, ?orb_true_l,
      ?bool_decide_eq_true;
    split; intros H; first [done | congruence].
Qed.

Lemma cell_same_refl (c : cell) : cell_same c c = true.
Proof. by apply cell_same_key. Qed.

Lemma cell_same_trans (c d e : cell) :
  cell_same c d = true -> cell_same d e = true -> cell_same c e = true.
Proof. rewrite !cell_same_key. congruence. Qed.

Lemma row_same_refl (r : row) : row_same r r = true.
Proof.
  induction r as [|c r IH]; simpl; [done|]. by rewrite cell_same_refl, IH.
Qed.

Lemma row_same_trans (r q p : row) :
  row_same r q = true -> row_same q p = true -> row_same r p = true.
Proof.
  revert q p. induction r as [|c r IH]; intros [|d q] [|e p]; simpl; try done.
  intros [H1 H1']%andb_true_iff [H2 H2']%andb_true_iff.
  apply andb_true_iff. split; [by eapply cell_same_trans | by eapply IH].
Qed.

Lemma existsb_false_elem {A} (f : A -> bool) (l : list A) (x : A) :
  existsb f l = false -> x ∈ l -> f x = false.
Proof.
  intros Hl Hx. destruct (f x) eqn:E; [|done].
  assert (existsb f l = true); [|congruence].
  apply existsb_exists. exists x. split; [by apply list_elem_of_In | done].
Qed.

Lemma existsb_false_sublist {A} (f : A -> bool) (k l : list A) :
  sublist k l -> existsb f l = false -> existsb f k = false.
Proof.
  intros Hs Hl. destruct (existsb f k) eqn:E; [|done].
  apply existsb_exists in E as (x & Hx & Hfx).
  apply list_elem_of_In in Hx.
  rewrite (existsb_false_elem f l x Hl) in Hfx; [done|].
  by eapply elem_of_sublist.
Qed.

Lemma drop_duplicates_last_sublist (rs : list row) :
  sublist (drop_duplicates_last rs) rs.
Proof.
  induction rs as [|x rs IH]; simpl; [constructor|].
  destruct (existsb _ _); by constructor.
Qed.

(** No row that stays is equal to a later row that stays. *)
Lemma drop_duplicates_last_distinct (rs : list row) (i j : nat) (r q : row) :
  i < j ->
  drop_duplicates_last rs !! i = Some r ->
  drop_duplicates_last rs !! j = Some q ->
  row_same r q = false.
Proof.
  revert i j. induction rs as [|x rs IH]; intros i j Hij; simpl; [done|].
  destruct (existsb (row_same x) rs) eqn:Ex; [by apply IH|].
  destruct i as [|i], j as [|j]; simpl; try lia.
  - intros [= <-] Hq. apply (existsb_false_elem _ rs); [done|].
    eapply elem_of_sublist; [|apply drop_duplicates_last_sublist].
    by eapply list_elem_of_lookup_2.
  - apply IH. lia.
Qed.

(** Every row has an equal row among those that stay. *)
Lemma drop_duplicates_last_represents (rs : list row) (r : row) :
  r ∈ rs -> exists q, q ∈ drop_duplicates_last rs /\ row_same r q = true.
Proof.
  revert r. induction rs as [|x rs IH]; intros r; simpl;
    [by intros H; inversion H|].
  intros Hr. destruct (existsb (row_same x) rs) eqn:Ex.
  - apply elem_of_cons in Hr as [-> | Hr]; [|by apply IH].
    apply existsb_exists in Ex as (y & Hy & Hxy).
    apply list_elem_of_In in Hy.
    destruct (IH _ Hy) as (q & Hq & Hyq).
    exists q. split; [done | by eapply row_same_trans].
  - apply elem_of_cons in Hr as [-> | Hr].
    + exists x. split; [by left | apply row_same_refl].
    + destruct (IH _ Hr) as (q & Hq & Hrq). exists q. split; [by right | done].
Qed.

Lemma drop_duplicates_last_idemp (rs : list row) :
  drop_duplicates_last (drop_duplicates_last rs) = drop_duplicates_last rs.
Proof.
  induction rs as [|x rs IH]; simpl; [done|].
  destruct (existsb (row_same x) rs) eqn:Ex; [done|]. simpl.
  rewrite (existsb_false_sublist _ _ rs (drop_duplicates_last_sublist rs) Ex).
  by rewrite IH.
Qed.

(** Of the rows of a first part, those that have an equal row later go. *)
Lemma drop_duplicates_last_app (l1 l2 : list row) :
  drop_duplicates_last (l1 ++ l2)
  = filter (fun r => existsb (row_same r) l2 = false) (drop_duplicates_last l1)
    ++ drop_duplicates_last l2.
Proof.
  induction l1 as [|x l1 IH]; simpl; [done|].
  rewrite existsb_app.
  destruct (existsb (row_same x) l1) eqn:E1; simpl; [done|].
  destruct (existsb (row_same x) l2) eqn:E2.
  - rewrite filter_cons_False by (by rewrite E2). done.
  - rewrite filter_cons_True by done. simpl. by rewrite IH.
Qed.

(** X2: with [drop_duplicates] on, duplicate removal returns normally and
    keeps the columns.  Rows are compared as pandas compares them, cell by
    cell, the two zeros being one value and [NaN] being equal to [NaN]: no
    two rows it leaves are equal, every row of the table has an equal row
    among those it leaves, and these stand in their original order and
    unaltered; of equal rows the last one stays (a row of a first part of
    the table stays only if no row of the rest is equal to it); and a second
    pass changes nothing. *)
Theorem clean_drop_dupplicates_keeps_last_copies (st : CleanerCSV) :
  truthy (cfg_get (cfg st) "drop_duplicates") = true ->
  exists st',
    clean_drop_dupplicates st = (inr tt, st') /\
    columns (df st') = columns (df st) /\
    (forall i j r q, i < j ->
       rows (df st') !! i = Some r -> rows (df st') !! j = Some q ->
       row_same r q = false) /\
    (forall r, r ∈ rows (df st) ->
       exists q, q ∈ rows (df st') /\ row_same r q = true) /\
    sublist (rows (df st')) (rows (df st)) /\
    (forall l1 l2, rows (df st) = l1 ++ l2 ->
       rows (df st') = filter (fun r => existsb (row_same r) l2 = false)
                         (drop_duplicates_last l1)
                       ++ drop_duplicates_last l2) /\
    df (clean_drop_dupplicates st').2 = df st'.
Proof.
  intros Hon. unfold clean_drop_dupplicates. munfold. rewrite Hon. simpl.
  eexists. split; [reflexivity|]. simpl. rewrite Hon. simpl.
  split; [done|]. split; [apply drop_duplicates_last_distinct|].
  split; [apply drop_duplicates_last_represents|].
  split; [apply drop_duplicates_last_sublist|]. split.
  - intros l1 l2 ->. apply drop_duplicates_last_app.
  - unfold drop_duplicates. simpl. f_equal. apply drop_duplicates_last_idemp.
Qed.


(** *** Conversion stages: options and columns that are not there *)

Lemma clean_headers_returns (s : CleanerCSV) : (clean_headers s).1 = inr tt.
Proof. unfold clean_headers. munfold. by destruct (truthy _). Qed.

Lemma clean_drop_dupplicates_returns (s : CleanerCSV) :
  (clean_drop_dupplicates s).1 = inr tt.
Proof. unfold clean_drop_dupplicates. munfold. by destruct (truthy _). Qed.

(** X3: [clean_types] needs its list options.  With [clean_types] on and
    [numeric_col] absent (or null) the numeric stage raises [TypeError], the
    Mutation flag already set and the table untouched, and so does the whole
    run; with a non-empty [datetime_col] of known length and [datetime_format]
    absent the datetime stage raises [TypeError] and changes nothing. *)
Theorem clean_types_needs_list_options (st : CleanerCSV) :
  truthy (cfg_get (cfg st) "clean_types") = true ->
  (cfg_get (cfg st) "numeric_col" = PyNone ->
     clean_numeric_columns st = (inl TypeError, set_df_changed true st) /\
     exists s', run_all_cleaners st = (inl TypeError, s') /\ df_changed s' = true) /\
  (truthy (cfg_get (cfg st) "datetime_col") = true ->
   (exists n, py_len (cfg_get (cfg st) "datetime_col") = inr n) ->
   cfg_get (cfg st) "datetime_format" = PyNone ->
     clean_datetime_columns st = (inl TypeError, st)).
Proof.
  intros Hon. split.
  - intros Hnone.
    assert (Hstage : forall s, cfg s = cfg st ->
              clean_numeric_columns s = (inl TypeError, set_df_changed true s)).
    { intros s Hs. unfold clean_numeric_columns. munfold.
      rewrite Hs, Hon, Hnone. reflexivity. }
    split; [by apply Hstage|].
    unfold run_all_cleaners. unfold mbind at 1. unfold M_bind.
    pose proof (clean_headers_returns st) as R1.
    pose proof (clean_headers_cfg st) as C1.
    destruct (clean_headers st) as [[e|[]] s1]; simpl in R1, C1; [done|].
    unfold mbind at 1. unfold M_bind.
    pose proof (clean_drop_dupplicates_returns s1) as R2.
    pose proof (clean_drop_dupplicates_cfg s1) as C2.
    destruct (clean_drop_dupplicates s1) as [[e|[]] s2]; simpl in R2, C2; [done|].
    unfold mbind at 1. unfold M_bind.
    rewrite Hstage by (unfold same_cfg in *; congruence).
    eexists. split; reflexivity.
  - intros Hcols [n Hn] Hnone. unfold clean_datetime_columns. munfold.
    rewrite Hon, Hcols, Hn, Hnone. reflexivity.
Qed.

Lemma col_index_None (d : DataFrame) (col : string) :
  col_index d col = None <-> col ∉ columns d.
Proof.
  unfold col_index. destruct (list_find _ _) as [[i c]|] eqn:E; simpl.
  - apply list_find_Some in E as (Hi & -> & _). split; [done|].
    intros H. exfalso. apply H. eapply list_elem_of_lookup_2, Hi.
  - split; [|done]. intros _ Hin.
    apply list_find_None in E. rewrite Forall_forall in E. by apply (E col).
Qed.

(** X4: a listed column that the table lacks aborts each conversion
    stage: when the first column listed for the numeric coercion, for a cast
    category or for the datetime parsing is not a column of the table, the
    stage raises [KeyError], having set the Mutation flag and logged that
    column, and leaves the table as it was. *)
Theorem conversions_raise_on_absent_column
    (st : CleanerCSV) (col : string) (rest : list string) :
  truthy (cfg_get (cfg st) "clean_types") = true ->
  col ∉ columns (df st) ->
  (cfg_get (cfg st) "numeric_col" = PyList (col :: rest) ->
     clean_numeric_columns st
     = (inl KeyError, add_log (INFO, RunningToNumeric col) (set_df_changed true st))) /\
  (forall t key, category_key t = Some key ->
     cfg_get (cfg st) key = PyList (col :: rest) ->
     run_astype_conversion t st
     = (inl KeyError, add_log (INFO, RunningAstype t col) (set_df_changed true st))) /\
  (forall form forms,
     cfg_get (cfg st) "datetime_col" = PyList (col :: rest) ->
     cfg_get (cfg st) "datetime_format" = PyList (form :: forms) ->
     length rest = length forms ->
     clean_datetime_columns st
     = (inl KeyError, add_log (INFO, RunningToDatetime col form) (set_df_changed true st))).
Proof.
  intros Hon Habs. apply col_index_None in Habs. unfold col_index in Habs.
  split; [|split].
  - intros Hl.
    unfold clean_numeric_columns, update_column, self_df, getitem, col_index.
    munfold. rewrite Hon, Hl. simpl. unfold mbind, M_bind. simpl.
    rewrite Habs. reflexivity.
  - intros t key Hkey Hl.
    unfold run_astype_conversion, astype_body, update_column, self_df, getitem,
      col_index.
    munfold. rewrite Hon, Hkey, Hl. simpl. unfold mbind, M_bind. simpl.
    rewrite Habs. reflexivity.
  - intros form forms Hc Hf Hlen.
    unfold clean_datetime_columns, update_column, self_df, getitem, col_index.
    munfold. rewrite Hon, Hc, Hf. simpl. rewrite Hlen, Nat.eqb_refl. simpl.
    unfold mbind, M_bind. simpl. rewrite Habs. reflexivity.
Qed.


(** *** Column removal *)

(** Where a label is found once the first occurrence of another label is
    deleted. *)
Lemma col_index_delete (l : list string) (col c : string) (i : nat) :
  fst <$> list_find (fun x => x = col) l = Some i ->
  c <> col ->
  match fst <$> list_find (fun x => x = c) l with
  | Some j =>
      j <> i /\
      fst <$> list_find (fun x => x = c) (delete i l)
        = Some (if decide (j < i) then j else pred j)
  | None => fst <$> list_find (fun x => x = c) (delete i l) = None
  end.
Proof.
  revert i. induction l as [|x l IH]; intros i Hi Hne; [done|].
  cbn [list_find] in Hi |- *.
  destruct (decide (x = col)) as [->|Hx].
  - injection Hi as <-. destruct (decide (col = c)) as [?|_]; [congruence|].
    cbn [delete list_delete].
    destruct (list_find (fun x => x = c) l) as [[j y]|]; cbn; [|done].
    split; [lia|]. done.
  - destruct (list_find (fun x => x = col) l) as [[i' y]|] eqn:E; [|done].
    cbn in Hi. injection Hi as <-. cbn [delete list_delete list_find].
    specialize (IH i' eq_refl Hne).
    destruct (decide (x = c)) as [->|Hc].
    + cbn. split; [lia|]. done.
    + destruct (list_find (fun x => x = c) l) as [[j z]|]; cbn in *.
      * destruct IH as [Hji IH]. split; [lia|].
        destruct (list_find (fun x => x = c) (delete i' l)) as [[j' z']|]; [|done].
        cbn in *. injection IH as ->.
        repeat case_decide; f_equal; lia.
      * destruct (list_find (fun x => x = c) (delete i' l)) as [[j' z']|]; done.
Qed.

(** The other columns keep their cells when a column is dropped. *)
Lemma getitem_drop_label (d d' : DataFrame) (col c : string) :
  drop_label d col = inr d' -> c <> col -> getitem d' c = getitem d c.
Proof.
  unfold drop_label, getitem, col_index.
  destruct (fst <$> list_find (λ x, x = col) (columns d)) as [i|] eqn:Hi; [|done].
  intros [= <-] Hne. simpl.
  pose proof (col_index_delete _ _ _ _ Hi Hne) as H.
  destruct (fst <$> list_find (λ x, x = c) (columns d)) as [j|].
  - destruct H as [Hji ->]. f_equal. rewrite map_map.
    apply map_ext. intros r. unfold cell_at. f_equal.
    case_decide.
    + by rewrite list_lookup_delete_lt.
    + rewrite list_lookup_delete_ge by lia. f_equal. lia.
  - by rewrite H.
Qed.

Lemma filter_all {A} (P : A -> Prop) `{!forall x, Decision (P x)} (l : list A) :
  (forall x, x ∈ l -> P x) -> filter P l = l.
Proof.
  induction l as [|x l IH]; intros Hall; [done|].
  rewrite filter_cons_True by (apply Hall; by left).
  f_equal. apply IH. intros y Hy. apply Hall. by right.
Qed.

Lemma delete_first_occurrence (l : list string) (col : string) (i : nat) :
  NoDup l ->
  fst <$> list_find (fun x => x = col) l = Some i ->
  delete i l = filter (fun x => x <> col) l.
Proof.
  intros Hnd. revert i. induction Hnd as [|x l Hx Hnd IH]; intros i Hi; [done|].
  simpl in Hi. case_decide as E.
  - injection Hi as <-. subst x. simpl.
    rewrite filter_cons_False by (intros H; by apply H).
    symmetry. apply filter_all. intros y Hy ->. done.
  - destruct (list_find (λ x, x = col) l) as [[i' y]|] eqn:E'; [|done].
    simpl in Hi. injection Hi as <-. simpl.
    rewrite filter_cons_True by done. f_equal. by apply IH.
Qed.

Lemma for_each_cons {A} (x : A) (l : list A) (body : A -> M unit) (s : CleanerCSV) :
  for_each (x :: l) body s
  = match body x s with
    | (inl e, s') => (inl e, s')
    | (inr _, s') => for_each l body s'
    end.
Proof. reflexivity. Qed.

(** One turn of the loop of [drop_columns]. *)
Lemma drop_columns_turn (col : string) (s : CleanerCSV) :
  exists s' l,
    try_except
      (d ← get df; d' ← lift (drop_label d col); modify (set_df d'))
      (fun e => match e with
                | KeyError => Some (log WARNING (ColumnNotInFrame col))
                | _ => None
                end) s = (inr tt, s') /\
    logger s' = logger s ++ l /\
    length (rows (df s')) = length (rows (df s)) /\
    sublist (columns (df s')) (columns (df s)) /\
    (forall c, c <> col -> getitem (df s') c = getitem (df s) c) /\
    (NoDup (columns (df s)) ->
       columns (df s') = filter (fun x => x <> col) (columns (df s))) /\
    (col ∉ columns (df s) -> (WARNING, ColumnNotInFrame col) ∈ l).
Proof.
  unfold try_except. munfold.
  destruct (drop_label (df s) col) as [e|d'] eqn:E.
  - assert (e = KeyError /\ col_index (df s) col = None) as [-> Hnone].
    { unfold drop_label in E. destruct (col_index (df s) col); [done|].
      by injection E as <-. }
    exists (add_log (WARNING, ColumnNotInFrame col) s), [(WARNING, ColumnNotInFrame col)].
    simpl. split; [done|]. split; [done|]. split; [done|]. split; [done|].
    split; [done|]. split.
    + intros _. symmetry. apply filter_all. intros y Hy ->.
      by apply col_index_None in Hnone.
    + intros _. by left.
  - exists (set_df d' s), []. simpl. rewrite app_nil_r.
    split; [done|]. split; [done|].
    pose proof (fun c => getitem_drop_label (df s) d' col c E) as Hget.
    unfold drop_label in E.
    destruct (col_index (df s) col) as [i|] eqn:Hi; [|done]. injection E as <-.
    simpl. split; [by rewrite length_map|]. split; [apply sublist_delete|].
    split; [intros c Hc; by apply (Hget c)|]. split.
    + intros Hnd. by apply delete_first_occurrence.
    + intros Habs. apply col_index_None in Habs. congruence.
Qed.

(** X5: for a [drop_col] list the column removal always returns
    normally; it keeps every row, keeps the cells of every column that is not
    listed, and logs a warning for each listed name that the table lacks;
    when the column labels are distinct, the columns left are those not
    listed, in their order. *)
Theorem drop_columns_removes_listed_columns (st : CleanerCSV) (cols : list string) :
  cfg_get (cfg st) "drop_col" = PyList cols ->
  exists st',
    drop_columns st = (inr tt, st') /\
    length (rows (df st')) = length (rows (df st)) /\
    (forall c, c ∉ cols -> getitem (df st') c = getitem (df st) c) /\
    (NoDup (columns (df st)) ->
       columns (df st') = filter (fun c => c ∉ cols) (columns (df st))) /\
    (forall c, c ∈ cols -> c ∉ columns (df st) ->
       (WARNING, ColumnNotInFrame c) ∈ logger st').
Proof.
  intros Hc.
  assert (Hloop : forall cols s, exists s' l,
    for_each cols (fun col =>
      try_except
        (d ← get df; d' ← lift (drop_label d col); modify (set_df d'))
        (fun e => match e with
                  | KeyError => Some (log WARNING (ColumnNotInFrame col))
                  | _ => None
                  end)) s = (inr tt, s') /\
    logger s' = logger s ++ l /\
    length (rows (df s')) = length (rows (df s)) /\
    sublist (columns (df s')) (columns (df s)) /\
    (forall c, c ∉ cols -> getitem (df s') c = getitem (df s) c) /\
    (NoDup (columns (df s)) ->
       columns (df s') = filter (fun c => c ∉ cols) (columns (df s))) /\
    (forall c, c ∈ cols -> c ∉ columns (df s) ->
       (WARNING, ColumnNotInFrame c) ∈ l)).
  { clear. induction cols as [|col cols IH]; intros s.
    - exists s, []. simpl. rewrite app_nil_r. repeat split; try done.
      + intros _. symmetry. apply filter_all. intros x _ Hx. inversion Hx.
      + intros c Hin. inversion Hin.
    - destruct (drop_columns_turn col s)
        as (s1 & l1 & Hrun1 & Hlog1 & Hlen1 & Hsub1 & Hget1 & Hcols1 & Hwarn1).
      destruct (IH s1) as (s' & l2 & Hrun & Hlog & Hlen & Hsub & Hget & Hcols & Hwarn).
      exists s', (l1 ++ l2). rewrite for_each_cons. cbv beta.
      rewrite Hrun1. split; [exact Hrun|].
      split; [by rewrite Hlog, Hlog1, app_assoc|].
      split; [congruence|]. split; [by etransitivity|]. split.
      { intros c Hnot. rewrite not_elem_of_cons in Hnot. destruct Hnot.
        rewrite Hget by done. by apply Hget1. }
      split.
      { intros Hnd. rewrite Hcols by (rewrite Hcols1 by done; by apply NoDup_filter).
        rewrite Hcols1 by done. rewrite list_filter_filter.
        apply list_filter_iff. intros x. rewrite not_elem_of_cons. tauto. }
      intros c Hin Habs. apply elem_of_app.
      apply elem_of_cons in Hin as [-> | Hin]; [left; by apply Hwarn1|].
      right. apply Hwarn; [done|]. intros Hc1. apply Habs.
      eapply elem_of_sublist; [exact Hc1 | exact Hsub1]. }
  unfold drop_columns. munfold. rewrite Hc.
  destruct cols as [|col cols]; simpl.
  - exists st. repeat split; try done.
    + intros _. symmetry. apply filter_all. intros x _ Hx. inversion Hx.
    + intros c Hin. inversion Hin.
  - destruct (Hloop (col :: cols) (add_log (INFO, DroppingColumns (PyList (col :: cols))) st))
      as (s' & l & Hrun & Hlog & Hlen & _ & Hget & Hcols & Hwarn).
    exists s'. split; [exact Hrun|]. split; [exact Hlen|].
    split; [exact Hget|]. split; [exact Hcols|].
    intros c Hin Habs. rewrite Hlog. apply elem_of_app. right. by apply Hwarn.
Qed.


(** *** Ingestion and the default specification *)

(** X6: [csv_read] reads the file named by [input_file] under the
    directory of the specification.  It parses it with [delimiter_in], or
    with a comma when that option is absent or empty, logs the path and
    returns the table; when there is no such file it logs an error and
    raises [FileNotFoundError].  It changes nothing else. *)
Theorem csv_read_delimiter_and_failure (st : CleanerCSV) (f : string) :
  cfg_get (cfg st) "input_file" = PyStr f ->
  (cfg_get (cfg st) "delimiter_in" = PyNone \/
   exists s, cfg_get (cfg st) "delimiter_in" = PyStr s) ->
  let source_path := path_join (local_path st) (Path_of f) in
  let sep := match cfg_get (cfg st) "delimiter_in" with
             | PyStr s => if String.eqb s "" then "," else s
             | _ => ","
             end in
  (forall parse,
     files st !! absolute st source_path = Some (CsvText parse) ->
     csv_read st = (inr (parse sep), add_log (INFO, LoadedData source_path) st)) /\
  (files st !! absolute st source_path = None ->
     csv_read st = (inl FileNotFoundError, add_log (ERROR, FailedToReadCSV) st)).
Proof.
  intros Hin Hsep source_path sep. subst sep.
  split; [intros parse Hfile | intros Hfile];
    unfold csv_read, read_csv; munfold; rewrite Hin; simpl; fold source_path;
    (destruct Hsep as [-> | [s ->]]; simpl;
     [by rewrite Hfile | destruct (String.eqb s ""); simpl; by rewrite Hfile]).
Qed.

(** X7: the fallback is reproducible.  When the default location holds
    no file, [create_default_config] answers the built-in default and writes
    it there, touching no other file; called again, it reads the same
    specification back from that file and writes nothing. *)
Theorem create_default_config_is_reproducible (s : CleanerCSV) :
  files s !! default_specs s = None ->
  exists s1,
    create_default_config s = (inr DEFAULT_CFG, s1) /\
    files s1 !! default_specs s = Some (JsonText DEFAULT_CFG) /\
    (forall p, p <> default_specs s -> files s1 !! p = files s !! p) /\
    create_default_config s1 = (inr DEFAULT_CFG, s1).
Proof.
  intros Habs. rewrite (create_default_config_absent _ Habs).
  eexists. split; [reflexivity|].
  assert (Hnew : files (set_files (<[default_specs s:=JsonText DEFAULT_CFG]> (files s)) s)
                 !! default_specs s = Some (JsonText DEFAULT_CFG))
    by apply lookup_insert_eq.
  split; [exact Hnew|]. split.
  - intros p Hp. simpl. by rewrite lookup_insert_ne.
  - by apply create_default_config_present.
Qed.



(** *** What a run preserves *)

Lemma select_sublist (mask : list bool) (rs : list row) :
  sublist (select mask rs) rs.
Proof.
  revert mask. induction rs as [|r rs IH]; intros [|b mask]; simpl;
    try apply sublist_nil_l.
  destruct b; [apply sublist_skip | apply sublist_cons]; apply IH.
Qed.

Lemma Forall_of_sublist {A} (P : A -> Prop) (k l : list A) :
  sublist k l -> Forall P l -> Forall P k.
Proof.
  intros Hs Hl. apply Forall_forall. intros x Hx.
  rewrite Forall_forall in Hl. eapply Hl, elem_of_sublist; done.
Qed.

Lemma col_index_lt (d : DataFrame) (col : string) (i : nat) :
  col_index d col = Some i -> i < length (columns d).
Proof.
  unfold col_index. destruct (list_find _ _) as [[j c]|] eqn:E; [|done].
  intros [= <-]. apply list_find_Some in E as (Hj & _). by eapply lookup_lt_Some.
Qed.

(** A relation that every elementary update of the table, of the flag and
    of the log respects is respected by a whole run, returning or raising. *)
Section RunFrames.
Context (R : relation CleanerCSV) `{!PreOrder R}.
Hypothesis R_log : forall r s, R s (add_log r s).
Hypothesis R_flag : forall s, R s (set_df_changed true s).
Hypothesis R_mask : forall s mask, R s (set_df (df_mask (df s) mask) s).
Hypothesis R_dedupe : forall s, R s (set_df (drop_duplicates (df s)) s).
Hypothesis R_dropna : forall s, R s (set_df (dropna_all (df s)) s).
Hypothesis R_setitem : forall s col i v,
  col_index (df s) col = Some i -> R s (set_df (setitem (df s) col v) s).
Hypothesis R_drop : forall s col d',
  drop_label (df s) col = inr d' -> R s (set_df d' s).

Lemma update_column_frames (col : string) (f : Series -> exn + Series) :
  frames R (update_column col f).
Proof.
  intros s. unfold update_column, self_df, getitem. munfold. simpl.
  destruct (col_index (df s) col) as [i|] eqn:Hi; simpl; [|reflexivity].
  destruct (f _) as [e|v]; simpl; [reflexivity|]. by eapply R_setitem.
Qed.

Lemma drop_label_frames (col : string) :
  frames R (d ← get df; d' ← lift (drop_label d col); modify (set_df d')).
Proof.
  intros s. munfold. simpl.
  destruct (drop_label (df s) col) as [e|d'] eqn:E; simpl; [reflexivity|].
  by eapply R_drop.
Qed.

Lemma run_all_cleaners_frames : frames R run_all_cleaners.
Proof.
  unfold run_all_cleaners, clean_headers, clean_drop_dupplicates,
    clean_numeric_columns, clean_datetime_columns, run_astype_conversion,
    astype_body, clean_drop_na, drop_columns, clean_quantile_outliers,
    outliers_body, drop_where.
  repeat first [ apply update_column_frames
               | apply drop_label_frames
               | frame_step ];
    first [ apply R_log | apply R_flag | apply R_mask | apply R_dedupe
          | apply R_dropna ].
Qed.

End RunFrames.

(** Everything but the table, the flag and the log is as it was, and the
    log has only grown. *)
Definition untouched : relation CleanerCSV := fun s s' =>
  cfg s' = cfg s /\ cfg_file s' = cfg_file s /\
  local_path s' = local_path s /\ logfile s' = logfile s /\
  input_profile s' = input_profile s /\ output_profile s' = output_profile s /\
  na_safe s' = na_safe s /\ cwd s' = cwd s /\ files s' = files s /\
  exists l, logger s' = logger s ++ l.

#[local] Instance untouched_preorder : PreOrder untouched.
Proof.
  split.
  - intros s. unfold untouched. repeat split; try done. exists []. by rewrite app_nil_r.
  - intros s1 s2 s3 (A1&A2&A3&A4&A5&A6&A7&A8&A9&l1&L1) (B1&B2&B3&B4&B5&B6&B7&B8&B9&l2&L2).
    unfold untouched. repeat split; try congruence.
    exists (l1 ++ l2). by rewrite L2, L1, app_assoc.
Qed.

(** X9: a run of the cleaners, returning or raising, acts on the table,
    the Mutation flag and the log only: it leaves the specification, the
    paths and the file system as they were, and only appends to the log. *)
Theorem run_all_cleaners_touches_only_table_flag_log (st : CleanerCSV) :
  let s' := (run_all_cleaners st).2 in
  cfg s' = cfg st /\ cfg_file s' = cfg_file st /\
  local_path s' = local_path st /\ logfile s' = logfile st /\
  input_profile s' = input_profile st /\ output_profile s' = output_profile st /\
  na_safe s' = na_safe st /\ cwd s' = cwd st /\ files s' = files st /\
  exists l, logger s' = logger st ++ l.
Proof.
  apply (run_all_cleaners_frames untouched); intros;
    unfold untouched; simpl; repeat split;
    first [ by exists [] ; rewrite app_nil_r | by eexists ].
Qed.

(** The table has no more rows, and its columns are among the former
    ones, in their order. *)
Definition shrinks : relation CleanerCSV := fun s s' =>
  length (rows (df s')) <= length (rows (df s)) /\
  sublist (columns (df s')) (columns (df s)).

#[local] Instance shrinks_preorder : PreOrder shrinks.
Proof.
  split.
  - by intros s.
  - intros s1 s2 s3 [L1 C1] [L2 C2]. split; [lia | by etransitivity].
Qed.

(** X10: a run of the cleaners, returning or raising, never adds a row
    and never adds, renames or reorders a column. *)
Theorem run_all_cleaners_never_adds_rows_or_columns (st : CleanerCSV) :
  length (rows (df (run_all_cleaners st).2)) <= length (rows (df st)) /\
  sublist (columns (df (run_all_cleaners st).2)) (columns (df st)).
Proof.
  apply (run_all_cleaners_frames shrinks); unfold shrinks; simpl.
  - done.
  - done.
  - intros s mask. split; [apply sublist_length, select_sublist | done].
  - intros s. split; [apply sublist_length, drop_duplicates_last_sublist | done].
  - intros s. split; [apply length_filter | done].
  - intros s col i v Hi. unfold setitem. rewrite Hi. simpl.
    by rewrite length_imap.
  - intros s col d' Hd. unfold drop_label in Hd.
    destruct (col_index (df s) col) as [i|]; [|done]. injection Hd as <-. simpl.
    rewrite length_map. split; [done | apply sublist_delete].
Qed.

Definition keeps_rectangular : relation CleanerCSV :=
  fun s s' => rectangular (df s) -> rectangular (df s').

#[local] Instance keeps_rectangular_preorder : PreOrder keeps_rectangular.
Proof.
  split.
  - intros s Hs. exact Hs.
  - intros s1 s2 s3 H1 H2 Hs. apply H2, H1, Hs.
Qed.

(** X11: when every row of the table holds one cell per column, so does
    every row of the table a run leaves, whether the run returns or raises
    part way. *)
Theorem run_all_cleaners_keeps_table_rectangular (st : CleanerCSV) :
  rectangular (df st) -> rectangular (df (run_all_cleaners st).2).
Proof.
  apply (run_all_cleaners_frames keeps_rectangular);
    unfold keeps_rectangular, rectangular; simpl.
  - done.
  - done.
  - intros s mask. apply Forall_of_sublist, select_sublist.
  - intros s. apply Forall_of_sublist, drop_duplicates_last_sublist.
  - intros s. apply Forall_of_sublist, sublist_filter.
  - intros s col i v Hi Hrect. unfold setitem. rewrite Hi. simpl.
    apply Forall_forall. intros r Hr.
    apply list_elem_of_lookup in Hr as [j Hj].
    rewrite list_lookup_imap in Hj.
    destruct (rows (df s) !! j) as [r0|] eqn:Hr0; [|done].
    injection Hj as <-. rewrite length_insert.
    rewrite Forall_forall in Hrect. eapply Hrect, list_elem_of_lookup_2, Hr0.
  - intros s col d' Hd Hrect. unfold drop_label in Hd.
    destruct (col_index (df s) col) as [i|] eqn:Hi; [|done]. injection Hd as <-.
    simpl. apply col_index_lt in Hi.
    apply Forall_forall. intros r Hr.
    apply list_elem_of_fmap in Hr as (r0 & -> & Hr0).
    rewrite Forall_forall in Hrect. specialize (Hrect r0 Hr0).
    rewrite (length_delete r0) by (apply lookup_lt_is_Some; lia).
    rewrite (length_delete (columns (df s))) by (apply lookup_lt_is_Some; lia).
    by rewrite Hrect.
Qed.


(** *** Conversions and the columns they are not asked to convert *)

Lemma frames_for_each_in {A} (R : relation CleanerCSV) `{!PreOrder R}
    (l : list A) (body : A -> M unit) :
  (forall x, x ∈ l -> frames R (body x)) -> frames R (for_each l body).
Proof.
  induction l as [|x l IH]; intros Hb; simpl.
  - by apply frames_ret.
  - apply frames_bind; [done | apply Hb; by left |].
    intros _. apply IH. intros y Hy. apply Hb. by right.
Qed.

(** Column [c] holds the same cells, and the table has the same columns
    and as many rows. *)
Definition keeps_column (c : string) : relation CleanerCSV := fun s s' =>
  getitem (df s') c = getitem (df s) c /\
  columns (df s') = columns (df s) /\
  length (rows (df s')) = length (rows (df s)).

#[local] Instance keeps_column_preorder c : PreOrder (keeps_column c).
Proof.
  split.
  - by intros s.
  - intros s1 s2 s3 (A1 & A2 & A3) (B1 & B2 & B3). unfold keeps_column.
    repeat split; congruence.
Qed.

Lemma getitem_setitem_other (d : DataFrame) (col c : string) (i : nat) (v : Series) :
  col_index d col = Some i -> c <> col ->
  getitem (setitem d col v) c = getitem d c.
Proof.
  intros Hi Hne. unfold setitem. rewrite Hi. unfold getitem, col_index in *. simpl.
  destruct (list_find (fun x => x = c) (columns d)) as [[j y]|] eqn:Hj; [|done].
  destruct (list_find (fun x => x = col) (columns d)) as [[i' z]|] eqn:Hi'; [|done].
  simpl in *. injection Hi as ->. f_equal.
  apply list_find_Some in Hj as (Hj & -> & _).
  apply list_find_Some in Hi' as (Hi' & -> & _).
  assert (i <> j) by (intros ->; congruence).
  apply list_eq. intros k. rewrite !list_lookup_fmap, list_lookup_imap.
  destruct (rows d !! k) as [r|]; [|done]. simpl. f_equal.
  unfold cell_at. by rewrite list_lookup_insert_ne.
Qed.

Lemma update_column_keeps (c col : string) (f : Series -> exn + Series) :
  c <> col -> frames (keeps_column c) (update_column col f).
Proof.
  intros Hne s. unfold update_column, self_df, getitem. munfold. simpl.
  destruct (col_index (df s) col) as [i|] eqn:Hi; simpl; [|done].
  destruct (f _) as [e|v]; simpl; [done|].
  split; [by eapply getitem_setitem_other|].
  unfold setitem. rewrite Hi. simpl. by rewrite length_imap.
Qed.

(** X12: the conversion stages (numeric coercion, the casts, datetime
    parsing) keep every row and the columns of the table, and leave the cells
    of every column they are not asked to convert exactly as they were,
    whether they return or raise part way. *)
Theorem conversions_touch_only_listed_columns (st : CleanerCSV) (c : string) :
  (forall cols, cfg_get (cfg st) "numeric_col" = PyList cols -> c ∉ cols ->
     keeps_column c st (clean_numeric_columns st).2) /\
  (forall t key cols, category_key t = Some key ->
     cfg_get (cfg st) key = PyList cols -> c ∉ cols ->
     keeps_column c st (run_astype_conversion t st).2) /\
  (forall cols, cfg_get (cfg st) "datetime_col" = PyList cols -> c ∉ cols ->
     keeps_column c st (clean_datetime_columns st).2).
Proof.
  assert (Hlog : forall r s, keeps_column c s (add_log r s)) by done.
  split; [|split].
  - intros cols Hl Hc. unfold clean_numeric_columns.
    change ((get cfg ≫= ?k) st) with (k (cfg st) st). cbv beta. rewrite Hl.
    destruct (truthy _); simpl; [|done].
    change (keeps_column c (set_df_changed true st)
              (for_each cols (fun col =>
                 log INFO (RunningToNumeric col);; update_column col to_numeric)
                 (set_df_changed true st)).2).
    apply (frames_for_each_in (keeps_column c)). intros col Hcol.
    apply frames_bind; [tc_solve | by apply frames_modify | intros _].
    apply update_column_keeps. by intros ->.
  - intros t key cols Hkey Hl Hc. unfold run_astype_conversion.
    change ((get cfg ≫= ?k) st) with (k (cfg st) st). cbv beta. rewrite Hkey, Hl.
    destruct (truthy _); simpl; [|done].
    destruct cols as [|col0 cols0]; simpl; [done|].
    change (keeps_column c (set_df_changed true st)
              (for_each (col0 :: cols0) (astype_body t) (set_df_changed true st)).2).
    apply (frames_for_each_in (keeps_column c)). intros col Hcol.
    unfold astype_body.
    apply frames_bind; [tc_solve | by apply frames_modify | intros _].
    apply frames_try; [tc_solve | apply update_column_keeps; by intros -> |].
    intros e h E. destruct e; inversion E. by apply frames_modify.
  - intros cols Hl Hc. unfold clean_datetime_columns.
    change ((get cfg ≫= ?k) st) with (k (cfg st) st). cbv beta. rewrite Hl.
    destruct (truthy (cfg_get (cfg st) "clean_types")); simpl; [|done].
    destruct cols as [|col0 cols0]; simpl; [done|].
    unfold mbind at 1. unfold M_bind, lift.
    destruct (py_len (cfg_get (cfg st) "datetime_format")) as [e|n]; [done|].
    unfold mbind at 1. unfold M_bind. cbv beta iota.
    destruct (negb (Nat.eqb (S (length cols0)) n)); [apply Hlog|].
    unfold mbind at 1 2 3. unfold M_bind, modify, lift. cbv beta iota.
    destruct (py_iter (cfg_get (cfg st) "datetime_format")) as [e|forms]; [done|].
    change (keeps_column c (set_df_changed true st)
              (for_each (zip (col0 :: cols0) forms) (fun cf =>
                 log INFO (RunningToDatetime cf.1 cf.2);;
                 update_column cf.1 (fun s => to_datetime s cf.2))
                 (set_df_changed true st)).2).
    apply (frames_for_each_in (keeps_column c)). intros [col form] Hcf.
    apply elem_of_zip_l in Hcf. simpl.
    apply frames_bind; [tc_solve | by apply frames_modify | intros _].
    apply update_column_keeps. by intros ->.
Qed.


(** *** Construction *)

Lemma bind_inr {A B} (m : M A) (f : A -> M B) (s s' : CleanerCSV) (y : B) :
  (m ≫= f) s = (inr y, s') ->
  exists x s1, m s = (inr x, s1) /\ f x s1 = (inr y, s').
Proof.
  unfold mbind, M_bind. destruct (m s) as [[e|x] s1]; [done|]. eauto.
Qed.

(** Loading the specification and reading the table leave the directory
    of the specification and the profile paths alone. *)
Definition same_attributes : relation CleanerCSV := fun s s' =>
  local_path s' = local_path s /\ input_profile s' = input_profile s /\
  output_profile s' = output_profile s /\ df s' = df s /\
  df_changed s' = df_changed s /\ na_safe s' = na_safe s.

#[local] Instance same_attributes_preorder : PreOrder same_attributes.
Proof.
  split.
  - by intros s.
  - intros s1 s2 s3 (A1&A2&A3&A4&A5&A6) (B1&B2&B3&B4&B5&B6).
    unfold same_attributes. repeat split; congruence.
Qed.

Lemma load_config_same_attributes cf : frames same_attributes (load_config cf).
Proof.
  unfold load_config, create_default_config, exists_, write_file.
  frame; by unfold same_attributes.
Qed.

Lemma read_csv_frames (R : relation CleanerCSV) `{!PreOrder R}
    (p : Path) (sep : pyval) :
  frames R (read_csv p sep).
Proof.
  intros s. unfold read_csv. destruct sep; try reflexivity.
  destruct (files s !! absolute s p) as [[]|]; reflexivity.
Qed.

Lemma csv_read_same_attributes : frames same_attributes csv_read.
Proof.
  unfold csv_read. frame; try by unfold same_attributes.
  all: apply read_csv_frames; tc_solve.
Qed.

Lemma csv_read_same_cfg : frames same_cfg csv_read.
Proof.
  unfold csv_read. frame; try done.
  all: apply read_csv_frames; tc_solve.
Qed.

Lemma path_div_inr (p q : Path) (v : pyval) :
  path_div p v = inr q -> exists s, v = PyStr s /\ q = path_join p (Path_of s).
Proof. destruct v; simpl; try done. intros [= <-]. eauto. Qed.

(** X13: what a successful construction establishes.  The directory of
    the object is the parent of the specification path, the Mutation flag and
    [na_safe] are false, the three path options [input_file],
    [input_file_profile] and [output_file_profile] are strings, and the two
    profile attributes are resolved from them; hence the first
    [html_profile] on the new object chooses the input target: it returns it
    when the report engine builds the report of the table that was read, and
    raises what the engine raises otherwise, which is [ValueError] when that
    table has no row. *)
Theorem init_establishes (s0 s : CleanerCSV) (config_file : Path) :
  init config_file s0 = (inr tt, s) ->
  local_path s = parent config_file /\
  df_changed s = false /\ na_safe s = false /\
  exists fin pin pout,
    cfg_get (cfg s) "input_file" = PyStr fin /\
    cfg_get (cfg s) "input_file_profile" = PyStr pin /\
    cfg_get (cfg s) "output_file_profile" = PyStr pout /\
    input_profile s = path_join BASE_DIR (Path_of pin) /\
    output_profile s = path_join BASE_DIR (Path_of pout) /\
    (html_profile s).1
      = (fun _ => path_join (parent config_file) (Path_of pin)) <$> to_file (df s) /\
    (rows (df s) = [] -> (html_profile s).1 = inl ValueError).
Proof.
  intros H. unfold init in H.
  apply bind_inr in H as ([] & sa & Ha & H). injection Ha as <-.
  apply bind_inr in H as ([] & sb & Hb & H). injection Hb as <-.
  apply bind_inr in H as ([] & sc & Hc & H).
  pose proof (load_config_same_attributes config_file
                (set_logfile (path_join BASE_DIR (Path_of "data_cleaner.log"))
                   (set_local_path (parent config_file) s0))) as Hattr.
  rewrite Hc in Hattr. destruct Hattr as (Hlp & _). simpl in Hlp.
  apply bind_inr in H as (c & sd & Hd & H). injection Hd as <- <-.
  apply bind_inr in H as ([] & se & He & H).
  assert (se = sc) as ->.
  { destruct (truthy _); [|by injection He].
    apply bind_inr in He as (? & ? & He1 & He2). unfold lift in He1.
    injection He2 as <-. by injection He1. }
  apply bind_inr in H as (ip & sf & Hf & H). unfold lift in Hf.
  injection Hf as Hip <-. apply path_div_inr in Hip as (pin & Hpin & ->).
  apply bind_inr in H as ([] & sg & Hg & H). injection Hg as <-.
  apply bind_inr in H as (op & sh & Hh & H). unfold lift in Hh.
  injection Hh as Hop <-. apply path_div_inr in Hop as (pout & Hpout & ->).
  apply bind_inr in H as ([] & si & Hi & H). injection Hi as <-.
  apply bind_inr in H as (d & sj & Hj & H).
  pose proof (csv_read_same_attributes
                (set_output_profile (path_join BASE_DIR (Path_of pout))
                   (set_input_profile (path_join BASE_DIR (Path_of pin)) sc)))
    as (Jlp & Jip & Jop & _).
  pose proof (csv_read_same_cfg
                (set_output_profile (path_join BASE_DIR (Path_of pout))
                   (set_input_profile (path_join BASE_DIR (Path_of pin)) sc)))
    as Jcfg.
  rewrite Hj in Jlp, Jip, Jop, Jcfg. unfold same_cfg in Jcfg. simpl in *.
  assert (exists fin, cfg_get (cfg sc) "input_file" = PyStr fin) as [fin Hfin].
  { unfold csv_read in Hj. apply bind_inr in Hj as (? & ? & Hj1 & Hj).
    injection Hj1 as <- <-.
    apply bind_inr in Hj as (? & ? & Hj2 & Hj). injection Hj2 as <- <-.
    apply bind_inr in Hj as (sp & ? & Hj3 & _). unfold lift in Hj3.
    injection Hj3 as Hj3 _. simpl in Hj3.
    apply path_div_inr in Hj3 as (fin & ? & _). eauto. }
  apply bind_inr in H as ([] & sk & Hk & H). injection Hk as <-.
  apply bind_inr in H as ([] & sl & Hl & H). injection Hl as <-.
  injection H as <-.
  assert (Hp : (html_profile (set_na_safe false (set_df_changed false (set_df d sj)))).1
               = (fun _ => path_join (parent config_file) (Path_of pin))
                   <$> to_file (df (set_na_safe false (set_df_changed false (set_df d sj))))).
  { rewrite (html_profile_eval _ pin pout) by (simpl; by rewrite Jcfg).
    cbv zeta. simpl. rewrite Jlp, Hlp. by destruct (to_file d). }
  simpl. simpl in Hp. rewrite Jlp, Jip, Jop, Jcfg, Hlp. simpl.
  split; [done|]. split; [done|]. split; [done|].
  exists fin, pin, pout.
  split; [done|]. split; [done|]. split; [done|]. split; [done|]. split; [done|].
  split; [exact Hp|].
  intros Hrows. rewrite Hp, (to_file_empty _ Hrows). done.
Qed.


(** *** Profiling and the empty specification *)


(** X15: a specification none of whose gates is open cleans nothing.
    When [drop_repeat_headers], [drop_duplicates], [clean_types], [drop_na],
    [drop_col] and [quantile_ouliers_col] are all absent, false or empty, a
    run returns the table as it is and leaves the whole object, flag and log
    included, unchanged. *)
Theorem run_all_cleaners_without_gates_is_identity (st : CleanerCSV) :
  truthy (cfg_get (cfg st) "drop_repeat_headers") = false ->
  truthy (cfg_get (cfg st) "drop_duplicates") = false ->
  truthy (cfg_get (cfg st) "clean_types") = false ->
  truthy (cfg_get (cfg st) "drop_na") = false ->
  truthy (cfg_get (cfg st) "drop_col") = false ->
  truthy (cfg_get (cfg st) "quantile_ouliers_col") = false ->
  run_all_cleaners st = (inr (df st), st).
Proof.
  intros H1 H2 H3 H4 H5 H6.
  unfold run_all_cleaners, clean_headers, clean_drop_dupplicates,
    clean_numeric_columns, clean_datetime_columns, run_astype_conversion,
    clean_drop_na, drop_columns, clean_quantile_outliers.
  munfold.
  repeat (first [ rewrite H1 | rewrite H2 | rewrite H3 | rewrite H4
                | rewrite H5 | rewrite H6 ]; simpl).
  reflexivity.
Qed.

End Properties.

(** *** Evaluations on the example objects

    The examples run on the reference implementation of the pandas calls
    and of the report engine. *)

#[local] Existing Instance reference.
#[local] Existing Instance reference_engine.

Lemma clean_drop_na_drops_only_all_missing_witness :
  truthy (cfg_get (cfg drop_na_object) "drop_na") = true /\
  exists st',
    clean_drop_na drop_na_object = (inr tt, st') /\
    columns (df st') = columns (df drop_na_object) /\
    rows (df st') = filter (fun r => forallb isna r = false) (rows (df drop_na_object)) /\
    sublist (rows (df st')) (rows (df drop_na_object)) /\
    (forall r, r ∈ rows (df st') <->
               r ∈ rows (df drop_na_object) /\ exists c, c ∈ r /\ isna c = false) /\
    (forall r, r ∈ rows (df drop_na_object) ->
               (r ∉ rows (df st') <-> forall c, c ∈ r -> isna c = true)).
Proof.
  split; [reflexivity|].
  apply (clean_drop_na_drops_only_all_missing drop_na_object). reflexivity.
Defined.

Example drop_na_example :
  rows (df (clean_drop_na drop_na_object).2) =
    [ [Str "x"; NaN]; [NaN; F 2]; [Str "y"; F 3] ].
Proof. vm_compute. reflexivity. Qed.

Lemma datetime_arity_mismatch_skips_stage_witness :
  clean_datetime_columns (pd := reference) arity_mismatch_object =
    (inr tt, add_log (WARNING, DatetimeSkipped 2 1) arity_mismatch_object).
Proof.
  refine (proj1 (datetime_arity_mismatch_skips_stage (pd := reference)
            arity_mismatch_object ["D1"; "D2"] 1 _ _ _ _ _) arity_mismatch_object _);
    first [reflexivity | done].
Defined.


(** **** Loading and lookup *)

Lemma absent_key_reads_None_witness :
  exists s',
    load_config spec_json (fresh work files_without_drop_duplicates) = (inr tt, s') /\
    cfg_get (cfg s') "drop_duplicates" = PyNone /\
    cfg_get (cfg s') "drop_na" = PyBool true /\
    clean_drop_dupplicates (set_df orders_table s') = (inr tt, set_df orders_table s').
Proof.
  destruct (absent_key_reads_None (fresh work files_without_drop_duplicates)
              spec_json (delete "drop_duplicates" DEFAULT_CFG))
    as (s' & Hload & Hcfg & _ & Hget & Hstages); [reflexivity|].
  exists s'. split; [exact Hload|].
  split; [rewrite Hget; reflexivity|]. split; [rewrite Hget; reflexivity|].
  apply (Hstages (set_df orders_table s')); [exact Hcfg | reflexivity].
Defined.

(** C1, refuted as stated: the specification file lacks [drop_duplicates];
    it loads, the lookup answers [None] and not the documented default
    [true], and duplicate removal leaves the repeated order in the table.
    With [input_file] deleted instead, the construction raises [TypeError]
    rather than reading [data/my_data.csv]. *)
Lemma absent_key_is_not_defaulted :
  let made := init spec_json (fresh work files_without_drop_duplicates) in
  made.1 = inr tt /\
  cfg made.2 !! "drop_duplicates" = None /\
  cfg_get (cfg made.2) "drop_duplicates" = PyNone /\
  documented_default "drop_duplicates" = PyBool true /\
  cfg_get (cfg made.2) "drop_duplicates"
    <> lookup_with_default (cfg made.2) "drop_duplicates" /\
  df made.2 = orders_table /\
  clean_drop_dupplicates made.2 = (inr tt, made.2) /\
  drop_duplicates (df made.2) <> df made.2 /\
  (init spec_json (fresh work files_without_input_file)).1
    = inl TypeError.
Proof.
  cbv zeta.
  split; [vm_compute; reflexivity|].
  split; [vm_compute; reflexivity|].
  split; [vm_compute; reflexivity|].
  split; [vm_compute; reflexivity|].
  split; [vm_compute; intros H; discriminate H|].
  split; [vm_compute; reflexivity|].
  split; [vm_compute; reflexivity|].
  split; [vm_compute; intros H; discriminate H|].
  vm_compute; reflexivity.
Qed.

Lemma load_config_falls_back_witness :
  exists s' warning,
    load_config spec_json (fresh work files_with_broken_spec) = (inr tt, s') /\
    cfg s' = DEFAULT_CFG /\
    files s' !! Path_of "/work/default_specs.json" = Some (JsonText DEFAULT_CFG) /\
    cfg_file s' = Path_of "/work/default_specs.json" /\
    warning = ConfigNotValidJSON spec_json /\
    logger s' = [(WARNING, warning);
                 (INFO, LoadedConfig (Path_of "/work/default_specs.json"))] /\
    cfg_file s' <> spec_json.
Proof.
  destruct (load_config_falls_back (fresh work files_with_broken_spec) spec_json)
    as (s' & w & Hload & Hcfg & Hfiles & Hfile & Hw & Hlog & Hne);
    [vm_compute; exact I | left; reflexivity |].
  exists s', w. split; [exact Hload|]. split; [exact Hcfg|].
  split; [rewrite Hfiles, Hcfg; apply lookup_insert_eq|].
  split; [exact Hfile|]. split; [exact Hw|]. split; [exact Hlog|].
  apply Hne. vm_compute. congruence.
Defined.

(** C4, refuted as stated.  (1) The default location itself is requested
    and holds no file, as on a first run without arguments: the resolved
    path equals the requested one.  (2) The requested file is missing and
    the file at the default location is not JSON: loading raises.  (3) The
    requested file is missing and the file at the default location was
    edited: its content, not the built-in default, is substituted.  (4) The
    requested file exists and fails to parse because its bytes are not
    UTF-8, or because it is a directory: loading raises
    [UnicodeDecodeError], or [IsADirectoryError], which neither handler
    catches, and nothing is substituted or logged. *)
Lemma fallback_can_raise_or_go_unreported :
  (let s := (load_config (Path_of "/work/default_specs.json") (fresh work ∅)).2 in
   cfg_file s = Path_of "/work/default_specs.json") /\
  (load_config spec_json (fresh work files_with_broken_default)).1
    = inl JSONDecodeError /\
  (let s := (load_config spec_json (fresh work files_with_edited_default)).2 in
   cfg s = edited_default /\ cfg s <> DEFAULT_CFG) /\
  load_config spec_json (fresh work files_with_undecodable_spec)
    = (inl UnicodeDecodeError, fresh work files_with_undecodable_spec) /\
  load_config spec_json (fresh work files_with_directory_spec)
    = (inl IsADirectoryError, fresh work files_with_directory_spec).
Proof.
  split; [reflexivity|]. split; [reflexivity|].
  split; [|split; vm_compute; reflexivity].
  split; [reflexivity|].
  intros H. apply (f_equal (fun c : config => c !! "drop_duplicates")) in H.
  vm_compute in H. congruence.
Qed.


(** **** Stage order *)

(** C2, refuted as stated: on a column listed for datetime parsing and
    for the cast to string, the run parses first and casts afterwards: the
    log has the datetime record before the cast record and the column ends
    as the strings ["NaT"], whereas the numbered order of §4.4, casts before
    parsing, would leave missing datetimes. *)
Lemma casts_run_after_datetime_parsing :
  logger (run_all_cleaners order_object).2
    = [(INFO, RunningToDatetime "D" "%Y"); (INFO, RunningAstype "str" "D")] /\
  (run_all_cleaners order_object).1
    = inr (mkDF ["D"] [ [Str "NaT"]; [Str "NaT"] ]) /\
  (stages_in_numbered_order order_object).1
    = inr (mkDF ["D"] [ [NaT]; [NaT] ]) /\
  run_all_cleaners order_object <> stages_in_numbered_order order_object.
Proof.
  split; [reflexivity|]. split; [reflexivity|]. split; [reflexivity|].
  intros H. apply (f_equal fst) in H. vm_compute in H. congruence.
Qed.

(** **** Mutation flag *)

(** C3 on the inputs where the code departs from it.  A specification that
    only asks for the removal of the column [Product], and one that only
    lists outlier columns: the run removes the column, or four of the nine
    rows, and the flag is still false.  A specification with [clean_types] on
    and an empty [numeric_col]: the numeric stage leaves the table as it is
    and sets the flag. *)
Lemma flag_misses_column_and_outlier_removal_witness :
  (let run := run_all_cleaners drop_col_object in
   df_changed drop_col_object = false /\
   columns (df drop_col_object) = ["Order ID"; "Product"] /\
   columns (df run.2) = ["Order ID"] /\
   df_changed run.2 = false) /\
  (let run := run_all_cleaners outlier_object in
   length (rows (df outlier_object)) = 9 /\
   length (rows (df run.2)) = 5 /\
   df_changed run.2 = false) /\
  clean_numeric_columns numeric_gate_object
    = (inr tt, set_df_changed true numeric_gate_object).
Proof.
  split; [|split].
  - destruct (flag_misses_column_and_outlier_removal drop_col_object)
      as (_ & _ & Hrun & _).
    cbv zeta. split; [reflexivity|]. split; [reflexivity|].
    split; [vm_compute; reflexivity|].
    rewrite Hrun; reflexivity.
  - destruct (flag_misses_column_and_outlier_removal outlier_object)
      as (_ & _ & Hrun & _).
    cbv zeta. split; [reflexivity|]. split; [vm_compute; reflexivity|].
    rewrite Hrun; reflexivity.
  - destruct (flag_misses_column_and_outlier_removal numeric_gate_object)
      as (_ & _ & _ & Hnum & _).
    apply Hnum; reflexivity.
Defined.

(** **** Profiling target *)

Lemma html_profile_target_follows_flag_witness :
  let before := html_profile profile_object in
  let run := run_all_cleaners before.2 in
  let after := html_profile run.2 in
  df_changed run.2 = true /\
  before.1 = inr (Path_of "/work/profiles/input_file.html") /\
  after.1 = inr (Path_of "/work/profiles/output_file.html") /\
  before.1 <> after.1.
Proof.
  destruct (html_profile_target_follows_flag profile_object
              "profiles/input_file.html" "profiles/output_file.html")
    as [_ H]; [reflexivity | reflexivity |].
  destruct H as [H _]; [reflexivity|].
  destruct H as (Hset & Hb & Ha & Hne); [reflexivity|].
  cbv zeta.
  assert (Eb : (html_profile profile_object).1
               = inr (Path_of "/work/profiles/input_file.html"))
    by (rewrite Hb; vm_compute; reflexivity).
  split; [exact Hset|]. split; [exact Eb|].
  split; [rewrite Ha; vm_compute; reflexivity|].
  intros Heq. rewrite Eb in Heq. symmetry in Heq.
  revert Heq. apply Hne; [vm_compute; congruence | exact Eb].
Defined.

(** C8, refuted as stated.  (1) A run that removes the duplicated order,
    on a specification naming one file for both profiles: the table is
    mutated, the flag is set, and the call after the run returns the path of
    the call before it.  (2) A run that removes a column, which leaves the
    flag unset: again one path.  (3) A run that removes the duplicates and
    then, as outliers, every row: the call after the run raises
    [ValueError] and yields no path. *)
Lemma profile_paths_can_coincide :
  (let before := html_profile one_profile_object in
   let run := run_all_cleaners before.2 in
   let after := html_profile run.2 in
   df run.2 <> df one_profile_object /\ df_changed run.2 = true /\
   before.1 = inr (Path_of "/work/profile.html") /\ after.1 = before.1) /\
  (let before := html_profile drop_col_object in
   let run := run_all_cleaners before.2 in
   let after := html_profile run.2 in
   df run.2 <> df drop_col_object /\ df_changed run.2 = false /\
   before.1 = inr (Path_of "/work/profiles/input_file.html") /\
   after.1 = before.1) /\
  (let before := html_profile emptied_object in
   let run := run_all_cleaners before.2 in
   let after := html_profile run.2 in
   before.1 = inr (Path_of "/work/profiles/input_file.html") /\
   run.1 = inr (mkDF ["A"; "B"] []) /\ df_changed run.2 = true /\
   after.1 = inl ValueError).
Proof. vm_compute. repeat split; congruence. Qed.

(** **** Casts *)

Lemma cast_failure_leaves_column_and_continues_witness :
  run_astype_conversion "int" cast_object =
    (inr tt,
     add_log (ERROR, AstypeFailed "A" "int")
       (add_log (INFO, RunningAstype "int" "A") (set_df_changed true cast_object))).
Proof.
  refine (proj2 (proj2 (cast_failure_leaves_column_and_continues
            "int" "int_col" cast_object (set_df_changed true cast_object)
            [] [] "A" [Str "1"; Str "bad"; Str "3"] _ _ _ _ _ _)));
    reflexivity.
Defined.

(** The example of the specification, through a whole run: column [A]
    keeps its strings, and the float category that follows is processed. *)
Example cast_failure_example :
  let s := (run_all_cleaners cast_object).2 in
  (run_all_cleaners cast_object).1 = inr (df s) /\
  getitem (df s) "A" = inr [Str "1"; Str "bad"; Str "3"] /\
  getitem (df s) "B" = inr [Float (float_lit 3 (-1)); F 2; F 3] /\
  logger s = [(INFO, RunningAstype "int" "A"); (ERROR, AstypeFailed "A" "int");
              (INFO, RunningAstype "float" "B")].
Proof. vm_compute. repeat split. Qed.

(** C6, refuted as stated: the column is parsed as datetime and then
    cast to float; the cast raises [TypeError], which the stage does not
    catch, and the exception surfaces from the run.  So does the [KeyError]
    of a listed column that the table does not have. *)
Lemma cast_exception_can_surface :
  (let s := (clean_datetime_columns datetime_float_object).2 in
   getitem (df s) "D" = inr [Timestamp 1546300800000000000; NaT] /\
   astype [Timestamp 1546300800000000000; NaT] py_float = inl TypeError /\
   (run_astype_conversion "float" s).1 = inl TypeError /\
   (run_all_cleaners datetime_float_object).1 = inl TypeError) /\
  (run_astype_conversion "int" absent_column_object).1 = inl KeyError /\
  (run_all_cleaners absent_column_object).1 = inl KeyError.
Proof. vm_compute. repeat split. Qed.

(** **** Outliers *)

Lemma clean_quantile_outliers_is_sequential_fold_witness :
  clean_quantile_outliers outlier_object =
    (inr tt,
     set_df (mkDF ["A"; "B"]
               [ [Int 5; Int 1]; [Int 5; Int 1]; [Int 5; Int 1];
                 [Int 5; Int 1]; [Int 5; Int 1] ]) outlier_object).
Proof.
  destruct (clean_quantile_outliers_is_sequential_fold outlier_object ["A"; "B"])
    as [H _]; [reflexivity | done |].
  vm_compute in H. vm_compute. exact H.
Defined.

(** The statistics of [B] are taken on the rows that survived [A]: there
    both quartiles of [B] are 1 and the five rows with [B = 1] stay.  On the
    whole table the quartiles of [B] are 1 and 2, the bounds 2.5 and 0.5,
    and, [B] being listed alone, no row is within them. *)
Example outliers_are_cumulative :
  outlier_step "A" outlier_table
    = inr (mkDF ["A"; "B"] (take 7 (rows outlier_table))) /\
  outlier_bounds (map (cell_at 1) (take 7 (rows outlier_table)))
    = inr (Ref.F64 (float_of_Z 1), Ref.F64 (float_of_Z 1)) /\
  outlier_bounds (map (cell_at 1) (rows outlier_table))
    = inr (Ref.F64 (float_lit 5 (-1)), Ref.F64 (float_lit 1 (-1))) /\
  rows (df (clean_quantile_outliers outlier_B_object).2) = [].
Proof. vm_compute. repeat split. Qed.

(** A numeric column and a datetime column, each with a missing value and
    without [drop_na]: the stage returns, and the row with [NaN], or with
    [NaT], is gone. *)
Lemma outliers_remove_missing_values_witness :
  (exists st',
     clean_quantile_outliers missing_value_object = (inr tt, st') /\
     rows (df st') = [ [F 5; Str "x"]; [F 5; Str "z"]; [F 5; NaN] ] /\
     forall r, r ∈ rows (df st') ->
       exists i, col_index (df st') "A" = Some i /\ isna (cell_at i r) = false) /\
  (exists st',
     clean_quantile_outliers missing_date_object = (inr tt, st') /\
     rows (df st') = [ [Timestamp 1546300800000000000; Str "x"];
                       [Timestamp 1546300800000000000; Str "z"] ] /\
     forall r, r ∈ rows (df st') ->
       exists i, col_index (df st') "D" = Some i /\ isna (cell_at i r) = false).
Proof.
  split.
  - destruct (outliers_remove_missing_values missing_value_object ["A"])
      as [Hkeep Htotal]; [reflexivity | done |].
    destruct Htotal as [st' Hrun].
    { intros col Hcol. apply list_elem_of_singleton in Hcol as ->.
      eexists. split; [reflexivity|]. right. repeat constructor. }
    exists st'. split; [exact Hrun|].
    destruct (Hkeep st' Hrun) as (_ & _ & Hna).
    split.
    + assert (E : clean_quantile_outliers missing_value_object
                  = (inr tt, (clean_quantile_outliers missing_value_object).2))
        by (vm_compute; reflexivity).
      rewrite Hrun in E at 1. injection E as ->. vm_compute. reflexivity.
    + intros r Hr. apply (Hna "A" r); [by left | exact Hr].
  - destruct (outliers_remove_missing_values missing_date_object ["D"])
      as [Hkeep _]; [reflexivity | done |].
    assert (Hrun : clean_quantile_outliers missing_date_object
                   = (inr tt, (clean_quantile_outliers missing_date_object).2))
      by (vm_compute; reflexivity).
    eexists. split; [exact Hrun|].
    destruct (Hkeep _ Hrun) as (_ & _ & Hna).
    split; [vm_compute; reflexivity|].
    intros r Hr. apply (Hna "D" r); [by left | exact Hr].
Defined.


(** **** Further evaluations *)

Lemma clean_headers_removes_repeated_headers_witness :
  exists st',
    clean_headers header_object = (inr tt, st') /\
    rows (df st') = [ [Str "1"; Str "cable"]; [Str "2"; Str "phone"] ] /\
    [Str "Order ID"; Str "Product"] ∉ rows (df st').
Proof.
  destruct (clean_headers_removes_repeated_headers header_object)
    as (st' & Hrun & _ & _ & Hrows); [reflexivity|].
  exists st'. split; [exact Hrun|]. split.
  - assert (E : clean_headers header_object
                = (inr tt, (clean_headers header_object).2)) by reflexivity.
    rewrite Hrun in E at 1. injection E as ->. reflexivity.
  - intros Hin. apply Hrows in Hin as [_ Hno]. apply Hno.
    exists 0, "Order ID". split; reflexivity.
Defined.

Lemma clean_drop_dupplicates_keeps_last_copies_witness :
  exists st',
    clean_drop_dupplicates duplicates_object = (inr tt, st') /\
    (forall r, r ∈ rows orders_table ->
       exists q, q ∈ rows (df st') /\ row_same r q = true) /\
    rows (df st') = filter (fun r => existsb (row_same r) (drop 3 (rows orders_table))
                                     = false)
                      (drop_duplicates_last (take 3 (rows orders_table)))
                    ++ drop_duplicates_last (drop 3 (rows orders_table)).
Proof.
  destruct (clean_drop_dupplicates_keeps_last_copies duplicates_object)
    as (st' & Hrun & _ & _ & Hrep & _ & Hlast & _); [reflexivity|].
  exists st'. split; [exact Hrun|]. split; [exact Hrep|].
  apply Hlast. reflexivity.
Defined.

Example drop_duplicates_example :
  rows (df (clean_drop_dupplicates duplicates_object).2)
  = [ [Str "1"; Str "cable"]; [Str "2"; Str "phone"]; [Str "3"; Str "screen"] ].
Proof. vm_compute. reflexivity. Qed.

(** The two zeros are one value: of [0.0] and the later [-0.0], the later
    one stays. *)
Example drop_duplicates_zeros :
  rows (df (clean_drop_dupplicates zeros_object).2)
  = [ [F 1]; [Float (S754_zero true)] ].
Proof. vm_compute. reflexivity. Qed.

Lemma clean_types_needs_list_options_witness :
  clean_numeric_columns clean_types_only_object
    = (inl TypeError, set_df_changed true clean_types_only_object) /\
  clean_datetime_columns clean_types_only_object
    = (inl TypeError, clean_types_only_object).
Proof.
  destruct (clean_types_needs_list_options clean_types_only_object)
    as [Hnum Hdate]; [reflexivity|].
  split.
  - apply Hnum. reflexivity.
  - apply Hdate; [reflexivity | by exists 1 | reflexivity].
Defined.

Lemma conversions_raise_on_absent_column_witness :
  run_astype_conversion "int" absent_column_object
  = (inl KeyError,
     add_log (INFO, RunningAstype "int" "Z") (set_df_changed true absent_column_object)).
Proof.
  destruct (conversions_raise_on_absent_column absent_column_object "Z" [])
    as (_ & Hcast & _); [reflexivity | |].
  - vm_compute. intros H. repeat (apply elem_of_cons in H as [H|H]; [discriminate H|]).
    inversion H.
  - apply (Hcast "int" "int_col"); reflexivity.
Defined.

Lemma drop_columns_removes_listed_columns_witness :
  exists st',
    drop_columns drop_two_object = (inr tt, st') /\
    columns (df st') = ["Order ID"] /\
    getitem (df st') "Order ID" = getitem (df drop_two_object) "Order ID" /\
    (WARNING, ColumnNotInFrame "Price") ∈ logger st'.
Proof.
  destruct (drop_columns_removes_listed_columns drop_two_object ["Product"; "Price"])
    as (st' & Hrun & _ & Hget & Hcols & Hwarn); [reflexivity|].
  exists st'. split; [exact Hrun|]. split; [|split].
  - rewrite Hcols; [reflexivity|]. vm_compute. repeat constructor.
    + intros H. repeat (apply elem_of_cons in H as [H|H]; [discriminate H|]).
      inversion H.
    + intros H. inversion H.
  - apply Hget. intros H.
    repeat (apply elem_of_cons in H as [H|H]; [discriminate H|]). inversion H.
  - apply Hwarn; [by right; left|]. vm_compute. intros H.
    repeat (apply elem_of_cons in H as [H|H]; [discriminate H|]). inversion H.
Defined.

Lemma csv_read_delimiter_and_failure_witness :
  csv_read reading_object
  = (inr orders_table,
     add_log (INFO, LoadedData (Path_of "/work/data/my_data.csv")) reading_object).
Proof.
  destruct (csv_read_delimiter_and_failure reading_object "data/my_data.csv")
    as [Hread _]; [reflexivity | by left |].
  exact (Hread _ eq_refl).
Defined.

Lemma create_default_config_is_reproducible_witness :
  exists s1,
    create_default_config (fresh work ∅) = (inr DEFAULT_CFG, s1) /\
    create_default_config s1 = (inr DEFAULT_CFG, s1).
Proof.
  destruct (create_default_config_is_reproducible (fresh work ∅))
    as (s1 & H1 & _ & _ & H2); [reflexivity|].
  by exists s1.
Defined.

Lemma run_all_cleaners_keeps_table_rectangular_witness :
  rectangular (df (run_all_cleaners cast_object).2).
Proof.
  apply run_all_cleaners_keeps_table_rectangular.
  unfold rectangular. vm_compute. repeat constructor.
Defined.

Lemma init_establishes_witness :
  let s := (init spec_json (fresh work files_without_drop_duplicates)).2 in
  local_path s = work /\ df_changed s = false /\
  (html_profile s).1 = inr (Path_of "/work/profiles/input_file.html").
Proof.
  cbv zeta.
  assert (Hinit : init spec_json (fresh work files_without_drop_duplicates)
            = (inr tt, (init spec_json (fresh work files_without_drop_duplicates)).2))
    by (vm_compute; reflexivity).
  destruct (init_establishes _ _ _ Hinit)
    as (Hlp & Hflag & _ & fin & pin & pout & _ & Hpin & _ & _ & _ & Hprofile & _).
  split; [exact Hlp|]. split; [exact Hflag|].
  rewrite Hprofile.
  assert (Et : to_file (df (init spec_json (fresh work files_without_drop_duplicates)).2)
               = inr tt) by (vm_compute; reflexivity).
  rewrite Et. simpl. f_equal.
  assert (E : pin = "profiles/input_file.html").
  { assert (Hv : cfg_get (cfg (init spec_json
                     (fresh work files_without_drop_duplicates)).2)
                   "input_file_profile" = PyStr "profiles/input_file.html")
      by (vm_compute; reflexivity).
    rewrite Hv in Hpin. by injection Hpin. }
  rewrite E. vm_compute. reflexivity.
Defined.

Lemma run_all_cleaners_without_gates_is_identity_witness :
  run_all_cleaners idle_object = (inr sparse_table, idle_object).
Proof.
  apply (run_all_cleaners_without_gates_is_identity idle_object); reflexivity.
Defined.

